(** * dbt-api-service-controller: deployment workflow

    A shallow embedding of [app/api/routes/deployments.py],
    [app/services/airflow_service.py] and the data-warehouse validators of
    [app/api/schemas/deployment.py].

    Conventions.
    - A Python [str] is a Rocq [string]; its characters are 8-bit, so
      [str.lower] acts on the ASCII letters and [str.encode] is the
      identity on bytes.  For ASCII text the model is exact.
    - Integers are [Z]; [len] returns a [Z] so that a negative slice bound
      keeps its Python meaning.
    - The request handed to a handler has passed [DeploymentCreateSchema],
      which makes every key present: it is a record.  A [dict] used as a
      map (the raw input of the schema, its context) is a [gmap]; a dict
      literal sent or answered keeps its order in an association list.
    - [subprocess.run], the Airflow HTTP API and the template renderer are
      an environment: a function from the commands issued so far and the
      next command to its outcome.  Every command issued is recorded.
    - An exception is a value: a computation returns [Ok a] or [Raise e]. *)

From Stdlib Require Import ZArith List Ascii String Bool Lia.
From stdpp Require Import base option gmap strings list pretty.
Import ListNotations.

Local Open Scope string_scope.
Local Open Scope list_scope.
Local Open Scope Z_scope.

Set Warnings "-register-all".

(** ** Python strings *)

Module PyStr.

(** [len(s)] *)
Definition len (s : string) : Z := Z.of_nat (String.length s).

Fixpoint take (n : nat) (s : string) : string :=
  match n, s with
  | O, _ => EmptyString
  | S _, EmptyString => EmptyString
  | S n', String c s' => String c (take n' s')
  end.

(** [s[:n]]: a negative bound counts from the end. *)
Definition slice_to (s : string) (n : Z) : string :=
  if 0 <=? n then take (Z.to_nat n) s
  else take (Z.to_nat (len s + n)) s.

Definition is_upper (c : ascii) : bool :=
  let n := nat_of_ascii c in (Nat.leb 65 n && Nat.leb n 90)%bool.

Definition lower_char (c : ascii) : ascii :=
  if is_upper c then ascii_of_nat (nat_of_ascii c + 32) else c.

(** [s.lower()] for ASCII text.  A character outside ASCII is left as
    it is, where Python lowers the letters among them too, one of them
    (U+0130) to two characters. *)
Fixpoint lower (s : string) : string :=
  match s with
  | EmptyString => EmptyString
  | String c s' => String (lower_char c) (lower s')
  end.

Definition is_lower_alpha (c : ascii) : bool :=
  let n := nat_of_ascii c in (Nat.leb 97 n && Nat.leb n 122)%bool.

Definition is_digit (c : ascii) : bool :=
  let n := nat_of_ascii c in (Nat.leb 48 n && Nat.leb n 57)%bool.

(** [re.sub(r'[^...]', r, s)] for a character class given as a
    predicate [keep] and a one-character replacement. *)
Fixpoint sub_not_in (keep : ascii -> bool) (r : ascii) (s : string) : string :=
  match s with
  | EmptyString => EmptyString
  | String c s' =>
      String (if keep c then c else r) (sub_not_in keep r s')
  end.

(** [re.sub(r'c+', 'c', s)]: every maximal run of [r] becomes one [r]. *)
Fixpoint collapse (r : ascii) (s : string) : string :=
  match s with
  | EmptyString => EmptyString
  | String c s' =>
      if Ascii.eqb c r then
        match s' with
        | String c' _ =>
            if Ascii.eqb c' r then collapse r s' else String c (collapse r s')
        | EmptyString => String c EmptyString
        end
      else String c (collapse r s')
  end.

(** [s.lstrip(c)] *)
Fixpoint lstrip (r : ascii) (s : string) : string :=
  match s with
  | EmptyString => EmptyString
  | String c s' => if Ascii.eqb c r then lstrip r s' else s
  end.

(** [s.rstrip(c)] *)
Fixpoint rstrip (r : ascii) (s : string) : string :=
  match s with
  | EmptyString => EmptyString
  | String c s' =>
      match rstrip r s' with
      | EmptyString => if Ascii.eqb c r then EmptyString else String c EmptyString
      | t => String c t
      end
  end.

(** [s.strip(c)] *)
Definition strip (r : ascii) (s : string) : string := rstrip r (lstrip r s).

(** [s.startswith(p)] *)
Fixpoint startswith (p s : string) : bool :=
  match p, s with
  | EmptyString, _ => true
  | String _ _, EmptyString => false
  | String a p', String b s' => Ascii.eqb a b && startswith p' s'
  end.

(** Truthiness of a [str]: the empty string is false. *)
Definition truthy (s : string) : bool :=
  match s with EmptyString => false | _ => true end.

End PyStr.

(** ** [hashlib.md5]

    The digest follows RFC 1321 on 32-bit words held in [Z]; the examples
    below check it against the reference vectors. *)

Module MD5.

Definition mask32 : Z := 4294967295.

Definition add32 (x y : Z) : Z := Z.land (x + y) mask32.

Definition not32 (x : Z) : Z := Z.lxor x mask32.

Definition rotl32 (x n : Z) : Z :=
  Z.land (Z.lor (Z.shiftl x n) (Z.shiftr x (32 - n))) mask32.

Definition K : list Z :=
  [ 3614090360; 3905402710; 606105819; 3250441966; 4118548399; 1200080426;
    2821735955; 4249261313; 1770035416; 2336552879; 4294925233; 2304563134;
    1804603682; 4254626195; 2792965006; 1236535329; 4129170786; 3225465664;
    643717713; 3921069994; 3593408605; 38016083; 3634488961; 3889429448;
    568446438; 3275163606; 4107603335; 1163531501; 2850285829; 4243563512;
    1735328473; 2368359562; 4294588738; 2272392833; 1839030562; 4259657740;
    2763975236; 1272893353; 4139469664; 3200236656; 681279174; 3936430074;
    3572445317; 76029189; 3654602809; 3873151461; 530742520; 3299628645;
    4096336452; 1126891415; 2878612391; 4237533241; 1700485571; 2399980690;
    4293915773; 2240044497; 1873313359; 4264355552; 2734768916; 1309151649;
    4149444226; 3174756917; 718787259; 3951481745 ].

Definition SHIFT : list Z :=
  [ 7; 12; 17; 22; 7; 12; 17; 22; 7; 12; 17; 22; 7; 12; 17; 22;
    5; 9; 14; 20; 5; 9; 14; 20; 5; 9; 14; 20; 5; 9; 14; 20;
    4; 11; 16; 23; 4; 11; 16; 23; 4; 11; 16; 23; 4; 11; 16; 23;
    6; 10; 15; 21; 6; 10; 15; 21; 6; 10; 15; 21; 6; 10; 15; 21 ].

Record state := St { sa : Z; sb : Z; sc : Z; sd : Z }.

Definition init : state :=
  St 1732584193 4023233417 2562383102 271733878.

(** Round function and message index of step [i]. *)
Definition mix (i : nat) (b c d : Z) : Z * nat :=
  if Nat.ltb i 16 then
    (Z.lor (Z.land b c) (Z.land (not32 b) d), i)
  else if Nat.ltb i 32 then
    (Z.lor (Z.land d b) (Z.land (not32 d) c), Nat.modulo (5 * i + 1) 16)
  else if Nat.ltb i 48 then
    (Z.lxor (Z.lxor b c) d, Nat.modulo (3 * i + 5) 16)
  else
    (Z.lxor c (Z.lor b (not32 d)), Nat.modulo (7 * i) 16).

Definition step (m : list Z) (st : state) (i : nat) : state :=
  let '(f, g) := mix i (sb st) (sc st) (sd st) in
  let f' := add32 (add32 (add32 f (sa st)) (nth i K 0)) (nth g m 0) in
  St (sd st) (add32 (sb st) (rotl32 f' (nth i SHIFT 0))) (sb st) (sc st).

(** Little-endian 32-bit words of a byte list. *)
Fixpoint words (bs : list Z) : list Z :=
  match bs with
  | b0 :: b1 :: b2 :: b3 :: rest =>
      (b0 + 256 * b1 + 65536 * b2 + 16777216 * b3) :: words rest
  | _ => []
  end.

Definition block (st : state) (bs : list Z) : state :=
  let st' := fold_left (step (words bs)) (seq 0 64) st in
  St (add32 (sa st) (sa st')) (add32 (sb st) (sb st'))
     (add32 (sc st) (sc st')) (add32 (sd st) (sd st')).

Definition le_bytes (n : nat) (x : Z) : list Z :=
  map (fun k => Z.land (Z.shiftr x (8 * Z.of_nat k)) 255) (seq 0 n).

(** Message, the byte 0x80, zeros up to 56 modulo 64, then the bit
    length on eight bytes. *)
Definition pad (msg : list Z) : list Z :=
  let n := List.length msg in
  let z := Nat.modulo (119 - Nat.modulo n 64) 64 in
  msg ++ [128] ++ repeat 0 z ++ le_bytes 8 (8 * Z.of_nat n).

Definition digest_state (msg : list Z) : state :=
  let p := pad msg in
  fold_left (fun st k => block st (firstn 64 (skipn (64 * k) p)))
            (seq 0 (Nat.div (List.length p) 64)) init.

Definition digest (msg : list Z) : list Z :=
  let st := digest_state msg in
  le_bytes 4 (sa st) ++ le_bytes 4 (sb st) ++
  le_bytes 4 (sc st) ++ le_bytes 4 (sd st).

Definition hex_digit (n : Z) : ascii :=
  if n <? 10 then ascii_of_nat (48 + Z.to_nat n)
  else ascii_of_nat (87 + Z.to_nat n).

Definition hex_byte (b : Z) (k : string) : string :=
  String (hex_digit (Z.land (Z.shiftr b 4) 15))
         (String (hex_digit (Z.land b 15)) k).

Definition hex (bs : list Z) : string := fold_right hex_byte EmptyString bs.

(** [s.encode()] *)
Definition encode (s : string) : list Z :=
  map (fun c => Z.of_nat (nat_of_ascii c)) (list_ascii_of_string s).

(** [hashlib.md5(s.encode()).hexdigest()] *)
Definition hexdigest (s : string) : string := hex (digest (encode s)).

End MD5.

(** ** Identifier derivation ([deployments.py], lines 36-103) *)

Definition k8s_char (c : ascii) : bool :=
  PyStr.is_lower_alpha c || PyStr.is_digit c || Ascii.eqb c "-".

Definition conn_id_char (c : ascii) : bool :=
  PyStr.is_lower_alpha c || PyStr.is_digit c || Ascii.eqb c "_".

Definition sanitize_k8s_name (value : string) : string :=
  let sanitized := PyStr.sub_not_in k8s_char "-" (PyStr.lower value) in
  let sanitized := PyStr.collapse "-" sanitized in
  let sanitized := PyStr.strip "-" sanitized in
  sanitized.

Definition sanitize_airflow_conn_id (value : string) : string :=
  let sanitized := PyStr.sub_not_in conn_id_char "_" (PyStr.lower value) in
  let sanitized := PyStr.collapse "_" sanitized in
  let sanitized := PyStr.strip "_" sanitized in
  PyStr.slice_to sanitized 250.

(** [git_branch] is [None] or a string; both [None] and [''] are false. *)
Definition k8s_resource_name (project_name : string)
    (git_branch : option string) : string :=
  let base := sanitize_k8s_name project_name in
  let full_name :=
    match git_branch with
    | Some b => if PyStr.truthy b then base +:+ "-" +:+ b else base
    | None => base
    end in
  let name_hash := PyStr.slice_to (MD5.hexdigest full_name) 8 in
  let max_base_length := 63 - 14 in
  let base :=
    if PyStr.len base >? max_base_length
    then PyStr.slice_to base max_base_length
    else base in
  "dbt-" +:+ base +:+ "-" +:+ name_hash.

Definition airflow_connection_id (project_name : string)
    (git_branch : option string) : string :=
  k8s_resource_name project_name git_branch.

Definition get_volume_name (prefix k8s_name : string) : string :=
  let max_k8s_name_length := 63 - PyStr.len prefix - 1 in
  let k8s_name :=
    if PyStr.len k8s_name >? max_k8s_name_length
    then PyStr.slice_to k8s_name max_k8s_name_length
    else k8s_name in
  prefix +:+ "-" +:+ k8s_name.

(** The character class [[0-9a-f]]. *)
Definition is_hex_lower (c : ascii) : bool :=
  PyStr.is_digit c ||
  (let n := nat_of_ascii c in (Nat.leb 97 n && Nat.leb n 102)%bool).

Definition all_chars (p : ascii -> bool) (s : string) : bool :=
  forallb p (list_ascii_of_string s).

(** ** Values, exceptions and the environment *)

(** JSON-like Python values: request bodies, template contexts and
    response bodies.  A [dict] literal keeps the order it is written in. *)
Inductive value :=
| VNone
| VBool (b : bool)
| VInt (n : Z)
| VStr (s : string)
| VList (l : list value)
| VDict (d : list (string * value)).

(** [d[k]] on a dict literal, [None] when the key is absent. *)
Fixpoint assoc (k : string) (d : list (string * value)) : option value :=
  match d with
  | [] => None
  | (k', v) :: d' => if String.eqb k k' then Some v else assoc k d'
  end.

(** [v[k1][k2]...] *)
Fixpoint lookup_path (path : list string) (v : value) : option value :=
  match path with
  | [] => Some v
  | k :: path' =>
      match v with
      | VDict d =>
          match assoc k d with
          | Some v' => lookup_path path' v'
          | None => None
          end
      | _ => None
      end
  end.

Definition opt_str (o : option string) : value :=
  match o with Some s => VStr s | None => VNone end.

(** The exceptions the handlers distinguish; [msg] is [str(e)]. *)
Inductive exn :=
| HTTPError (msg : string) (status_code : Z) (text : string)
| RequestException (msg : string)
| CalledProcessError (msg : string) (stderr : string)
| OtherException (msg : string).

Definition str_exn (e : exn) : string :=
  match e with
  | HTTPError msg _ _ => msg
  | RequestException msg => msg
  | CalledProcessError msg _ => msg
  | OtherException msg => msg
  end.

Inductive result (A : Type) :=
| Ok (a : A)
| Raise (e : exn).
Arguments Ok {A} a.
Arguments Raise {A} e.

(** [subprocess.CompletedProcess] *)
Record CompletedProcess := {
  returncode : Z;
  stdout : string;
  stderr : string
}.

(** [requests.Response]; [json_ok] tells whether [response.json()]
    parses the body. *)
Record Response := {
  status_code : Z;
  reason : string;
  text : string;
  json_ok : bool
}.

(** An entry of [helm list --output json]. *)
Module Release.
Record t := {
  name : string;
  namespace : string;
  chart : string;
  app_version : string;
  updated : string
}.
End Release.

(** [app/core/config.py] and the two keys read from [current_app.config]. *)
Record Config := {
  HELM_REPO_NAME : string;
  HELM_REPO_URL : string;
  HELM_CHART_VERSION : string;
  AIRFLOW_URL : string;
  CLOUD_PROVIDER : option string;
  GCP_SERVICE_ACCOUNT : option string;
  (** [Path(current_app.root_path).parent / 'charts'] *)
  charts_dir : string
}.

(** What a handler does to the outside. *)
Inductive cmd :=
| Run (argv : list string)
| Request (method url : string) (body : option value)
| Render (template_path output_path : string) (context : list (string * value)).

(** The outside: each answer may depend on the commands issued before. *)
Record World := {
  config : Config;
  subprocess_run : list cmd -> list string -> result CompletedProcess;
  http_request : list cmd -> string -> string -> option value -> result Response;
  template_render :
    list cmd -> string -> string -> list (string * value) -> option exn;
  datetime_now : list cmd -> string;
  json_loads : string -> result (list Release.t)
}.

(** ** Handlers as computations

    A computation reads the world, appends to the list of commands issued
    and returns a value or raises. *)

Definition M (A : Type) : Type := World -> list cmd -> result A * list cmd.

Definition ret {A} (a : A) : M A := fun _ tr => (Ok a, tr).

Definition bind {A B} (m : M A) (k : A -> M B) : M B :=
  fun w tr =>
    match m w tr with
    | (Ok a, tr') => k a w tr'
    | (Raise e, tr') => (Raise e, tr')
    end.

Definition raise {A} (e : exn) : M A := fun _ tr => (Raise e, tr).

(** [try: m  except Exception as e: h e] *)
Definition try_except {A} (m : M A) (h : exn -> M A) : M A :=
  fun w tr =>
    match m w tr with
    | (Ok a, tr') => (Ok a, tr')
    | (Raise e, tr') => h e w tr'
    end.

Definition ask : M World := fun w tr => (Ok w, tr).

#[global] Instance M_ret : MRet M := @ret.
#[global] Instance M_bind : MBind M := fun A B k m => bind m k.

(** [subprocess.run(argv, capture_output=True, text=True)] *)
Definition run (argv : list string) : M CompletedProcess :=
  fun w tr => (subprocess_run w tr argv, tr ++ [Run argv]).

(** [subprocess.run(argv, check=True, capture_output=True)].  The text
    of a [CalledProcessError] stands for Python's, which names the
    command and its exit status; the properties below read [e.stderr]
    and the kind of the exception, never this text. *)
Definition run_check (argv : list string) : M CompletedProcess :=
  r ← run argv;
  if returncode r =? 0 then ret r
  else raise (CalledProcessError "Command returned non-zero exit status." (stderr r)).

Definition request (method url : string) (body : option value) : M Response :=
  fun w tr => (http_request w tr method url body, tr ++ [Request method url body]).

Definition render (template_path output_path : string)
    (context : list (string * value)) : M unit :=
  fun w tr =>
    (match template_render w tr template_path output_path context with
     | None => Ok tt
     | Some e => Raise e
     end,
     tr ++ [Render template_path output_path context]).

Definition now : M string := fun w tr => (Ok (datetime_now w tr), tr).

Definition loads (s : string) : M (list Release.t) :=
  fun w tr => (json_loads w s, tr).

(** Running a handler on a fresh request. *)
Definition handle {A} (m : M A) (w : World) : result A * list cmd := m w [].

(** ** [app/services/airflow_service.py] *)

Record AirflowService := { base_url : string }.

(** [AirflowService.__init__]: [self.base_url = base_url.rstrip('/')] *)
Definition AirflowService_init (url : string) : AirflowService :=
  {| base_url := PyStr.rstrip "/" url |}.

(** [urljoin(f"{self.base_url}/", endpoint)], where joining is
    concatenation: for a base URL with a scheme and without query or
    fragment, and an endpoint that is a relative path without a segment
    [.] or [..].  The endpoints of the handlers are
    [api/v1/connections], alone or followed by one segment: a name made
    by [k8s_resource_name], or the name of a release to delete. *)
Definition endpoint_url (self : AirflowService) (endpoint : string) : string :=
  base_url self +:+ "/" +:+ endpoint.

(** [Response.raise_for_status] *)
Definition raise_for_status (url : string) (r : Response) : M unit :=
  if (400 <=? status_code r) && (status_code r <? 500) then
    raise (HTTPError
             (pretty (status_code r) +:+ " Client Error: " +:+ reason r
              +:+ " for url: " +:+ url)
             (status_code r) (text r))
  else if (500 <=? status_code r) && (status_code r <? 600) then
    raise (HTTPError
             (pretty (status_code r) +:+ " Server Error: " +:+ reason r
              +:+ " for url: " +:+ url)
             (status_code r) (text r))
  else ret tt.

(** [Response.json]; the parsed body is read by no caller. *)
Definition response_json (r : Response) : M unit :=
  if json_ok r then ret tt
  else raise (RequestException "Expecting value: line 1 column 1 (char 0)").

Definition _make_request (self : AirflowService) (method endpoint : string)
    (data : option value) : M unit :=
  let url := endpoint_url self endpoint in
  response ← request method url data;
  raise_for_status url response;;
  response_json response.

Definition create_connection (self : AirflowService) (connection_data : value) : M unit :=
  _make_request self "POST" "api/v1/connections" (Some connection_data).

Definition update_connection (self : AirflowService) (connection_id : string)
    (connection_data : value) : M unit :=
  _make_request self "PATCH" ("api/v1/connections/" +:+ connection_id)
    (Some connection_data).

Definition get_connection (self : AirflowService) (connection_id : string) : M unit :=
  _make_request self "GET" ("api/v1/connections/" +:+ connection_id) None.

Definition delete_connection (self : AirflowService) (connection_id : string) : M unit :=
  let url := endpoint_url self ("api/v1/connections/" +:+ connection_id) in
  response ← request "DELETE" url None;
  if negb ((status_code response =? 204) || (status_code response =? 404))
  then raise_for_status url response
  else ret tt.

Definition create_dbt_connection (self : AirflowService)
    (connection_id host login password description : string) : M unit :=
  let connection_data :=
    VDict [ ("conn_type", VStr "http");
            ("connection_id", VStr connection_id);
            ("description", VStr description);
            ("host", VStr host);
            ("login", VStr login);
            ("password", VStr password);
            ("port", VNone);
            ("schema", VStr "");
            ("extra", VStr "") ] in
  create_connection self connection_data.

(** The module-level [airflow_service] of [deployments.py]. *)
Definition airflow_service : M AirflowService :=
  w ← ask; ret (AirflowService_init (AIRFLOW_URL (config w))).

(** ** The validated request

    What [DeploymentCreateSchema.load] hands to [deploy_dbt_server]: every
    field is required or has a [load_default], and [post_load] adds
    [k8s_name] and [hashed_credentials]. *)
Record DeploymentData := {
  project_name : string;
  namespace : string;
  customer : string;
  domain : string;
  environment : string;
  git_branch : string;
  cloud_provider : string;
  datawarehouse_type : string;
  https_enabled : bool;
  dbt_repo_name : string;
  gitlink_secret : string;
  gitlink_deploy_key : string;
  secret_dbt_package_repo_token : string;
  secret_package_repo_token_name : string;
  basic_auth : string;
  basic_auth_user : string;
  basic_auth_password : string;
  repository : string;
  image : string;
  tag : string;
  service_account : option string;
  worker_num : Z;
  max_requests : Z;
  enable_ddtrace : bool;
  debug : bool;
  celery_log_level : string;
  cicd_env_key : string;
  cicd_env_value : string;
  app_version : string;
  cpu_request : string;
  memory_request : string;
  cpu_limit : string;
  memory_limit : string;
  storage_size : string;
  data_warehouse_platform : string;
  k8s_name : string;
  hashed_credentials : string
}.

(** [{**json_data, 'k8s_name': k8s_name}] *)
Definition with_k8s_name (d : DeploymentData) (n : string) : DeploymentData :=
  {| project_name := project_name d; namespace := namespace d;
     customer := customer d; domain := domain d;
     environment := environment d; git_branch := git_branch d;
     cloud_provider := cloud_provider d;
     datawarehouse_type := datawarehouse_type d;
     https_enabled := https_enabled d; dbt_repo_name := dbt_repo_name d;
     gitlink_secret := gitlink_secret d;
     gitlink_deploy_key := gitlink_deploy_key d;
     secret_dbt_package_repo_token := secret_dbt_package_repo_token d;
     secret_package_repo_token_name := secret_package_repo_token_name d;
     basic_auth := basic_auth d; basic_auth_user := basic_auth_user d;
     basic_auth_password := basic_auth_password d;
     repository := repository d; image := image d; tag := tag d;
     service_account := service_account d; worker_num := worker_num d;
     max_requests := max_requests d; enable_ddtrace := enable_ddtrace d;
     debug := debug d; celery_log_level := celery_log_level d;
     cicd_env_key := cicd_env_key d; cicd_env_value := cicd_env_value d;
     app_version := app_version d; cpu_request := cpu_request d;
     memory_request := memory_request d; cpu_limit := cpu_limit d;
     memory_limit := memory_limit d; storage_size := storage_size d;
     data_warehouse_platform := data_warehouse_platform d;
     k8s_name := n; hashed_credentials := hashed_credentials d |}.

(** ** Rendering and the release tool ([deployments.py], lines 105-239) *)

(** [render_template]: the Jinja2 expansion and the file write are one
    command; an exception is logged and raised again. *)
Definition render_template (template_path output_path : string)
    (context : list (string * value)) : M unit :=
  render template_path output_path context.

Definition render_values_file (data : DeploymentData) (chart_path : string) : M string :=
  let template_values_path := chart_path +:+ "/template_values.yaml" in
  let values_path := chart_path +:+ "/values.yaml" in
  let k8s_name := k8s_resource_name (project_name data) (Some (git_branch data)) in
  let datawarehouse_secrets_volume :=
    get_volume_name "dbt-server-datawarehouse-secrets" k8s_name in
  let nginx_proxy_volume := get_volume_name "dbt-server-nginx-proxy" k8s_name in
  w ← ask;
  let context :=
    [ ("project_name", VStr (project_name data));
      ("namespace", VStr (namespace data));
      ("customer", VStr (customer data));
      ("domain", VStr (domain data));
      ("environment", VStr (environment data));
      ("cloud_provider", opt_str (CLOUD_PROVIDER (config w)));
      ("service_account", opt_str (GCP_SERVICE_ACCOUNT (config w)));
      ("git_branch", VStr (git_branch data));
      ("datawarehouse_type", VStr (datawarehouse_type data));
      ("data_warehouse_platform", VStr (data_warehouse_platform data));
      ("gitlink_secret", VStr (gitlink_secret data));
      ("gitlink_deploy_key", VStr (gitlink_deploy_key data));
      ("secret_dbt_package_repo_token", VStr (secret_dbt_package_repo_token data));
      ("secret_package_repo_token_name", VStr (secret_package_repo_token_name data));
      ("dbt_repo_name", VStr (dbt_repo_name data));
      ("basic_auth_user", VStr (basic_auth_user data));
      ("basic_auth_password", VStr (basic_auth_password data));
      ("hashed_credentials", VStr (hashed_credentials data));
      ("repository", VStr (repository data));
      ("image", VStr (image data));
      ("tag", VStr (tag data));
      ("worker_num", VInt (worker_num data));
      ("max_requests", VInt (max_requests data));
      ("enable_ddtrace", VBool (enable_ddtrace data));
      ("debug", VBool (debug data));
      ("celery_log_level", VStr (celery_log_level data));
      ("cicd_env_key", VStr (cicd_env_key data));
      ("cicd_env_value", VStr (cicd_env_value data));
      ("app_version", VStr (app_version data));
      ("cpu_request", VStr (cpu_request data));
      ("memory_request", VStr (memory_request data));
      ("cpu_limit", VStr (cpu_limit data));
      ("memory_limit", VStr (memory_limit data));
      ("storage_size", VStr (storage_size data));
      ("k8s_name", VStr k8s_name);
      ("datawarehouse_secrets_volume", VStr datawarehouse_secrets_volume);
      ("nginx_proxy_volume", VStr nginx_proxy_volume) ] in
  render_template template_values_path values_path context;;
  ret values_path.

(** [json.loads] of the tool's output is the parser of the environment:
    it gives a list of releases, or raises.  Output that is JSON of
    another shape (which the source returns as it is, to fail in the
    caller) has no counterpart here; a property that depends on the
    difference says that the listing parses. *)
Definition get_helm_releases (namespace : string) : M (list Release.t) :=
  try_except
    (result ← run ["helm"; "list"; "-n"; namespace; "--output"; "json"];
     if negb (returncode result =? 0) then ret []
     else loads (stdout result))
    (fun _ => ret []).

(** [any(release['name'] == n for release in releases)] *)
Definition any_named (n : string) (releases : list Release.t) : bool :=
  existsb (fun release => String.eqb (Release.name release) n) releases.

(** The result is a [str] or [None]. *)
Definition get_helm_status (release_name namespace : string) : M (option string) :=
  try_except
    (releases ← get_helm_releases namespace;
     let release_exists := any_named release_name releases in
     if negb release_exists then ret None
     else
       result ← run ["helm"; "status"; release_name; "-n"; namespace];
       if negb (returncode result =? 0) then ret None
       else ret (Some (stdout result)))
    (fun _ => ret None).

(** ** The handlers ([deployments.py], lines 241-499)

    Logging is not modelled.  A handler returns the response body and the
    HTTP status. *)

(** [{'status': 'error', 'message': m, 'details': {'error': e}}] *)
Definition error_body (m e : string) : value :=
  VDict [ ("status", VStr "error");
          ("message", VStr m);
          ("details", VDict [ ("error", VStr e) ]) ].

Definition deploy_dbt_server (json_data : DeploymentData) : M (value * Z) :=
  try_except
    (let k8s_name :=
       k8s_resource_name (project_name json_data) (Some (git_branch json_data)) in
     let release_name := k8s_name in
     let airflow_id := k8s_name in
     w ← ask;
     let chart_path := charts_dir (config w) in
     values_file ← render_values_file (with_k8s_name json_data k8s_name) chart_path;
     let repo_name := HELM_REPO_NAME (config w) in
     let repo_url := HELM_REPO_URL (config w) in
     setup_failed ←
       try_except
         (run_check ["helm"; "repo"; "add"; repo_name; repo_url];;
          run_check ["helm"; "repo"; "update"; repo_name];;
          ret (None : option (value * Z)))
         (fun e =>
            match e with
            | CalledProcessError _ e_stderr =>
                ret (Some (error_body "Failed to setup Helm repository" e_stderr, 500))
            | _ => raise e
            end);
     match setup_failed with
     | Some response => ret response
     | None =>
         let cmd :=
           [ "helm"; "upgrade"; "-i"; release_name; repo_name +:+ "/raw";
             "--version"; HELM_CHART_VERSION (config w);
             "--namespace"; namespace json_data;
             "--wait";
             "--values"; values_file ] in
         result ← run cmd;
         if negb (returncode result =? 0) then
           ret (error_body "Failed to deploy application" (stderr result), 500)
         else
           let host :=
             if https_enabled json_data then
               "https://dbt-server-" +:+ k8s_name +:+ "." +:+ customer json_data
               +:+ "." +:+ domain json_data +:+ "/invocations"
             else
               "http://dbt-server-" +:+ k8s_name +:+ "." +:+ namespace json_data
               +:+ ".svc.cluster.local/invocations" in
           self ← airflow_service;
           (* airflow_connection_status starts as 'created'; the value
              'error' assigned before each [raise] is read by no one. *)
           airflow_connection_status ←
             try_except
               (get_connection self airflow_id;;
                t ← now;
                update_connection self airflow_id
                  (VDict [ ("conn_type", VStr "http");
                           ("connection_id", VStr airflow_id);
                           ("description",
                            VStr ("Update at: " +:+ t
                                  +:+ " - Configuration to call " +:+ host));
                           ("host", VStr host);
                           ("login", VStr (basic_auth_user json_data));
                           ("password", VStr (basic_auth_password json_data));
                           ("port", VNone);
                           ("schema", VStr "");
                           ("extra", VStr "") ]);;
                ret "updated")
               (fun e =>
                  match e with
                  | HTTPError _ e_status_code _ =>
                      if e_status_code =? 404 then
                        create_dbt_connection self airflow_id host
                          (basic_auth_user json_data)
                          (basic_auth_password json_data)
                          ("Configuration to call " +:+ host);;
                        ret "created"
                      else raise e
                  | _ => raise e
                  end);
           status ← get_helm_status release_name (namespace json_data);
           ret (VDict
                  [ ("status", VStr "success");
                    ("message",
                     VStr ("Deployment " +:+ release_name
                           +:+ " created/updated successfully"));
                    ("details",
                     VDict
                       [ ("release_name", VStr release_name);
                         ("namespace", VStr (namespace json_data));
                         ("host",
                          VStr ("dbt-server-" +:+ k8s_name +:+ "."
                                +:+ customer json_data +:+ "."
                                +:+ domain json_data));
                         ("status", opt_str status);
                         ("airflow_connection",
                          VDict [ ("id", VStr airflow_id);
                                  ("host", VStr host);
                                  ("status", VStr airflow_connection_status) ])
                       ]) ],
                200)
     end)
    (fun e => ret (error_body (str_exn e) (str_exn e), 500)).

(** ASCII whitespace, as [str.split()] sees it. *)
Definition is_space (c : ascii) : bool :=
  let n := nat_of_ascii c in
  (Nat.leb 9 n && Nat.leb n 13) || (Nat.leb 28 n && Nat.leb n 32).

Fixpoint split_from (cur s : string) : list string :=
  match s with
  | EmptyString => if PyStr.truthy cur then [cur] else []
  | String c s' =>
      if is_space c then
        if PyStr.truthy cur then cur :: split_from "" s' else split_from "" s'
      else split_from (cur +:+ String c "") s'
  end.

(** [s.strip().split()] *)
Definition strip_split (s : string) : list string := split_from "" s.

(** The loop over [pvc_names]. *)
Fixpoint delete_pvcs (pvc_prefix namespace : string) (pvc_names : list string)
    (deleted_pvcs : list string) : M (list string) :=
  match pvc_names with
  | [] => ret deleted_pvcs
  | pvc :: rest =>
      if PyStr.startswith pvc_prefix pvc then
        del_result ←
          run ["kubectl"; "delete"; "pvc"; pvc; "-n"; namespace;
               "--ignore-not-found=true"];
        if returncode del_result =? 0
        then delete_pvcs pvc_prefix namespace rest (deleted_pvcs ++ [pvc])
        else delete_pvcs pvc_prefix namespace rest deleted_pvcs
      else delete_pvcs pvc_prefix namespace rest deleted_pvcs
  end.

Definition delete_deployment (deployment_id : string) : M (value * Z) :=
  try_except
    (let k8s_name := deployment_id in
     let namespace := "dbt-server" in
     releases ← get_helm_releases namespace;
     let release_exists := any_named k8s_name releases in
     if negb release_exists then
       ret (VDict
              [ ("status", VStr "error");
                ("message",
                 VStr ("Deployment " +:+ k8s_name +:+ " not found in namespace "
                       +:+ namespace));
                ("details",
                 VDict
                   [ ("error", VStr "Deployment not found");
                     ("available_releases",
                      VList (map (fun r => VStr (Release.name r)) releases)) ]) ],
            404)
     else
       result ← run ["helm"; "uninstall"; k8s_name; "-n"; namespace];
       if negb (returncode result =? 0) then
         ret (error_body "Failed to delete deployment" (stderr result), 500)
       else
         let pvc_prefix :=
           "dbt-server-" +:+ k8s_name +:+ "-dbt-server-" +:+ k8s_name +:+ "-" in
         pvc_list_result ←
           run ["kubectl"; "get"; "pvc"; "-n"; namespace; "-o";
                "jsonpath={.items[*].metadata.name}"];
         deleted_pvcs ←
           (if returncode pvc_list_result =? 0 then
              delete_pvcs pvc_prefix namespace
                (strip_split (stdout pvc_list_result)) []
            else ret []);
         self ← airflow_service;
         conn ←
           try_except
             (get_connection self k8s_name;;
              delete_connection self k8s_name;;
              ret ("deleted", (None : option string)))
             (fun e =>
                match e with
                | HTTPError _ e_status_code _ =>
                    if e_status_code =? 404 then ret ("not_found", None)
                    else ret ("error", Some (str_exn e))
                | _ => ret ("error", Some (str_exn e))
                end);
         let '(airflow_connection_status, airflow_error_message) := conn in
         ret (VDict
                [ ("status", VStr "success");
                  ("message",
                   VStr ("Deployment " +:+ k8s_name
                         +:+ " and associated resources deleted successfully"));
                  ("details",
                   VDict
                     [ ("release_name", VStr k8s_name);
                       ("namespace", VStr namespace);
                       ("pvc_deleted", VList (map VStr deleted_pvcs));
                       ("airflow_connection",
                        VDict [ ("id", VStr k8s_name);
                                ("status", VStr airflow_connection_status);
                                ("error", opt_str airflow_error_message) ]) ]) ],
              200))
    (fun e => ret (error_body (str_exn e) (str_exn e), 500)).

(** ** [DeploymentCreateSchema]: the data-warehouse fields
    ([schemas/deployment.py], lines 89-98, 367-376 and 410-426) *)

(** A value stored in the schema's [context]. *)
Inductive ctx_value :=
| CtxDict (d : gmap string string)
| CtxOther.

(** The schema instance; [context] is [None] when the instance has no
    such attribute ([hasattr(self, 'context')] is false). *)
Record Schema := { context : option (gmap string ctx_value) }.

(** [@validates('data_warehouse_platform')].  [self.context.get('data', {})]
    is the dict stored in the context, or a new empty dict that nothing
    else refers to. *)
Definition sync_data_warehouse_fields (self : Schema) (value : string)
    : Schema * string :=
  if PyStr.truthy value then
    match context self with
    | Some ctx =>
        match ctx !! "data" with
        | Some (CtxDict data) =>
            if negb (PyStr.truthy (default "" (data !! "datawarehouse_type")))
            then
              ({| context :=
                    Some (<["data" :=
                              CtxDict (<["datawarehouse_type" := value]> data)]>
                            ctx) |},
               value)
            else (self, value)
        | Some CtxOther => (self, value)
        | None => (self, value)
        end
    | None => (self, value)
    end
  else (self, value).

(** [@validates('datawarehouse_type')] *)
Definition sync_datawarehouse_fields (self : Schema) (value : string)
    : Schema * string :=
  if PyStr.truthy value then
    match context self with
    | Some ctx =>
        match ctx !! "data" with
        | Some (CtxDict data) =>
            if negb (PyStr.truthy (default "" (data !! "data_warehouse_platform")))
            then
              ({| context :=
                    Some (<["data" :=
                              CtxDict (<["data_warehouse_platform" := value]> data)]>
                            ctx) |},
               value)
            else (self, value)
        | Some CtxOther => (self, value)
        | None => (self, value)
        end
    | None => (self, value)
    end
  else (self, value).

(** [validate.OneOf(['', 'bigquery', 'snowflake', 'redshift', 'fabric'])] *)
Definition warehouse_choices : list string :=
  [""; "bigquery"; "snowflake"; "redshift"; "fabric"].

(** A [fields.String] with [load_default=''] and the [OneOf] validator:
    the default when the key is absent, the value when it is one of the
    choices, [None] for a validation error. *)
Definition load_warehouse_field (raw : gmap string string) (key : string)
    : option string :=
  match raw !! key with
  | None => Some ""
  | Some v =>
      if existsb (String.eqb v) warehouse_choices then Some v else None
  end.

(** The two fields as [Schema.load] returns them.  Marshmallow builds the
    result from the deserialized fields, then calls each [@validates]
    method with the field's value and keeps only the errors it raises:
    what the method returns is discarded. *)
Definition load_warehouse_fields (self : Schema) (raw : gmap string string)
    : option (Schema * (string * string)) :=
  match load_warehouse_field raw "datawarehouse_type",
        load_warehouse_field raw "data_warehouse_platform" with
  | Some type, Some platform =>
      let '(self, _) := sync_data_warehouse_fields self platform in
      let '(self, _) := sync_datawarehouse_fields self type in
      Some (self, (platform, type))
  | _, _ => None
  end.

(** The instance built for [@bp.input(DeploymentCreateSchema)]: its
    context is empty. *)
Definition input_schema : Schema := {| context := Some ∅ |}.

(** ** Kinds of commands *)

(** A command that changes the cluster, the releases or the connections:
    anything but a listing, a status query or a [GET]. *)
Definition mutating (c : cmd) : bool :=
  match c with
  | Run ("helm" :: "list" :: _) => false
  | Run ("helm" :: "status" :: _) => false
  | Run ("kubectl" :: "get" :: _) => false
  | Run _ => true
  | Request method _ _ => negb (String.eqb method "GET")
  | Render _ _ _ => true
  end.

Definition is_request (c : cmd) : bool :=
  match c with Request _ _ _ => true | _ => false end.

(** The host a connection request carries, if it has a body. *)
Definition request_host (c : cmd) : option (option value) :=
  match c with
  | Request _ _ (Some body) => Some (lookup_path ["host"] body)
  | _ => None
  end.

(** The endpoint as the specification words it ([ComputeEndpoint]): the
    HTTPS host pattern when the flag is set, the cluster-local HTTP
    pattern otherwise. *)
Definition ComputeEndpoint (https : bool)
    (name customer domain namespace : string) : string :=
  if https then
    "https://dbt-server-" +:+ name +:+ "." +:+ customer +:+ "." +:+ domain
    +:+ "/invocations"
  else
    "http://dbt-server-" +:+ name +:+ "." +:+ namespace
    +:+ ".svc.cluster.local/invocations".

(** The endpoint of a request, from its fields. *)
Definition request_endpoint (json_data : DeploymentData) : string :=
  ComputeEndpoint (https_enabled json_data)
    (k8s_resource_name (project_name json_data) (Some (git_branch json_data)))
    (customer json_data) (domain json_data) (namespace json_data).

(** [c] sends a connection record, and its host is [h]. *)
Definition records_host (h : string) (c : cmd) : Prop :=
  request_host c = Some (Some (VStr h)).

(** If [c] sends a connection record, its host is [h]. *)
Definition host_is (h : string) (c : cmd) : Prop :=
  forall v, request_host c = Some v -> v = Some (VStr h).

(** ** Judgments on computations *)

(** [m] only adds commands to those issued before, and every command it
    adds satisfies [P]. *)
Definition issues (P : cmd -> Prop) {X} (m : M X) : Prop :=
  forall w tr, exists added, snd (m w tr) = tr ++ added /\ Forall P added.

(** Started after commands satisfying [Pre], a run of [m] that returns
    [a] has issued commands [tr'] with [Q a tr']. *)
Definition triple {X} (Pre : list cmd -> Prop) (m : M X)
    (Q : X -> list cmd -> Prop) : Prop :=
  forall w tr a tr', Pre tr -> m w tr = (Ok a, tr') -> Q a tr'.

(** What the handler can answer.  With status 200 the body reports
    success, the connection is reported as created or updated with the
    endpoint of the request as host, and a connection record with that
    host was sent.  With any other status the body reports an error and
    has no connection entry. *)
Definition deploy_answer (json_data : DeploymentData)
    (r : value * Z) (tr : list cmd) : Prop :=
  (snd r = 200 ->
     lookup_path ["status"] (fst r) = Some (VStr "success")
     /\ lookup_path ["details"; "airflow_connection"; "host"] (fst r)
        = Some (VStr (request_endpoint json_data))
     /\ (lookup_path ["details"; "airflow_connection"; "status"] (fst r)
         = Some (VStr "updated")
         \/ lookup_path ["details"; "airflow_connection"; "status"] (fst r)
            = Some (VStr "created"))
     /\ Exists (records_host (request_endpoint json_data)) tr)
  /\ (snd r <> 200 ->
        snd r = 500
        /\ lookup_path ["status"] (fst r) = Some (VStr "error")
        /\ lookup_path ["details"; "airflow_connection"] (fst r) = None).

(** ** Scenarios: concrete requests and environments *)

(** A prefix of 64 characters. *)
Definition long_prefix : string :=
  "dbt-server-datawarehouse-secrets-dbt-server-datawarehouse-secret".

Definition demo_config : Config :=
  {| HELM_REPO_NAME := "kube-core";
     HELM_REPO_URL := "https://kube-core.github.io/helm-charts";
     HELM_CHART_VERSION := "0.1.0";
     AIRFLOW_URL := "http://airflow.local/";
     CLOUD_PROVIDER := Some "gcp";
     GCP_SERVICE_ACCOUNT := None;
     charts_dir := "/app/charts" |}.

(** Project ["Fastbi Demo!"] on branch ["main"], defaults elsewhere. *)
Definition demo_request : DeploymentData :=
  {| project_name := "Fastbi Demo!"; namespace := "dbt-server";
     customer := "fastbi"; domain := "fast.bi";
     environment := "prod"; git_branch := "main";
     cloud_provider := "gcp"; datawarehouse_type := "";
     https_enabled := false; dbt_repo_name := "";
     gitlink_secret := ""; gitlink_deploy_key := "EMPTY";
     secret_dbt_package_repo_token := "";
     secret_package_repo_token_name := "";
     basic_auth := ""; basic_auth_user := "dbt_server_agent_x7k2p";
     basic_auth_password := "Zk3mQ9vT1xLr8sYd4bNc7hWf2gJp5uEa";
     repository := "europe-central2-docker.pkg.dev/fast-bi-common/bi-platform/";
     image := "tsb-dbt-core-api-server"; tag := "v0.0.7.1";
     service_account := None; worker_num := 10; max_requests := 35;
     enable_ddtrace := false; debug := false; celery_log_level := "ERROR";
     cicd_env_key := "ENV"; cicd_env_value := "prod";
     app_version := "1.0.0"; cpu_request := "1500m";
     memory_request := "2Gi"; cpu_limit := "3500m";
     memory_limit := "6Gi"; storage_size := "1Gi";
     data_warehouse_platform := "bigquery";
     k8s_name := "fastbi demo!-fad58de7";
     hashed_credentials := "dbt_server_agent_x7k2p:$2y$05$abcdefghijklmnopqrstuv" |}.

Definition demo_release (ns : string) : Release.t :=
  {| Release.name := "dbt-fastbi-demo-98d66ba2"; Release.namespace := ns;
     Release.chart := "raw-0.1.0"; Release.app_version := "1.0.0";
     Release.updated := "2025-05-07 10:00:00" |}.

(** The listing of the namespace ["analytics"], as the tool prints it;
    a single quote stands for the double quote of JSON. *)
Definition analytics_listing : string :=
  "[{'name':'dbt-fastbi-demo-98d66ba2','namespace':'analytics'}]".

Definition demo_loads (s : string) : result (list Release.t) :=
  if String.eqb s "[]" then Ok []
  else if String.eqb s analytics_listing then Ok [demo_release "analytics"]
  else Raise (OtherException "Expecting value: line 1 column 1 (char 0)").

(** Every process exits with 0; the release exists in ["analytics"] only. *)
Definition demo_run (argv : list string) : result CompletedProcess :=
  match argv with
  | "helm" :: "list" :: "-n" :: ns :: _ =>
      if String.eqb ns "analytics"
      then Ok {| returncode := 0; stdout := analytics_listing; stderr := "" |}
      else Ok {| returncode := 0; stdout := "[]"; stderr := "" |}
  | "helm" :: "status" :: _ =>
      Ok {| returncode := 0; stdout := "STATUS: deployed"; stderr := "" |}
  | _ => Ok {| returncode := 0; stdout := ""; stderr := "" |}
  end.

(** The release tool works; the orchestrator answers every request with
    status 500. *)
Definition airflow_down : World :=
  {| config := demo_config;
     subprocess_run := fun _ argv => demo_run argv;
     http_request := fun _ _ _ _ =>
       Ok {| status_code := 500; reason := "Internal Server Error";
             text := "{'detail': 'database is locked'}"; json_ok := true |};
     template_render := fun _ _ _ _ => None;
     datetime_now := fun _ => "2025-05-07 10:00:00.000000";
     json_loads := demo_loads |}.

(** The release tool works; the orchestrator knows no connection: [GET]
    answers 404, anything else 200. *)
Definition airflow_fresh : World :=
  {| config := demo_config;
     subprocess_run := fun _ argv => demo_run argv;
     http_request := fun _ method _ _ =>
       if String.eqb method "GET"
       then Ok {| status_code := 404; reason := "NOT FOUND";
                  text := "{'status': 404}"; json_ok := true |}
       else Ok {| status_code := 200; reason := "OK";
                  text := "{}"; json_ok := true |};
     template_render := fun _ _ _ _ => None;
     datetime_now := fun _ => "2025-05-07 10:00:00.000000";
     json_loads := demo_loads |}.

(** The release tool exits with 1 on every command. *)
Definition helm_down : World :=
  {| config := demo_config;
     subprocess_run := fun _ _ =>
       Ok {| returncode := 1; stdout := "";
             stderr := "Error: Kubernetes cluster unreachable" |};
     http_request := fun _ _ _ _ =>
       Raise (RequestException "Connection refused");
     template_render := fun _ _ _ _ => None;
     datetime_now := fun _ => "2025-05-07 10:00:00.000000";
     json_loads := demo_loads |}.

(** The listing of ["dbt-server"] when the demo release is installed. *)
Definition installed_listing : string :=
  "[{'name':'dbt-fastbi-demo-98d66ba2','namespace':'dbt-server'}]".

(** The demo release is installed in ["dbt-server"] with one volume of
    its own; the orchestrator has its connection. *)
Definition cluster_with_release : World :=
  {| config := demo_config;
     subprocess_run := fun _ argv =>
       match argv with
       | "helm" :: "list" :: _ =>
           Ok {| returncode := 0; stdout := installed_listing; stderr := "" |}
       | "kubectl" :: "get" :: _ =>
           Ok {| returncode := 0;
                 stdout := "dbt-server-dbt-fastbi-demo-98d66ba2-dbt-server-dbt-fastbi-demo-98d66ba2-0 data-postgres-0 ";
                 stderr := "" |}
       | _ => Ok {| returncode := 0; stdout := ""; stderr := "" |}
       end;
     http_request := fun _ method _ _ =>
       if String.eqb method "DELETE"
       then Ok {| status_code := 204; reason := "NO CONTENT";
                  text := ""; json_ok := false |}
       else Ok {| status_code := 200; reason := "OK";
                  text := "{}"; json_ok := true |};
     template_render := fun _ _ _ _ => None;
     datetime_now := fun _ => "2025-05-07 10:00:00.000000";
     json_loads := fun s =>
       if String.eqb s installed_listing then Ok [demo_release "dbt-server"]
       else Ok [] |}.

(** The body answered to [demo_request] in [airflow_fresh]. *)
Definition deploy_fresh_body : value :=
  Eval vm_compute in
    match fst (handle (deploy_dbt_server demo_request) airflow_fresh) with
    | Ok (body, _) => body
    | Raise _ => VNone
    end.

(** The demo release is listed, and the status command exits with 1. *)
Definition status_fails : World :=
  {| config := demo_config;
     subprocess_run := fun _ argv =>
       match argv with
       | "helm" :: "list" :: _ =>
           Ok {| returncode := 0; stdout := installed_listing; stderr := "" |}
       | _ =>
           Ok {| returncode := 1; stdout := "";
                 stderr := "Error: Kubernetes cluster unreachable" |}
       end;
     http_request := fun _ _ _ _ =>
       Raise (RequestException "Connection refused");
     template_render := fun _ _ _ _ => None;
     datetime_now := fun _ => "2025-05-07 10:00:00.000000";
     json_loads := fun s =>
       if String.eqb s installed_listing then Ok [demo_release "dbt-server"]
       else Ok [] |}.

(** * The rest of the code *)

(** ** More of Python's strings *)

Module PyText.

(** [s.replace(a, b)] for two characters. *)
Fixpoint replace_char (a b : ascii) (s : string) : string :=
  match s with
  | EmptyString => EmptyString
  | String c s' =>
      String (if Ascii.eqb c a then b else c) (replace_char a b s')
  end.

(** [s.replace(pat, '')] for a non-empty [pat]: occurrences are removed
    from the left, without overlap; [skip] counts the characters of the
    occurrence being removed. *)
Fixpoint remove_from (pat : string) (skip : nat) (s : string) : string :=
  match s with
  | EmptyString => EmptyString
  | String c s' =>
      match skip with
      | S k => remove_from pat k s'
      | O =>
          if PyStr.startswith pat s
          then remove_from pat (String.length pat - 1) s'
          else String c (remove_from pat 0 s')
      end
  end.

Definition remove (pat s : string) : string := remove_from pat 0 s.

(** [pat in s] *)
Fixpoint contains (pat s : string) : bool :=
  PyStr.startswith pat s ||
  match s with
  | EmptyString => false
  | String _ s' => contains pat s'
  end.

(** The first character of [s] is [r]. *)
Definition head_is (r : ascii) (s : string) : bool :=
  match s with
  | EmptyString => false
  | String c _ => Ascii.eqb c r
  end.

(** The last character of [s] is [r]. *)
Fixpoint last_is (r : ascii) (s : string) : bool :=
  match s with
  | EmptyString => false
  | String c EmptyString => Ascii.eqb c r
  | String _ s' => last_is r s'
  end.

(** Two [r] in a row occur in [s]. *)
Fixpoint has_double (r : ascii) (s : string) : bool :=
  match s with
  | EmptyString => false
  | String c s' => (Ascii.eqb c r && head_is r s') || has_double r s'
  end.

End PyText.

(** [s.isascii()] *)
Definition isascii (s : string) : bool :=
  all_chars (fun c => Nat.ltb (nat_of_ascii c) 128) s.

(** ** [generate_short_name] ([schemas/deployment.py], lines 8-18)

    The parameter [max_length] is read by nothing.  The project name is
    cut to 20 characters before it is lowered: for an ASCII name the
    lowered text has the same length, which Python does not promise for
    other names. *)
Definition generate_short_name (project_name : string)
    (git_branch : option string) (max_length : Z) : string :=
  let base :=
    PyText.replace_char "_" "-" (PyStr.lower (PyStr.slice_to project_name 20)) in
  match git_branch with
  | Some b =>
      if PyStr.truthy b then
        let branch_hash := PyStr.slice_to (MD5.hexdigest b) 8 in
        base +:+ "-" +:+ branch_hash
      else base
  | None => base
  end.

(** A name of the shape the cluster accepts as a label: lower-case
    letters, digits and hyphens, at most 63 of them, the first and the
    last not a hyphen. *)
Definition dns_label (s : string) : bool :=
  all_chars k8s_char s
  && (1 <=? PyStr.len s) && (PyStr.len s <=? 63)
  && negb (PyText.head_is "-" s) && negb (PyText.last_is "-" s).

(** The status is one [raise_for_status] raises for. *)
Definition is_error_status (code : Z) : bool :=
  (400 <=? code) && (code <? 600).

(** ** A judgment on every outcome

    In the world [w], started after commands satisfying [Pre], [m] ends
    with an outcome [r] (a value or an exception) and commands [tr]
    satisfying [Post r tr]. *)
Definition spec {X} (w : World) (Pre : list cmd -> Prop) (m : M X)
    (Post : result X -> list cmd -> Prop) : Prop :=
  forall tr, Pre tr -> Post (fst (m w tr)) (snd (m w tr)).

(** [c] is no call to the connection API. *)
Definition no_request (c : cmd) : Prop := is_request c = false.

(** The command that applies the release of a request. *)
Definition upgrade_argv (cfg : Config) (json_data : DeploymentData) : list string :=
  [ "helm"; "upgrade"; "-i";
    k8s_resource_name (project_name json_data) (Some (git_branch json_data));
    HELM_REPO_NAME cfg +:+ "/raw";
    "--version"; HELM_CHART_VERSION cfg;
    "--namespace"; namespace json_data;
    "--wait";
    "--values"; charts_dir cfg +:+ "/values.yaml" ].

(** The release was applied: among the commands [tr], before any call to
    the connection API, the upgrade command was run and exited with 0. *)
Definition release_applied (w : World) (json_data : DeploymentData)
    (tr : list cmd) : Prop :=
  exists before after r,
    tr = before ++ Run (upgrade_argv (config w) json_data) :: after
    /\ Forall no_request before
    /\ subprocess_run w before (upgrade_argv (config w) json_data) = Ok r
    /\ returncode r = 0.

(** The three commands a deletion of [id] starts with. *)
Definition list_cmd : cmd :=
  Run ["helm"; "list"; "-n"; "dbt-server"; "--output"; "json"].

Definition uninstall_cmd (id : string) : cmd :=
  Run ["helm"; "uninstall"; id; "-n"; "dbt-server"].

Definition get_pvc_cmd : cmd :=
  Run ["kubectl"; "get"; "pvc"; "-n"; "dbt-server"; "-o";
       "jsonpath={.items[*].metadata.name}"].

(** How a deletion of [id] can end: not found after the listing alone;
    an error after the uninstall command was tried, with no call to the
    connection API; or success after the listing, the uninstall and the
    volume listing. *)
Definition delete_outcome (id : string) (r : result (value * Z))
    (tr : list cmd) : Prop :=
  match r with
  | Ok (body, code) =>
      (code = 404 /\ tr = [list_cmd])
      \/ (code = 500 /\ Forall no_request tr
          /\ exists rest, tr = list_cmd :: uninstall_cmd id :: rest)
      \/ (code = 200
          /\ exists rest, tr = list_cmd :: uninstall_cmd id :: get_pvc_cmd :: rest)
  | Raise _ => False
  end.

(** The listing of the releases of ["dbt-server"], where the tool exits
    with 0, parses as a list of releases. *)
Definition listing_parses (w : World) : Prop :=
  forall r,
    subprocess_run w [] ["helm"; "list"; "-n"; "dbt-server"; "--output"; "json"]
    = Ok r ->
    returncode r = 0 ->
    exists releases, json_loads w (stdout r) = Ok releases.

(** The template renderer fails. *)
Definition render_down : World :=
  {| config := demo_config;
     subprocess_run := fun _ argv => demo_run argv;
     http_request := fun _ _ _ _ =>
       Raise (RequestException "Connection refused");
     template_render := fun _ _ _ _ =>
       Some (OtherException "'namespace' is undefined");
     datetime_now := fun _ => "2025-05-07 10:00:00.000000";
     json_loads := demo_loads |}.

(** The commands of a deletion that got past the uninstall. *)
Definition past_uninstall (id : string) (tr : list cmd) : Prop :=
  Forall no_request tr
  /\ exists rest, tr = list_cmd :: uninstall_cmd id :: get_pvc_cmd :: rest.

(** The volume a command deletes, if it deletes one. *)
Definition deleted_pvc (c : cmd) : option string :=
  match c with
  | Run ("kubectl" :: "delete" :: "pvc" :: pvc :: _) => Some pvc
  | _ => None
  end.

(** The prefix of the volumes of a release. *)
Definition pvc_prefix_of (id : string) : string :=
  "dbt-server-" +:+ id +:+ "-dbt-server-" +:+ id +:+ "-".

(** The release is installed and can be uninstalled; the volumes cannot
    be listed; the orchestrator has the connection. *)
Definition pvc_listing_fails : World :=
  {| config := demo_config;
     subprocess_run := fun _ argv =>
       match argv with
       | "helm" :: "list" :: _ =>
           Ok {| returncode := 0; stdout := installed_listing; stderr := "" |}
       | "kubectl" :: _ =>
           Ok {| returncode := 1; stdout := "";
                 stderr := "error: You must be logged in to the server" |}
       | _ => Ok {| returncode := 0; stdout := ""; stderr := "" |}
       end;
     http_request := fun _ method _ _ =>
       if String.eqb method "DELETE"
       then Ok {| status_code := 204; reason := "NO CONTENT";
                  text := ""; json_ok := false |}
       else Ok {| status_code := 200; reason := "OK";
                  text := "{}"; json_ok := true |};
     template_render := fun _ _ _ _ => None;
     datetime_now := fun _ => "2025-05-07 10:00:00.000000";
     json_loads := fun s =>
       if String.eqb s installed_listing then Ok [demo_release "dbt-server"]
       else Ok [] |}.

(** The release is installed and the release tool works; the orchestrator
    cannot be reached. *)
Definition helm_only : World :=
  {| config := demo_config;
     subprocess_run := fun _ argv =>
       match argv with
       | "helm" :: "list" :: _ =>
           Ok {| returncode := 0; stdout := installed_listing; stderr := "" |}
       | _ => Ok {| returncode := 0; stdout := ""; stderr := "" |}
       end;
     http_request := fun _ _ _ _ =>
       Raise (RequestException "Connection refused");
     template_render := fun _ _ _ _ => None;
     datetime_now := fun _ => "2025-05-07 10:00:00.000000";
     json_loads := fun s =>
       if String.eqb s installed_listing then Ok [demo_release "dbt-server"]
       else Ok [] |}.

(** [pvc] is a volume of the release [id]. *)
Definition own_pvc (id pvc : string) : Prop :=
  PyStr.startswith (pvc_prefix_of id) pvc = true.

(** If [c] deletes a volume, it is one of the release [id]. *)
Definition deletes_own (id : string) (c : cmd) : Prop :=
  forall pvc, deleted_pvc c = Some pvc -> own_pvc id pvc.

(** The body answered to the deletion of the demo release when the
    volumes cannot be listed. *)
Definition pvc_listing_fails_body : value :=
  Eval vm_compute in
    match fst (handle (delete_deployment "dbt-fastbi-demo-98d66ba2")
                 pvc_listing_fails) with
    | Ok (body, _) => body
    | Raise _ => VNone
    end.

(** ** The steps of a deletion

    The commands a deletion of [id] is made of.  The listing, the
    uninstall and the volume commands name the namespace
    ["dbt-server"]; a call to the connection API carries the URL of the
    connection [id], and no body. *)
Definition delete_pvc_cmd (pvc : string) : cmd :=
  Run ["kubectl"; "delete"; "pvc"; pvc; "-n"; "dbt-server";
       "--ignore-not-found=true"].

(** The URL of the connection [id], from the configuration of [w]. *)
Definition connection_url (w : World) (id : string) : string :=
  endpoint_url (AirflowService_init (AIRFLOW_URL (config w)))
    ("api/v1/connections/" +:+ id).

Definition get_connection_cmd (w : World) (id : string) : cmd :=
  Request "GET" (connection_url w id) None.

Definition delete_connection_cmd (w : World) (id : string) : cmd :=
  Request "DELETE" (connection_url w id) None.

Inductive delete_step (w : World) (id : string) : cmd -> Prop :=
| ds_list : delete_step w id list_cmd
| ds_uninstall : delete_step w id (uninstall_cmd id)
| ds_get_pvc : delete_step w id get_pvc_cmd
| ds_delete_pvc (pvc : string) :
    own_pvc id pvc -> delete_step w id (delete_pvc_cmd pvc)
| ds_get_connection : delete_step w id (get_connection_cmd w id)
| ds_delete_connection : delete_step w id (delete_connection_cmd w id).

(** The volumes of the release [id] among the names the volume listing
    [r] printed; none when the listing exits with another code than 0. *)
Definition own_volumes (id : string) (r : CompletedProcess) : list string :=
  if returncode r =? 0
  then List.filter (PyStr.startswith (pvc_prefix_of id)) (strip_split (stdout r))
  else [].

(** The arguments have the option [-n ns]. *)
Fixpoint has_namespace_option (ns : string) (argv : list string) : bool :=
  match argv with
  | [] => false
  | a :: rest =>
      match rest with
      | b :: _ => (String.eqb a "-n" && String.eqb b ns)
                  || has_namespace_option ns rest
      | [] => false
      end
  end.

(** [c] is performed against the namespace [ns]: a process has the
    option [-n ns]; a request has [ns] in its URL (the requests of a
    deletion send no body). *)
Definition names_namespace (ns : string) (c : cmd) : bool :=
  match c with
  | Run argv => has_namespace_option ns argv
  | Request _ url _ => PyText.contains ns url
  | Render _ _ _ => false
  end.

(** ** [list_deployments] ([deployments.py], lines 375-406) *)

(** [abort(status_code, message=...)] raises apiflask's [HTTPError], which
    the framework answers with that status.  The exception carries
    [message]; the text Python prints for it is not modelled, and the
    status is read by the framework alone. *)
Definition abort {A} (status_code : Z) (message : string) : M A :=
  raise (OtherException message).

(** The loop over [releases].  [yaml.safe_load] of the tool's JSON output
    is the parser of the environment. *)
Fixpoint list_deployments_loop (releases : list Release.t)
    (deployments : list value) : M (list value) :=
  match releases with
  | [] => ret deployments
  | release :: rest =>
      if PyStr.startswith "dbt-server-" (Release.name release) then
        status ← get_helm_status (Release.name release) (Release.namespace release);
        list_deployments_loop rest
          (deployments ++
           [ VDict
               [ ("name", VStr (Release.name release));
                 ("project_name",
                  VStr (PyText.remove "dbt-server-" (Release.name release)));
                 ("namespace", VStr (Release.namespace release));
                 ("status", opt_str status);
                 ("chart", VStr (Release.chart release));
                 ("version", VStr (Release.app_version release));
                 ("last_deployed", VStr (Release.updated release)) ] ])
      else list_deployments_loop rest deployments
  end.

Definition list_deployments : M (list value) :=
  try_except
    (result ← run_check ["helm"; "list"; "-A"; "--output"; "json"];
     releases ← loads (stdout result);
     list_deployments_loop releases [])
    (fun e => abort 500 (str_exn e)).

(** An entry of the listing names a release whose name starts with
    ["dbt-server-"]. *)
Definition listed_entry (d : value) : Prop :=
  exists n, lookup_path ["name"] d = Some (VStr n)
            /\ PyStr.startswith "dbt-server-" n = true.

(** ** [app/api/routes/health.py] *)

Definition check_helm_connectivity : M bool :=
  try_except
    (run_check ["helm"; "list"; "--output"; "json"];;
     ret true)
    (fun e => ret false).

Definition liveness : value :=
  VDict [ ("status", VStr "alive");
          ("message", VStr "Application is running") ].

Definition readiness : M (value * Z) :=
  try_except
    (ok ← check_helm_connectivity;
     if negb ok then
       raise (OtherException
                "Helm is not properly configured or cannot connect to the cluster")
     else
       ret (VDict [ ("status", VStr "ready");
                    ("message", VStr "Application is ready to handle requests");
                    ("checks", VDict [ ("helm", VStr "ok") ]) ],
            200))
    (fun e =>
       ret (VDict [ ("status", VStr "not_ready");
                    ("message", VStr "Application is not ready");
                    ("checks", VDict [ ("helm", VStr (str_exn e)) ]) ],
            503)).

Definition startup : M (value * Z) :=
  try_except
    (ok ← check_helm_connectivity;
     if negb ok then
       raise (OtherException
                "Helm is not properly configured or cannot connect to the cluster")
     else
       ret (VDict [ ("status", VStr "started");
                    ("message", VStr "Application has completed startup");
                    ("checks", VDict [ ("helm", VStr "ok") ]) ],
            200))
    (fun e =>
       ret (VDict [ ("status", VStr "not_started");
                    ("message", VStr "Application has not completed startup");
                    ("checks", VDict [ ("helm", VStr (str_exn e)) ]) ],
            503)).

(** The release tool answers the probe: [helm list] runs and exits
    with 0. *)
Definition helm_reachable (w : World) : bool :=
  match subprocess_run w [] ["helm"; "list"; "--output"; "json"] with
  | Ok r => returncode r =? 0
  | Raise _ => false
  end.

(** ** [app/api/routes/projects.py]

    [json.loads] of a document that is not a release listing is a
    parameter of the functions that call it. *)

Module PyLines.

(** [s.split(c)] for one character: the pieces between the [c]. *)
Fixpoint split_char (c : ascii) (cur s : string) : list string :=
  match s with
  | EmptyString => [cur]
  | String x s' =>
      if Ascii.eqb x c then cur :: split_char c EmptyString s'
      else split_char c (cur +:+ String x EmptyString) s'
  end.

Fixpoint drop (n : nat) (s : string) : string :=
  match n, s with
  | O, _ => s
  | S _, EmptyString => EmptyString
  | S n', String _ s' => drop n' s'
  end.

(** What follows the first occurrence of [pat] in [s]; nothing when
    there is none. *)
Fixpoint after_first (pat s : string) : string :=
  if PyStr.startswith pat s then drop (String.length pat) s
  else match s with
       | EmptyString => EmptyString
       | String _ s' => after_first pat s'
       end.

(** What precedes the first occurrence of [pat] in [s]; all of [s] when
    there is none. *)
Fixpoint before_first (pat s : string) : string :=
  if PyStr.startswith pat s then EmptyString
  else match s with
       | EmptyString => EmptyString
       | String c s' => String c (before_first pat s')
       end.

(** [s.split(pat)[1]], for an [s] that contains [pat]. *)
Definition second_piece (pat s : string) : string :=
  before_first pat (after_first pat s).

Fixpoint lstrip_ws (s : string) : string :=
  match s with
  | EmptyString => EmptyString
  | String c s' => if is_space c then lstrip_ws s' else s
  end.

Fixpoint rstrip_ws (s : string) : string :=
  match s with
  | EmptyString => EmptyString
  | String c s' =>
      match rstrip_ws s' with
      | EmptyString => if is_space c then EmptyString else String c EmptyString
      | t => String c t
      end
  end.

(** [s.strip()] *)
Definition strip_ws (s : string) : string := rstrip_ws (lstrip_ws s).

End PyLines.

Definition lift {A} (r : result A) : M A := fun _ tr => (r, tr).

(** [v.get(k, default)]; what is not a dict has no [get]. *)
Definition value_get (v : value) (k : string) (default : value) : M value :=
  match v with
  | VDict d =>
      ret (match assoc k d with Some x => x | None => default end)
  | _ => raise (OtherException "object has no attribute 'get'")
  end.

Definition get_helm_release_status (json_loads_value : string -> result value)
    (release_name : string) : M value :=
  try_except
    (let cmd := ["helm"; "status"; release_name; "--output"; "json"] in
     result ← run cmd;
     if negb (returncode result =? 0) then ret VNone
     else
       status_data ← lift (json_loads_value (stdout result));
       info ← value_get status_data "info" (VDict []);
       value_get info "status" (VStr "unknown"))
    (fun e => ret (VStr "unknown")).

(** The loop over the lines of a manifest. *)
Fixpoint manifest_kinds (manifest_lines : list string)
    (dependencies : list string) : list string :=
  match manifest_lines with
  | [] => dependencies
  | line :: rest =>
      if PyText.contains "kind:" line then
        let resource_type := PyLines.strip_ws (PyLines.second_piece "kind:" line) in
        if negb (existsb (String.eqb resource_type) dependencies)
        then manifest_kinds rest (dependencies ++ [resource_type])
        else manifest_kinds rest dependencies
      else manifest_kinds rest dependencies
  end.

Definition get_helm_release_dependencies (release_name : string) : M (list string) :=
  try_except
    (let cmd := ["helm"; "get"; "manifest"; release_name] in
     result ← run cmd;
     if negb (returncode result =? 0) then ret []
     else
       let manifest_lines := PyLines.split_char "010" "" (stdout result) in
       ret (manifest_kinds manifest_lines []))
    (fun e => ret []).

Definition check_helm_release_exists (release_name : string) : M bool :=
  try_except
    (let cmd := ["helm"; "status"; release_name] in
     result ← run cmd;
     ret (returncode result =? 0))
    (fun e => ret false).

(** Only a failure to parse is caught; a failure to run the command is
    raised. *)
Definition get_release_info (json_loads_value : string -> result value)
    (release_name : string) : M (value * value * list string) :=
  let cmd := ["helm"; "get"; "values"; release_name; "--output"; "json"] in
  values_result ← run cmd;
  let values :=
    if returncode values_result =? 0 then
      match json_loads_value (stdout values_result) with
      | Ok v => v
      | Raise _ => VDict []
      end
    else VDict [] in
  status ← get_helm_release_status json_loads_value release_name;
  dependencies ← get_helm_release_dependencies release_name;
  ret (values, status, dependencies).

Fixpoint list_projects_loop (json_loads_value : string -> result value)
    (releases : list Release.t) (dbt_servers : list value) : M (list value) :=
  match releases with
  | [] => ret dbt_servers
  | release :: rest =>
      if PyStr.startswith "dbt-server-" (Release.name release) then
        info ← get_release_info json_loads_value (Release.name release);
        let '(values, status, dependencies) := info in
        list_projects_loop json_loads_value rest
          (dbt_servers ++
           [ VDict
               [ ("name", VStr (Release.name release));
                 ("namespace", VStr (Release.namespace release));
                 ("status", status);
                 ("chart", VStr (Release.chart release));
                 ("version", VStr (Release.app_version release));
                 ("last_deployed", VStr (Release.updated release));
                 ("values", values);
                 ("dependencies", VList (map VStr dependencies));
                 ("can_delete", VBool true) ] ])
      else list_projects_loop json_loads_value rest dbt_servers
  end.

Definition list_projects (json_loads_value : string -> result value) : M (list value) :=
  try_except
    (let cmd := ["helm"; "list"; "--all"; "--output"; "json"] in
     result ← run cmd;
     (if negb (returncode result =? 0)
      then abort 500 "Failed to get Helm releases"
      else ret tt);;
     releases ← loads (stdout result);
     list_projects_loop json_loads_value releases [])
    (fun e => abort 500 (str_exn e)).

Definition check_release_exists (json_loads_value : string -> result value)
    (name : string) : M (value * Z) :=
  exists_ ← check_helm_release_exists name;
  if (exists_ : bool) then
    info ← get_release_info json_loads_value name;
    let '(values, status, dependencies) := info in
    ret (VDict [ ("exists", VBool true);
                 ("name", VStr name);
                 ("status", status);
                 ("dependencies", VList (map VStr dependencies)) ],
         200)
  else
    ret (VDict [ ("exists", VBool false); ("name", VStr name) ], 404).

Fixpoint list_all_releases_loop (json_loads_value : string -> result value)
    (releases : list Release.t) (all_releases : list value) : M (list value) :=
  match releases with
  | [] => ret all_releases
  | release :: rest =>
      info ← get_release_info json_loads_value (Release.name release);
      let '(values, status, dependencies) := info in
      list_all_releases_loop json_loads_value rest
        (all_releases ++
         [ VDict
             [ ("name", VStr (Release.name release));
               ("namespace", VStr (Release.namespace release));
               ("status", status);
               ("chart", VStr (Release.chart release));
               ("version", VStr (Release.app_version release));
               ("last_deployed", VStr (Release.updated release));
               ("dependencies", VList (map VStr dependencies));
               ("can_delete", VBool true) ] ])
  end.

Definition list_all_releases (json_loads_value : string -> result value)
    : M (list value) :=
  try_except
    (let cmd := ["helm"; "list"; "--all"; "--all-namespaces"; "--output"; "json"] in
     result ← run cmd;
     (if negb (returncode result =? 0)
      then abort 500 "Failed to get Helm releases"
      else ret tt);;
     releases ← loads (stdout result);
     list_all_releases_loop json_loads_value releases [])
    (fun e => abort 500 (str_exn e)).

(** A command that only reads: a listing, a status, a [helm get] or a
    [kubectl get], or a [GET]. *)
Definition read_only (c : cmd) : bool :=
  match c with
  | Run ("helm" :: "list" :: _) => true
  | Run ("helm" :: "status" :: _) => true
  | Run ("helm" :: "get" :: _) => true
  | Run ("kubectl" :: "get" :: _) => true
  | Run _ => false
  | Request method _ _ => String.eqb method "GET"
  | Render _ _ _ => false
  end.

(** A manifest with two deployments, a service and an indented kind. *)
Definition demo_manifest : string :=
  Eval vm_compute in
    fold_right (fun l acc => l +:+ String "010" acc) ""
      [ "apiVersion: apps/v1"; "kind: Deployment"; "metadata:";
        "---"; "kind: Service"; "---"; "  kind:   Deployment  ";
        "kind: ConfigMap # kind: Secret" ].

(** [c] only reads. *)
Definition reads (c : cmd) : Prop := read_only c = true.

(** ** [generate_hashed_credentials] ([schemas/deployment.py], lines 378-408) *)

(** The four keys the hook writes. *)
Definition with_post_load (d : DeploymentData)
    (n user password hashed : string) : DeploymentData :=
  {| project_name := project_name d; namespace := namespace d;
     customer := customer d; domain := domain d;
     environment := environment d; git_branch := git_branch d;
     cloud_provider := cloud_provider d;
     datawarehouse_type := datawarehouse_type d;
     https_enabled := https_enabled d; dbt_repo_name := dbt_repo_name d;
     gitlink_secret := gitlink_secret d;
     gitlink_deploy_key := gitlink_deploy_key d;
     secret_dbt_package_repo_token := secret_dbt_package_repo_token d;
     secret_package_repo_token_name := secret_package_repo_token_name d;
     basic_auth := basic_auth d; basic_auth_user := user;
     basic_auth_password := password;
     repository := repository d; image := image d; tag := tag d;
     service_account := service_account d; worker_num := worker_num d;
     max_requests := max_requests d; enable_ddtrace := enable_ddtrace d;
     debug := debug d; celery_log_level := celery_log_level d;
     cicd_env_key := cicd_env_key d; cicd_env_value := cicd_env_value d;
     app_version := app_version d; cpu_request := cpu_request d;
     memory_request := memory_request d; cpu_limit := cpu_limit d;
     memory_limit := memory_limit d; storage_size := storage_size d;
     data_warehouse_platform := data_warehouse_platform d;
     k8s_name := n; hashed_credentials := hashed |}.

(** [string.ascii_lowercase + string.digits] *)
Definition lowercase_digits : string := "abcdefghijklmnopqrstuvwxyz0123456789".

(** [string.ascii_letters + string.digits] *)
Definition letters_digits : string :=
  "abcdefghijklmnopqrstuvwxyzABCDEFGHIJKLMNOPQRSTUVWXYZ0123456789".

(** [''.join(random.choices(population, k=k))]: [k] characters of
    [population]; the generator is a sequence of numbers [rnd], read
    from position [pos]. *)
Definition random_choices (rnd : nat -> nat) (pos : nat)
    (population : string) (k : nat) : string :=
  string_of_list_ascii
    (map (fun i =>
            nth (Nat.modulo (rnd (pos + i)%nat) (String.length population))
              (list_ascii_of_string population) "000"%char)
       (seq 0 k)).

(** The [post_load] hook.  A [ValidationError] is an exception with the
    text given. *)
Definition generate_hashed_credentials (rnd : nat -> nat)
    (data : DeploymentData) : M DeploymentData :=
  let n := generate_short_name (project_name data) (Some (git_branch data)) 30 in
  let generated := negb (PyStr.truthy (basic_auth_user data)) in
  let user :=
    if generated
    then "dbt_server_agent_" +:+ random_choices rnd 0 lowercase_digits 5
    else basic_auth_user data in
  let password :=
    if negb (PyStr.truthy (basic_auth_password data))
    then random_choices rnd (if generated then 5 else 0) letters_digits 32
    else basic_auth_password data in
  if PyStr.truthy user && PyStr.truthy password then
    try_except
      (result ← run_check ["htpasswd"; "-nbB"; user; password];
       ret (with_post_load data n user password
              (PyLines.strip_ws (stdout result))))
      (fun e =>
         match e with
         | CalledProcessError _ e_stderr =>
             raise (OtherException
                      ("Failed to generate hashed credentials: " +:+ e_stderr))
         | _ => raise e
         end)
  else ret (with_post_load data n user password "").

(** ** [create_deployment] ([deployments.py], lines 501-568)

    [request.get_json] and [schema.load] run inside the handler's [try].
    [deserialized] is the outcome of reading the request and of
    marshmallow's deserialization and validation of its fields; when
    that succeeds, [schema.load] runs the [post_load] hook, with the
    generator [rnd], and what the hook raises reaches the handler (a
    [ValidationError] under marshmallow's key [_schema]; the text of the
    answer 500 is read by no property).  Between the load and the
    connection calls the source has a comment and no code. *)
Definition create_deployment (rnd : nat -> nat)
    (deserialized : result DeploymentData) : M (value * Z) :=
  try_except
    (data ← lift deserialized;
     validated_data ← generate_hashed_credentials rnd data;
     let connection_id :=
       airflow_connection_id (dbt_repo_name validated_data)
         (Some (git_branch validated_data)) in
     try_except
       (let host :=
          if https_enabled validated_data then
            "https://dbt-server-" +:+ project_name validated_data +:+ "."
            +:+ customer validated_data +:+ "." +:+ domain validated_data
            +:+ "/invocations"
          else
            "http://dbt-server-" +:+ project_name validated_data +:+ "."
            +:+ namespace validated_data +:+ ".svc.cluster.local/invocations" in
        self ← airflow_service;
        try_except
          (get_connection self connection_id;;
           update_connection self connection_id
             (VDict [ ("conn_type", VStr "http");
                      ("host", VStr host);
                      ("login", VStr (basic_auth_user validated_data));
                      ("password", VStr (basic_auth_password validated_data));
                      ("description",
                       VStr ("DBT API connection for "
                             +:+ project_name validated_data)) ]))
          (fun e =>
             if PyText.contains "Not Found" (str_exn e) then
               create_dbt_connection self connection_id host
                 (basic_auth_user validated_data)
                 (basic_auth_password validated_data)
                 ("DBT API connection for " +:+ project_name validated_data)
             else raise e))
       (fun e => ret tt);;
     ret (VDict
            [ ("message", VStr "Deployment created successfully");
              ("deployment_id",
               VStr ("dbt-server-" +:+ project_name validated_data));
              ("details",
               VDict [ ("project_name", VStr (project_name validated_data));
                       ("namespace", VStr (namespace validated_data));
                       ("airflow_connection_id", VStr connection_id) ]) ],
          201))
    (fun e => ret (VDict [ ("error", VStr (str_exn e)) ], 500)).

(** * Properties *)

(** ** The digest on the reference vectors *)

Example md5_empty : MD5.hexdigest "" = "d41d8cd98f00b204e9800998ecf8427e".
Proof. vm_compute. reflexivity. Qed.

Example md5_abc : MD5.hexdigest "abc" = "900150983cd24fb0d6963f7d28e17f72".
Proof. vm_compute. reflexivity. Qed.

Example md5_two_blocks :
  MD5.hexdigest
    "aaaaaaaaaaaaaaaaaaaaaaaaaaaaaaaaaaaaaaaaaaaaaaaaaaaaaaaaaaaaaaaaaaaaaa"
  = "0f5c6c4e740bfcc08c3c26ccb2673d46".
Proof. vm_compute. reflexivity. Qed.

(** ** Lengths of slices, concatenations and digests *)

Section Lengths.

Lemma strlen_app (a b : string) :
  String.length (a +:+ b) = (String.length a + String.length b)%nat.
Proof. induction a as [|c a IH]; simpl; [reflexivity | now rewrite IH]. Qed.

Lemma take_length (n : nat) (s : string) :
  String.length (PyStr.take n s) = Nat.min n (String.length s).
Proof.
  revert s; induction n as [|n IH]; intros [|c s]; simpl; try reflexivity.
  now rewrite IH.
Qed.

Lemma take_all (n : nat) (s : string) :
  (String.length s <= n)%nat -> PyStr.take n s = s.
Proof.
  revert s; induction n as [|n IH]; intros [|c s] H; simpl in *;
    try reflexivity; try lia.
  f_equal. apply IH. lia.
Qed.

Lemma len_app (a b : string) : PyStr.len (a +:+ b) = PyStr.len a + PyStr.len b.
Proof. unfold PyStr.len. rewrite strlen_app. lia. Qed.

Lemma len_nonneg (s : string) : 0 <= PyStr.len s.
Proof. unfold PyStr.len. lia. Qed.

Lemma len_take (n : nat) (s : string) :
  PyStr.len (PyStr.take n s) = Z.min (Z.of_nat n) (PyStr.len s).
Proof. unfold PyStr.len. rewrite take_length. lia. Qed.

Lemma slice_to_nonneg (s : string) (n : Z) :
  0 <= n -> PyStr.slice_to s n = PyStr.take (Z.to_nat n) s.
Proof. intros H. unfold PyStr.slice_to. now rewrite (proj2 (Z.leb_le 0 n) H). Qed.

Lemma len_slice_to (s : string) (n : Z) :
  0 <= n -> PyStr.len (PyStr.slice_to s n) = Z.min n (PyStr.len s).
Proof.
  intros H. rewrite slice_to_nonneg by exact H.
  unfold PyStr.len. rewrite take_length. lia.
Qed.

Lemma hex_length (bs : list Z) :
  String.length (MD5.hex bs) = (2 * List.length bs)%nat.
Proof. induction bs as [|b bs IH]; simpl; [reflexivity | rewrite IH; lia]. Qed.

Lemma le_bytes_length (n : nat) (x : Z) : List.length (MD5.le_bytes n x) = n.
Proof. unfold MD5.le_bytes. now rewrite List.length_map, List.length_seq. Qed.

Lemma digest_length (msg : list Z) : List.length (MD5.digest msg) = 16%nat.
Proof.
  unfold MD5.digest. repeat rewrite List.length_app.
  now repeat rewrite le_bytes_length.
Qed.

Lemma hexdigest_length (s : string) : String.length (MD5.hexdigest s) = 32%nat.
Proof. unfold MD5.hexdigest. now rewrite hex_length, digest_length. Qed.

Lemma name_hash_len (s : string) :
  PyStr.len (PyStr.slice_to (MD5.hexdigest s) 8) = 8.
Proof.
  rewrite len_slice_to by lia. unfold PyStr.len.
  rewrite hexdigest_length. reflexivity.
Qed.

End Lengths.

(** ** Identifier derivation *)

(** C2: the connection identifier is the resource name, for every project
    name and every branch (absent, empty or not). *)
Theorem airflow_connection_id_is_k8s_resource_name
    (project_name : string) (git_branch : option string) :
  airflow_connection_id project_name git_branch
  = k8s_resource_name project_name git_branch.
Proof. reflexivity. Qed.

(** The resource name is ["dbt-"], a base of at most 49 characters, a
    hyphen and 8 characters of digest. *)
Lemma k8s_resource_name_len (project_name : string) (git_branch : option string) :
  PyStr.len (k8s_resource_name project_name git_branch) <= 62.
Proof.
  unfold k8s_resource_name.
  repeat rewrite len_app. rewrite name_hash_len.
  change (PyStr.len "dbt-") with 4. change (PyStr.len "-") with 1.
  destruct (PyStr.len (sanitize_k8s_name project_name) >? 63 - 14) eqn:E.
  - rewrite len_slice_to by lia. lia.
  - rewrite Z.gtb_ltb in E. apply Z.ltb_ge in E. lia.
Qed.

(** C3: equal inputs give equal resource names, and a resource name never
    has more than 63 characters. *)
Theorem k8s_resource_name_deterministic_and_bounded
    (project_name project_name' : string) (git_branch git_branch' : option string) :
  project_name = project_name' ->
  git_branch = git_branch' ->
  k8s_resource_name project_name git_branch
  = k8s_resource_name project_name' git_branch'
  /\ PyStr.len (k8s_resource_name project_name git_branch) <= 63.
Proof.
  intros -> ->. split; [reflexivity |].
  pose proof (k8s_resource_name_len project_name' git_branch'). lia.
Qed.

Lemma k8s_resource_name_deterministic_and_bounded_witness :
  k8s_resource_name "Fastbi Demo!" (Some "main")
  = k8s_resource_name "Fastbi Demo!" (Some "main")
  /\ PyStr.len (k8s_resource_name "Fastbi Demo!" (Some "main")) <= 63.
Proof.
  apply (k8s_resource_name_deterministic_and_bounded
           "Fastbi Demo!" "Fastbi Demo!" (Some "main") (Some "main"));
    reflexivity.
Defined.

(** C9: for project ["Fastbi Demo!"] on branch ["main"] the sanitized base
    is ["fastbi-demo"], and the resource name is ["dbt-fastbi-demo-"]
    followed by eight characters of [[0-9a-f]], 63 characters at most. *)
Theorem fastbi_demo_scenario :
  sanitize_k8s_name "Fastbi Demo!" = "fastbi-demo"
  /\ (exists h : string,
        k8s_resource_name "Fastbi Demo!" (Some "main") = "dbt-fastbi-demo-" +:+ h
        /\ String.length h = 8%nat
        /\ all_chars is_hex_lower h = true)
  /\ PyStr.len (k8s_resource_name "Fastbi Demo!" (Some "main")) <= 63.
Proof.
  split; [vm_compute; reflexivity |].
  split.
  - exists "98d66ba2". repeat split; vm_compute; reflexivity.
  - vm_compute. discriminate.
Qed.

(** C4, as stated, fails: a prefix longer than 62 characters is kept
    whole, so the volume name is longer than 63 characters. *)
Lemma get_volume_name_long_prefix :
  PyStr.len long_prefix = 64
  /\ get_volume_name long_prefix "dbt-demo-0123abcd" = long_prefix +:+ "-dbt-demo-0123ab"
  /\ ~ PyStr.len (get_volume_name long_prefix "dbt-demo-0123abcd") <= 63.
Proof.
  repeat split; vm_compute; try reflexivity.
  intros H; apply H; reflexivity.
Qed.

(** C4, amended: when the prefix has at most 62 characters, the volume
    name has at most 63; it is the whole prefix, a hyphen, and the first
    characters of the name, as many as fit. *)
Theorem get_volume_name_bounded (prefix name : string) :
  PyStr.len prefix <= 62 ->
  PyStr.len (get_volume_name prefix name) <= 63
  /\ get_volume_name prefix name
     = prefix +:+ "-" +:+
       PyStr.take (Z.to_nat (Z.min (PyStr.len name) (62 - PyStr.len prefix))) name.
Proof.
  intros Hp. unfold get_volume_name.
  replace (63 - PyStr.len prefix - 1) with (62 - PyStr.len prefix) by lia.
  pose proof (len_nonneg name) as Hn.
  destruct (PyStr.len name >? 62 - PyStr.len prefix) eqn:E;
    rewrite Z.gtb_ltb in E.
  - apply Z.ltb_lt in E.
    rewrite Z.min_r by lia. rewrite slice_to_nonneg by lia.
    split; [| reflexivity].
    repeat rewrite len_app. change (PyStr.len "-") with 1.
    rewrite len_take. lia.
  - apply Z.ltb_ge in E.
    rewrite Z.min_l by lia. rewrite take_all by (unfold PyStr.len; lia).
    split; [| reflexivity].
    repeat rewrite len_app. change (PyStr.len "-") with 1. lia.
Qed.

Lemma get_volume_name_bounded_witness :
  PyStr.len (get_volume_name "dbt-server-datawarehouse-secrets"
               "dbt-fastbi-demo-project-with-a-long-name-98d66ba2") <= 63
  /\ get_volume_name "dbt-server-datawarehouse-secrets"
       "dbt-fastbi-demo-project-with-a-long-name-98d66ba2"
     = "dbt-server-datawarehouse-secrets" +:+ "-" +:+
       PyStr.take
         (Z.to_nat
            (Z.min
               (PyStr.len "dbt-fastbi-demo-project-with-a-long-name-98d66ba2")
               (62 - PyStr.len "dbt-server-datawarehouse-secrets")))
         "dbt-fastbi-demo-project-with-a-long-name-98d66ba2".
Proof.
  apply (get_volume_name_bounded "dbt-server-datawarehouse-secrets"
           "dbt-fastbi-demo-project-with-a-long-name-98d66ba2").
  vm_compute. discriminate.
Defined.

(** ** Reasoning about computations *)

Section Logic.

Context {A B : Type}.

Variable P : cmd -> Prop.

Lemma issues_nothing {X} (m : M X) :
  (forall w tr, snd (m w tr) = tr) -> issues P m.
Proof.
  intros H w tr. exists []. rewrite H, app_nil_r. split; [reflexivity | constructor].
Qed.

Lemma issues_one {X} (m : M X) (c : cmd) :
  (forall w tr, snd (m w tr) = tr ++ [c]) -> P c -> issues P m.
Proof.
  intros H Hc w tr. exists [c]. rewrite H. split; [reflexivity |].
  constructor; [exact Hc | constructor].
Qed.

Lemma issues_ret (a : A) : issues P (ret a).
Proof. now apply issues_nothing. Qed.

Lemma issues_raise (e : exn) : issues P (@raise A e).
Proof. now apply issues_nothing. Qed.

Lemma issues_ask : issues P ask.
Proof. now apply issues_nothing. Qed.

Lemma issues_now : issues P now.
Proof. now apply issues_nothing. Qed.

Lemma issues_loads (s : string) : issues P (loads s).
Proof. now apply issues_nothing. Qed.

Lemma issues_run (argv : list string) : P (Run argv) -> issues P (run argv).
Proof. now apply issues_one. Qed.

Lemma issues_request (method url : string) (body : option value) :
  P (Request method url body) -> issues P (request method url body).
Proof. now apply issues_one. Qed.

Lemma issues_render (t o : string) (c : list (string * value)) :
  P (Render t o c) -> issues P (render t o c).
Proof. now apply issues_one. Qed.

Lemma issues_bind (m : M A) (k : A -> M B) :
  issues P m -> (forall a, issues P (k a)) -> issues P (m ≫= k).
Proof.
  intros Hm Hk w tr. unfold mbind, M_bind, bind.
  destruct (Hm w tr) as (s1 & E1 & F1).
  destruct (m w tr) as [[a|e] tr1]; simpl in *; subst tr1.
  - destruct (Hk a w (tr ++ s1)) as (s2 & E2 & F2).
    exists (s1 ++ s2). rewrite E2, app_assoc. split; [reflexivity |].
    apply Forall_app. now split.
  - exists s1. now split.
Qed.

Lemma issues_try (m : M A) (h : exn -> M A) :
  issues P m -> (forall e, issues P (h e)) -> issues P (try_except m h).
Proof.
  intros Hm Hh w tr. unfold try_except.
  destruct (Hm w tr) as (s1 & E1 & F1).
  destruct (m w tr) as [[a|e] tr1]; simpl in *; subst tr1.
  - exists s1. now split.
  - destruct (Hh e w (tr ++ s1)) as (s2 & E2 & F2).
    exists (s1 ++ s2). rewrite E2, app_assoc. split; [reflexivity |].
    apply Forall_app. now split.
Qed.

(** On a fresh request, every command issued satisfies [P]. *)
Lemma issues_handle {X} (m : M X) (w : World) :
  issues P m -> Forall P (snd (handle m w)).
Proof.
  intros H. unfold handle. destruct (H w []) as (s & E & F).
  rewrite E. exact F.
Qed.

(** A command issued stays issued. *)
Lemma issues_keeps {X} (m : M X) (Q : cmd -> Prop) :
  issues P m -> triple (Exists Q) m (fun _ tr => Exists Q tr).
Proof.
  intros H w tr a tr' Hpre E. destruct (H w tr) as (s & Es & _).
  rewrite E in Es. simpl in Es. subst tr'.
  apply Exists_app. left. exact Hpre.
Qed.

Lemma triple_ret (Pre : list cmd -> Prop) (a : A) (Q : A -> list cmd -> Prop) :
  (forall tr, Pre tr -> Q a tr) -> triple Pre (ret a) Q.
Proof. intros H w tr a' tr' Hpre E. inversion E; subst. now apply H. Qed.

Lemma triple_raise (Pre : list cmd -> Prop) (e : exn) (Q : A -> list cmd -> Prop) :
  triple Pre (raise e) Q.
Proof. intros w tr a' tr' _ E. inversion E. Qed.

Lemma triple_bind (Pre : list cmd -> Prop) (m : M A) (k : A -> M B)
    (R : A -> list cmd -> Prop) (Q : B -> list cmd -> Prop) :
  triple Pre m R -> (forall a, triple (R a) (k a) Q) -> triple Pre (m ≫= k) Q.
Proof.
  intros Hm Hk w tr b tr' Hpre E. unfold mbind, M_bind, bind in E.
  destruct (m w tr) as [[a|e] tr1] eqn:Em; [| inversion E].
  eapply Hk; [eapply Hm; [exact Hpre | exact Em] | exact E].
Qed.

Lemma triple_try (Pre : list cmd -> Prop) (m : M A) (h : exn -> M A)
    (Q : A -> list cmd -> Prop) :
  triple Pre m Q -> (forall e, triple (fun _ => True) (h e) Q) ->
  triple Pre (try_except m h) Q.
Proof.
  intros Hm Hh w tr a tr' Hpre E. unfold try_except in E.
  destruct (m w tr) as [[a0|e] tr1] eqn:Em.
  - inversion E; subst. eapply Hm; [exact Hpre | exact Em].
  - eapply Hh; [exact I | exact E].
Qed.

Lemma triple_any {X} (Pre : list cmd -> Prop) (m : M X) :
  triple Pre m (fun _ _ => True).
Proof. intros w tr a tr' _ _. exact I. Qed.

End Logic.

(** One step through the text of a handler. *)
Ltac issues_step :=
  lazymatch goal with
  | |- issues _ (_ ≫= _) => apply issues_bind; [| intros ?]
  | |- issues _ (try_except _ _) => apply issues_try; [| intros ?]
  | |- issues _ (ret _) => apply issues_ret
  | |- issues _ (raise _) => apply issues_raise
  | |- issues _ ask => apply issues_ask
  | |- issues _ now => apply issues_now
  | |- issues _ (loads _) => apply issues_loads
  | |- issues _ (run _) => apply issues_run
  | |- issues _ (request _ _ _) => apply issues_request
  | |- issues _ (render _ _ _) => apply issues_render
  | |- issues _ (if ?b then _ else _) => destruct b
  | |- issues _ (match ?x with _ => _ end) => destruct x
  end.

Ltac issues_all := cbv zeta; repeat issues_step.

Section Service.

Variable P : cmd -> Prop.
Variable self : AirflowService.

Lemma issues_make_request (method endpoint : string) (data : option value) :
  P (Request method (endpoint_url self endpoint) data) ->
  issues P (_make_request self method endpoint data).
Proof.
  intros H. unfold _make_request, raise_for_status, response_json.
  issues_all. exact H.
Qed.

Lemma issues_delete_connection (connection_id : string) :
  P (Request "DELETE"
       (endpoint_url self ("api/v1/connections/" +:+ connection_id)) None) ->
  issues P (delete_connection self connection_id).
Proof.
  intros H. unfold delete_connection, raise_for_status.
  issues_all. exact H.
Qed.

Lemma issues_get_helm_releases (ns : string) :
  P (Run ["helm"; "list"; "-n"; ns; "--output"; "json"]) ->
  issues P (get_helm_releases ns).
Proof. intros H. unfold get_helm_releases. issues_all. exact H. Qed.

Lemma issues_get_helm_status (release_name ns : string) :
  P (Run ["helm"; "list"; "-n"; ns; "--output"; "json"]) ->
  P (Run ["helm"; "status"; release_name; "-n"; ns]) ->
  issues P (get_helm_status release_name ns).
Proof.
  intros H1 H2. unfold get_helm_status. issues_step; [| issues_all].
  issues_step; [now apply issues_get_helm_releases |].
  issues_all. exact H2.
Qed.

Lemma issues_delete_pvcs (pvc_prefix ns : string) (pvc_names deleted : list string) :
  (forall pvc,
      P (Run ["kubectl"; "delete"; "pvc"; pvc; "-n"; ns;
              "--ignore-not-found=true"])) ->
  issues P (delete_pvcs pvc_prefix ns pvc_names deleted).
Proof.
  intros H. revert deleted.
  induction pvc_names as [|pvc rest IH]; intros deleted; simpl.
  - apply issues_ret.
  - destruct (PyStr.startswith pvc_prefix pvc); [| apply IH].
    apply issues_bind; [apply issues_run, H |].
    intros r. destruct (returncode r =? 0); apply IH.
Qed.

End Service.

(** ** The release listing and the status query *)

(** The listing always returns: the parsed output of the tool, or the
    empty list when the tool fails, raises or prints no JSON. *)
Lemma get_helm_releases_total (ns : string) (w : World) (tr : list cmd) :
  exists releases,
    get_helm_releases ns w tr
    = (Ok releases, tr ++ [Run ["helm"; "list"; "-n"; ns; "--output"; "json"]]).
Proof.
  unfold get_helm_releases, try_except, mbind, M_bind, bind, run, loads, ret.
  destruct (subprocess_run w tr _) as [r|e]; simpl; [| eauto].
  destruct (returncode r =? 0); simpl; [| eauto].
  destruct (json_loads w (stdout r)); eauto.
Qed.

(** C5, as stated, fails: for a release that is not in the listing the
    status query returns [None], not the string ["not found"]; for a
    release that is listed, when the status command exits with 1, it
    returns [None] as well, not ["unknown"]. *)
Lemma get_helm_status_absent_is_none :
  fst (handle (get_helm_status "dbt-fastbi-demo-98d66ba2" "dbt-server") airflow_fresh)
  = Ok None
  /\ fst (handle (get_helm_status "dbt-fastbi-demo-98d66ba2" "dbt-server") airflow_fresh)
     <> Ok (Some "not found")
  /\ snd (handle (get_helm_status "dbt-fastbi-demo-98d66ba2" "dbt-server") status_fails)
     = [ Run ["helm"; "list"; "-n"; "dbt-server"; "--output"; "json"];
         Run ["helm"; "status"; "dbt-fastbi-demo-98d66ba2"; "-n"; "dbt-server"] ]
  /\ fst (handle (get_helm_status "dbt-fastbi-demo-98d66ba2" "dbt-server") status_fails)
     = Ok None
  /\ fst (handle (get_helm_status "dbt-fastbi-demo-98d66ba2" "dbt-server") status_fails)
     <> Ok (Some "unknown").
Proof. repeat split; vm_compute; congruence. Qed.

(** C5, amended: the status query never raises.  It returns what the
    status command printed when the release is in the listing and the
    command exits with 0, and [None] otherwise: when the release is not
    in the listing, when the command exits with another code, and when
    it cannot be run. *)
Theorem get_helm_status_result (release_name ns : string) (w : World) (tr : list cmd) :
  exists releases tr1,
    get_helm_releases ns w tr = (Ok releases, tr1)
    /\ fst (get_helm_status release_name ns w tr)
       = Ok (if any_named release_name releases then
               match subprocess_run w tr1
                       ["helm"; "status"; release_name; "-n"; ns] with
               | Ok r => if returncode r =? 0 then Some (stdout r) else None
               | Raise _ => None
               end
             else None).
Proof.
  destruct (get_helm_releases_total ns w tr) as [releases E].
  exists releases, (tr ++ [Run ["helm"; "list"; "-n"; ns; "--output"; "json"]]).
  split; [exact E |].
  unfold get_helm_status, try_except, mbind, M_bind, bind. rewrite E.
  destruct (any_named release_name releases); simpl; [| reflexivity].
  destruct (subprocess_run w _ _) as [r|e]; simpl; [| reflexivity].
  destruct (returncode r =? 0); reflexivity.
Qed.

(** ** Deleting a deployment *)

(** C6: when the identifier is not in the listing of the namespace, the
    handler answers 404 with the error ["Deployment not found"]; the
    listing is the only command it issues, so nothing is uninstalled, no
    volume is deleted and the connection API is not called. *)
Theorem delete_absent_release (deployment_id : string) (w : World)
    (releases : list Release.t) (tr1 : list cmd) :
  get_helm_releases "dbt-server" w [] = (Ok releases, tr1) ->
  any_named deployment_id releases = false ->
  exists body,
    handle (delete_deployment deployment_id) w
    = (Ok (body, 404),
       [Run ["helm"; "list"; "-n"; "dbt-server"; "--output"; "json"]])
    /\ lookup_path ["details"; "error"] body = Some (VStr "Deployment not found")
    /\ forallb (fun c => negb (mutating c) && negb (is_request c))
         (snd (handle (delete_deployment deployment_id) w)) = true.
Proof.
  intros E Habsent.
  destruct (get_helm_releases_total "dbt-server" w []) as [releases' E'].
  rewrite E in E'. inversion E'; subst releases' tr1. clear E'.
  eexists. unfold handle, delete_deployment, try_except, mbind, M_bind, bind.
  cbv zeta. rewrite E, Habsent. simpl.
  split; [reflexivity |]. split; reflexivity.
Qed.

Lemma delete_absent_release_witness :
  exists body,
    handle (delete_deployment "dbt-fastbi-demo-98d66ba2") airflow_fresh
    = (Ok (body, 404),
       [Run ["helm"; "list"; "-n"; "dbt-server"; "--output"; "json"]])
    /\ lookup_path ["details"; "error"] body = Some (VStr "Deployment not found")
    /\ forallb (fun c => negb (mutating c) && negb (is_request c))
         (snd (handle (delete_deployment "dbt-fastbi-demo-98d66ba2") airflow_fresh))
       = true.
Proof.
  apply (delete_absent_release "dbt-fastbi-demo-98d66ba2" airflow_fresh []
           [Run ["helm"; "list"; "-n"; "dbt-server"; "--output"; "json"]]);
    reflexivity.
Defined.

(** ** Creating or updating a deployment *)

Section Upsert.

Variable self : AirflowService.

(** A request to the connection API is issued before anything can go
    wrong with its answer. *)
Lemma make_request_trace (method endpoint : string) (data : option value)
    (w : World) (tr : list cmd) :
  snd (_make_request self method endpoint data w tr)
  = tr ++ [Request method (endpoint_url self endpoint) data].
Proof.
  unfold _make_request, raise_for_status, response_json,
    mbind, M_bind, bind, request, ret, raise.
  destruct (http_request w tr _ _ _) as [r|e]; simpl; [| reflexivity].
  destruct ((400 <=? status_code r) && (status_code r <? 500)); simpl;
    [reflexivity |].
  destruct ((500 <=? status_code r) && (status_code r <? 600)); simpl;
    [reflexivity |].
  destruct (json_ok r); reflexivity.
Qed.

Lemma triple_make_request (Pre : list cmd -> Prop)
    (method endpoint : string) (data : option value) (Q : cmd -> Prop) :
  Q (Request method (endpoint_url self endpoint) data) ->
  triple Pre (_make_request self method endpoint data)
    (fun _ tr => Exists Q tr).
Proof.
  intros HQ w tr a tr' _ E.
  pose proof (make_request_trace method endpoint data w tr) as T.
  rewrite E in T. simpl in T. subst tr'.
  apply Exists_app. right. now constructor.
Qed.

End Upsert.

Lemma triple_pure {X} (phi : Prop) (Pre : list cmd -> Prop) (m : M X)
    (Q : X -> list cmd -> Prop) :
  (phi -> triple Pre m Q) -> triple (fun tr => phi /\ Pre tr) m Q.
Proof. intros H w tr a tr' [Hphi Hpre] E. eapply H; eauto. Qed.

Lemma triple_frame {X} (phi : Prop) (P Qc : cmd -> Prop) (m : M X) :
  issues P m ->
  triple (fun tr => phi /\ Exists Qc tr) m (fun _ tr => phi /\ Exists Qc tr).
Proof.
  intros H. apply triple_pure. intros Hphi w tr a tr' Hpre E.
  split; [exact Hphi |].
  eapply (issues_keeps P m Qc H); [exact Hpre | exact E].
Qed.

Lemma issues_run_check (P : cmd -> Prop) (argv : list string) :
  P (Run argv) -> issues P (run_check argv).
Proof. intros H. unfold run_check. issues_all. exact H. Qed.

Lemma issues_render_values_file (P : cmd -> Prop) (data : DeploymentData)
    (chart_path : string) :
  (forall t o c, P (Render t o c)) -> issues P (render_values_file data chart_path).
Proof.
  intros H. unfold render_values_file, render_template. issues_all. apply H.
Qed.

(** The host of every connection record the handler sends is the
    endpoint of the request. *)
Lemma deploy_dbt_server_issues (json_data : DeploymentData) :
  issues (host_is (request_endpoint json_data)) (deploy_dbt_server json_data).
Proof.
  assert (Hrun : forall argv, host_is (request_endpoint json_data) (Run argv))
    by (intros argv v Hv; discriminate).
  assert (Hget : forall m u, host_is (request_endpoint json_data) (Request m u None))
    by (intros m u v Hv; discriminate).
  unfold deploy_dbt_server. cbv zeta.
  apply issues_try; [| intros e; apply issues_ret].
  apply issues_bind; [apply issues_ask | intros w].
  apply issues_bind.
  { apply issues_render_values_file. intros t o c v Hv. discriminate. }
  intros values_file.
  apply issues_bind.
  { apply issues_try.
    - apply issues_bind; [apply issues_run_check, Hrun | intros _].
      apply issues_bind; [apply issues_run_check, Hrun | intros _].
      apply issues_ret.
    - intros e. destruct e; first [apply issues_ret | apply issues_raise]. }
  intros [response|]; [apply issues_ret |].
  apply issues_bind; [apply issues_run, Hrun | intros result].
  destruct (negb (returncode result =? 0)); [apply issues_ret |].
  apply issues_bind; [unfold airflow_service; issues_all | intros self].
  apply issues_bind.
  { apply issues_try.
    - apply issues_bind; [apply issues_make_request, Hget | intros _].
      apply issues_bind; [apply issues_now | intros t].
      apply issues_bind; [| intros _; apply issues_ret].
      apply issues_make_request. intros v Hv. inversion Hv. reflexivity.
    - intros e. destruct e as [m c t| | |]; try apply issues_raise.
      destruct (c =? 404); [| apply issues_raise].
      apply issues_bind; [| intros _; apply issues_ret].
      apply issues_make_request. intros v Hv. inversion Hv. reflexivity. }
  intros airflow_connection_status.
  apply issues_bind; [| intros status; apply issues_ret].
  apply issues_get_helm_status; apply Hrun.
Qed.

Lemma deploy_answer_error (json_data : DeploymentData) (m e : string)
    (tr : list cmd) :
  deploy_answer json_data (error_body m e, 500) tr.
Proof.
  split; simpl; [intros H; discriminate |].
  intros _. repeat split; reflexivity.
Qed.

Lemma deploy_dbt_server_triple (json_data : DeploymentData) :
  triple (fun _ => True) (deploy_dbt_server json_data) (deploy_answer json_data).
Proof.
  unfold deploy_dbt_server. cbv zeta.
  apply triple_try;
    [| intros e; apply triple_ret; intros tr _; apply deploy_answer_error].
  eapply triple_bind; [apply triple_any | intros w]; cbv beta.
  eapply triple_bind; [apply triple_any | intros values_file]; cbv beta.
  eapply triple_bind with
    (R := fun setup _ =>
            (setup = None \/ exists e, setup
               = Some (error_body "Failed to setup Helm repository" e, 500))
            /\ True).
  { apply triple_try.
    - eapply triple_bind; [apply triple_any | intros ?]; cbv beta.
      eapply triple_bind; [apply triple_any | intros ?]; cbv beta.
      apply triple_ret. intros tr _. split; [now left | exact I].
    - intros e. destruct e; try apply triple_raise.
      apply triple_ret. intros tr _. split; [right; eauto | exact I]. }
  intros setup. apply triple_pure. intros [-> | [e ->]];
    [| apply triple_ret; intros tr _; apply deploy_answer_error].
  eapply triple_bind; [apply triple_any | intros result]; cbv beta.
  destruct (negb (returncode result =? 0));
    [apply triple_ret; intros tr _; apply deploy_answer_error |].
  eapply triple_bind; [apply triple_any | intros self]; cbv beta.
  eapply triple_bind with
    (R := fun s tr =>
            (s = "updated" \/ s = "created")
            /\ Exists (records_host (request_endpoint json_data)) tr).
  { apply triple_try.
    - eapply triple_bind; [apply triple_any | intros ?]; cbv beta.
      eapply triple_bind; [apply triple_any | intros t]; cbv beta.
      eapply triple_bind;
        [apply triple_make_request
           with (Q := records_host (request_endpoint json_data));
         reflexivity |].
      intros ?; cbv beta. apply triple_ret. intros tr H. split; [now left | exact H].
    - intros e. destruct e as [m c t| | |]; try apply triple_raise.
      destruct (c =? 404); [| apply triple_raise].
      eapply triple_bind;
        [apply triple_make_request
           with (Q := records_host (request_endpoint json_data));
         reflexivity |].
      intros ?; cbv beta. apply triple_ret. intros tr H. split; [now right | exact H]. }
  intros s.
  eapply triple_bind.
  { apply triple_frame with (P := fun _ => True).
    apply issues_get_helm_status; exact I. }
  intros status. apply triple_ret. intros tr [Hs Hex].
  split; simpl; [intros _ | intros H; now elim H].
  repeat split; try reflexivity; try exact Hex.
  destruct Hs as [-> | ->]; [now left | now right].
Qed.



Lemma lookup_path_none_app (p q : list string) (v : value) :
  lookup_path p v = None -> lookup_path (p ++ q) v = None.
Proof.
  revert v. induction p as [|k p IH]; intros v H; simpl in *; [discriminate |].
  destruct v as [| | | | |d]; try reflexivity.
  destruct (assoc k d) as [v'|]; [now apply IH | reflexivity].
Qed.

(** The handler never answers with a connection status ["error"]: a
    failure of the connection calls makes the whole answer an error. *)
Lemma deploy_never_reports_connection_error (json_data : DeploymentData)
    (w : World) (body : value) (code : Z) :
  fst (handle (deploy_dbt_server json_data) w) = Ok (body, code) ->
  lookup_path ["details"; "airflow_connection"; "status"] body
  <> Some (VStr "error").
Proof.
  intros E. unfold handle in *.
  destruct (deploy_dbt_server json_data w []) as [r tr] eqn:Erun.
  simpl in E. subst r.
  destruct (deploy_dbt_server_triple json_data w [] (body, code) tr I Erun)
    as [Hok Herr].
  destruct (Z.eq_dec code 200) as [-> | Hne].
  - destruct (Hok eq_refl) as (_ & _ & [H | H] & _);
      cbn [fst] in H; rewrite H; discriminate.
  - destruct (Herr Hne) as (_ & _ & H). cbn [fst] in H.
    change ["details"; "airflow_connection"; "status"]
      with (["details"; "airflow_connection"] ++ ["status"]).
    rewrite (lookup_path_none_app _ _ _ H). discriminate.
Qed.

(** C1: the release is applied and the orchestrator answers the first
    connection call with status 500.  The handler answers 500 with status
    ["error"], the message of the HTTP error, and no connection entry. *)
Theorem deploy_connection_failure_is_an_error :
  let url := "http://airflow.local/api/v1/connections/dbt-fastbi-demo-98d66ba2" in
  let msg := "500 Server Error: Internal Server Error for url: " +:+ url in
  fst (handle (deploy_dbt_server demo_request) airflow_down)
  = Ok (error_body msg msg, 500)
  /\ skipn 1 (snd (handle (deploy_dbt_server demo_request) airflow_down))
     = [ Run ["helm"; "repo"; "add"; "kube-core";
              "https://kube-core.github.io/helm-charts"];
         Run ["helm"; "repo"; "update"; "kube-core"];
         Run ["helm"; "upgrade"; "-i"; "dbt-fastbi-demo-98d66ba2";
              "kube-core/raw"; "--version"; "0.1.0"; "--namespace";
              "dbt-server"; "--wait"; "--values"; "/app/charts/values.yaml"];
         Request "GET" url None ]
  /\ (forall tr, subprocess_run airflow_down tr
       ["helm"; "upgrade"; "-i"; "dbt-fastbi-demo-98d66ba2";
        "kube-core/raw"; "--version"; "0.1.0"; "--namespace";
        "dbt-server"; "--wait"; "--values"; "/app/charts/values.yaml"]
     = Ok {| returncode := 0; stdout := ""; stderr := "" |})
  /\ lookup_path ["status"] (error_body msg msg) = Some (VStr "error")
  /\ lookup_path ["details"; "airflow_connection"; "status"] (error_body msg msg)
     = None.
Proof. repeat split; try intros tr; vm_compute; reflexivity. Qed.

(** ** The data-warehouse fields of a loaded request *)

(** The validators leave the loaded fields as they were deserialized:
    each is the value sent, or the empty default. *)
Lemma load_warehouse_fields_result (self self' : Schema)
    (raw : gmap string string) (platform type : string) :
  load_warehouse_fields self raw = Some (self', (platform, type)) ->
  load_warehouse_field raw "data_warehouse_platform" = Some platform
  /\ load_warehouse_field raw "datawarehouse_type" = Some type.
Proof.
  unfold load_warehouse_fields. intros H.
  destruct (load_warehouse_field raw "datawarehouse_type") as [t|];
    [| discriminate].
  destruct (load_warehouse_field raw "data_warehouse_platform") as [p|];
    [| discriminate].
  destruct (sync_data_warehouse_fields self p) as [s1 v1].
  destruct (sync_datawarehouse_fields s1 t) as [s2 v2].
  inversion H; subst. split; reflexivity.
Qed.

(** When the context holds a dict under ['data'], that dict is what the
    validator fills in; the loaded fields still differ. *)
Example load_with_context_data :
  load_warehouse_fields {| context := Some {[ "data" := CtxDict ∅ ]} |}
    {[ "data_warehouse_platform" := "bigquery" ]}
  = Some ({| context :=
               Some {[ "data" :=
                         CtxDict {[ "datawarehouse_type" := "bigquery" ]} ]} |},
          ("bigquery", "")).
Proof. vm_compute. reflexivity. Qed.

(** C7: a request that sets [data_warehouse_platform] to ["bigquery"] and
    leaves [datawarehouse_type] out is loaded with the platform
    ["bigquery"] and the type [""]: the two fields are not equal. *)
Theorem load_leaves_warehouse_type_empty :
  load_warehouse_fields input_schema {[ "data_warehouse_platform" := "bigquery" ]}
  = Some (input_schema, ("bigquery", ""))
  /\ "bigquery" <> "".
Proof. split; [vm_compute; reflexivity | discriminate]. Qed.

(** ** The namespace of a deletion *)

Lemma delete_pvcs_cons (pvc_prefix ns pvc : string) (rest deleted : list string) :
  delete_pvcs pvc_prefix ns (pvc :: rest) deleted
  = if PyStr.startswith pvc_prefix pvc then
      del_result ←
        run ["kubectl"; "delete"; "pvc"; pvc; "-n"; ns;
             "--ignore-not-found=true"];
      if returncode del_result =? 0
      then delete_pvcs pvc_prefix ns rest (deleted ++ [pvc])
      else delete_pvcs pvc_prefix ns rest deleted
    else delete_pvcs pvc_prefix ns rest deleted.
Proof. reflexivity. Qed.

Lemma bind_ok {A B} (m : M A) (k : A -> M B) (w : World) (tr tr' : list cmd)
    (a : A) :
  m w tr = (Ok a, tr') -> (m ≫= k) w tr = k a w tr'.
Proof. intros E. unfold mbind, M_bind, bind. now rewrite E. Qed.

Lemma bind_raise {A B} (m : M A) (k : A -> M B) (w : World) (tr tr' : list cmd)
    (e : exn) :
  m w tr = (Raise e, tr') -> (m ≫= k) w tr = (Raise e, tr').
Proof. intros E. unfold mbind, M_bind, bind. now rewrite E. Qed.

Lemma issues_delete_pvcs_steps (w : World) (id : string)
    (pvc_names deleted : list string) :
  issues (delete_step w id)
    (delete_pvcs (pvc_prefix_of id) "dbt-server" pvc_names deleted).
Proof.
  revert deleted. induction pvc_names as [|pvc rest IH]; intros deleted.
  - apply issues_ret.
  - rewrite delete_pvcs_cons.
    destruct (PyStr.startswith (pvc_prefix_of id) pvc) eqn:E; [| apply IH].
    apply issues_bind.
    + apply issues_run. apply (ds_delete_pvc w id pvc). exact E.
    + intros r. destruct (returncode r =? 0); apply IH.
Qed.

(** When every deletion can be run, the loop deletes each volume of the
    release, in the order of the listing. *)
Lemma delete_pvcs_trace (id : string) (pvc_names deleted : list string)
    (w : World) (tr : list cmd) :
  (forall tr' pvc,
      exists r,
        subprocess_run w tr'
          ["kubectl"; "delete"; "pvc"; pvc; "-n"; "dbt-server";
           "--ignore-not-found=true"] = Ok r) ->
  exists result,
    delete_pvcs (pvc_prefix_of id) "dbt-server" pvc_names deleted w tr
    = (Ok result,
       tr ++ map delete_pvc_cmd
               (List.filter (PyStr.startswith (pvc_prefix_of id)) pvc_names)).
Proof.
  intros Hrun. revert deleted tr.
  induction pvc_names as [|pvc rest IH]; intros deleted tr.
  - exists deleted. cbn. now rewrite app_nil_r.
  - rewrite delete_pvcs_cons. cbn [List.filter].
    destruct (PyStr.startswith (pvc_prefix_of id) pvc); [| apply IH].
    destruct (Hrun tr pvc) as [r Hr].
    erewrite bind_ok; [| unfold run; rewrite Hr; reflexivity].
    cbn [map]. fold (delete_pvc_cmd pvc).
    destruct (returncode r =? 0).
    + destruct (IH (deleted ++ [pvc]) (tr ++ [delete_pvc_cmd pvc]))
        as (result & E).
      exists result. now rewrite E, <- app_assoc.
    + destruct (IH deleted (tr ++ [delete_pvc_cmd pvc])) as (result & E).
      exists result. now rewrite E, <- app_assoc.
Qed.

Lemma delete_connection_trace (self : AirflowService) (connection_id : string)
    (w : World) (tr : list cmd) :
  snd (delete_connection self connection_id w tr)
  = tr ++ [Request "DELETE"
             (endpoint_url self ("api/v1/connections/" +:+ connection_id)) None].
Proof.
  unfold delete_connection, raise_for_status, mbind, M_bind, bind, request,
    ret, raise.
  destruct (http_request w tr _ _ _) as [r|e]; simpl; [| reflexivity].
  destruct (negb _); [| reflexivity].
  destruct ((400 <=? status_code r) && (status_code r <? 500)); simpl;
    [reflexivity |].
  destruct ((500 <=? status_code r) && (status_code r <? 600)); reflexivity.
Qed.

(** The connection of a deletion: the [GET] is sent, the [DELETE] after
    it when the [GET] returns, and whatever the API answers is turned
    into a status. *)
Lemma delete_connection_try (w : World) (id : string) (tr : list cmd) :
  let self := AirflowService_init (AIRFLOW_URL (config w)) in
  exists conn,
    try_except
      (get_connection self id;;
       delete_connection self id;;
       ret ("deleted", (None : option string)))
      (fun e =>
         match e with
         | HTTPError _ e_status_code _ =>
             if e_status_code =? 404 then ret ("not_found", None)
             else ret ("error", Some (str_exn e))
         | _ => ret ("error", Some (str_exn e))
         end) w tr
    = (Ok conn,
       tr ++ get_connection_cmd w id
          :: match fst (get_connection self id w tr) with
             | Ok _ => [delete_connection_cmd w id]
             | Raise _ => []
             end).
Proof.
  intros self.
  pose proof (make_request_trace self "GET" ("api/v1/connections/" +:+ id)
                None w tr) as Tg.
  fold (get_connection self id) in Tg.
  change (Request "GET" _ None) with (get_connection_cmd w id) in Tg.
  destruct (get_connection self id w tr) as [[u|e] tr1] eqn:G;
    cbn [fst snd] in *; subst tr1.
  - pose proof (delete_connection_trace self id w (tr ++ [get_connection_cmd w id]))
      as Td.
    change (Request "DELETE" _ None) with (delete_connection_cmd w id) in Td.
    destruct (delete_connection self id w (tr ++ [get_connection_cmd w id]))
      as [[u'|e'] tr2] eqn:D; cbn [snd] in Td; subst tr2.
    + eexists. unfold try_except. erewrite bind_ok by exact G.
      erewrite bind_ok by exact D. unfold ret.
      rewrite <- app_assoc. reflexivity.
    + unfold try_except. erewrite bind_ok by exact G.
      erewrite bind_raise by exact D.
      destruct e' as [m c t| | |]; [destruct (c =? 404) | | |];
        eexists; unfold ret; rewrite <- app_assoc; reflexivity.
  - unfold try_except. erewrite bind_raise by exact G.
    destruct e as [m c t| | |]; [destruct (c =? 404) | | |];
      eexists; reflexivity.
Qed.

(** What a deletion issues, step by step, from what the environment
    answers. *)
Lemma delete_deployment_run (deployment_id : string) (w : World) :
  let out := handle (delete_deployment deployment_id) w in
  Forall (delete_step w deployment_id) (snd out)
  /\ (exists rest, snd out = list_cmd :: rest)
  /\ (forall (releases : list Release.t) (tr1 : list cmd),
         get_helm_releases "dbt-server" w [] = (Ok releases, tr1) ->
         any_named deployment_id releases = true ->
         (exists rest,
             snd out = list_cmd :: uninstall_cmd deployment_id :: rest)
         /\ forall r_un,
              subprocess_run w [list_cmd]
                ["helm"; "uninstall"; deployment_id; "-n"; "dbt-server"]
              = Ok r_un ->
              returncode r_un = 0 ->
              (exists rest,
                  snd out
                  = list_cmd :: uninstall_cmd deployment_id
                    :: get_pvc_cmd :: rest)
              /\ forall r_pvc,
                   subprocess_run w [list_cmd; uninstall_cmd deployment_id]
                     ["kubectl"; "get"; "pvc"; "-n"; "dbt-server"; "-o";
                      "jsonpath={.items[*].metadata.name}"]
                   = Ok r_pvc ->
                   (forall tr' pvc,
                       exists r,
                         subprocess_run w tr'
                           ["kubectl"; "delete"; "pvc"; pvc; "-n";
                            "dbt-server"; "--ignore-not-found=true"]
                         = Ok r) ->
                   let before :=
                     list_cmd :: uninstall_cmd deployment_id :: get_pvc_cmd
                     :: map delete_pvc_cmd (own_volumes deployment_id r_pvc) in
                   snd out
                   = before
                     ++ get_connection_cmd w deployment_id
                        :: match fst (get_connection
                                        (AirflowService_init
                                           (AIRFLOW_URL (config w)))
                                        deployment_id w before) with
                           | Ok _ => [delete_connection_cmd w deployment_id]
                           | Raise _ => []
                           end
                   /\ exists body, fst out = Ok (body, 200)).
Proof.
  destruct (get_helm_releases_total "dbt-server" w []) as [releases E].
  cbn [app] in E. fold list_cmd in E.
  unfold handle, delete_deployment. cbv zeta.
  match goal with
  | |- context [try_except ?m ?h w []] => set (B := m); set (H := h)
  end.
  destruct (any_named deployment_id releases) eqn:Hin.
  2: { assert (Hb : exists body, B w [] = (Ok (body, 404), [list_cmd])).
       { eexists. unfold B. erewrite bind_ok by exact E. cbv beta.
         rewrite Hin. reflexivity. }
       destruct Hb as [body Hb]. unfold try_except. rewrite Hb. cbn [fst snd].
       split; [repeat constructor |]. split; [exists []; reflexivity |].
       intros releases' tr1 E' Hin'. rewrite E in E'. inversion E'; subst.
       congruence. }
  assert (Hstart : B w []
                   = (fun k => k w [list_cmd])
                       ltac:(match eval unfold B in B with
                             | _ ≫= ?k => exact (k releases)
                             end)).
  { unfold B. erewrite bind_ok by exact E. reflexivity. }
  cbv beta in Hstart. rewrite Hin in Hstart. cbn [negb] in Hstart.
  destruct (subprocess_run w [list_cmd]
              ["helm"; "uninstall"; deployment_id; "-n"; "dbt-server"])
    as [r_un|e] eqn:Hun.
  2: { (* the uninstall command cannot be run *)
       erewrite bind_raise in Hstart by (unfold run; rewrite Hun; reflexivity).
       unfold try_except. rewrite Hstart. unfold H, ret. cbn [fst snd app].
       split; [repeat constructor |]. split; [eexists; reflexivity |].
       intros releases' tr1 _ _. split; [exists []; reflexivity |].
       intros r_un' Hun'. discriminate Hun'. }
  erewrite bind_ok in Hstart by (unfold run; rewrite Hun; reflexivity).
  cbv beta in Hstart. cbn [app] in Hstart.
  change (Run ["helm"; "uninstall"; deployment_id; "-n"; "dbt-server"])
    with (uninstall_cmd deployment_id) in Hstart.
  destruct (returncode r_un =? 0) eqn:Hrc; cbn [negb] in Hstart.
  2: { (* the uninstall command fails *)
       unfold try_except. rewrite Hstart. unfold ret. cbn [fst snd].
       split; [repeat constructor |]. split; [eexists; reflexivity |].
       intros releases' tr1 _ _. split; [exists []; reflexivity |].
       intros r_un' Hun' Hrc'. inversion Hun'; subst r_un'.
       apply Z.eqb_neq in Hrc. contradiction. }
  destruct (subprocess_run w [list_cmd; uninstall_cmd deployment_id]
              ["kubectl"; "get"; "pvc"; "-n"; "dbt-server"; "-o";
               "jsonpath={.items[*].metadata.name}"])
    as [r_pvc|e] eqn:Hpvc.
  2: { (* the volumes cannot be listed *)
       erewrite bind_raise in Hstart by (unfold run; rewrite Hpvc; reflexivity).
       unfold try_except. rewrite Hstart. unfold H, ret. cbn [fst snd app].
       split; [repeat constructor |]. split; [eexists; reflexivity |].
       intros releases' tr1 _ _. split; [eexists; reflexivity |].
       intros r_un' _ _. split; [exists []; reflexivity |].
       intros r_pvc' Hpvc'. discriminate Hpvc'. }
  erewrite bind_ok in Hstart by (unfold run; rewrite Hpvc; reflexivity).
  cbv beta in Hstart. cbn [app] in Hstart.
  change (Run ["kubectl"; "get"; "pvc"; "-n"; "dbt-server"; "-o";
               "jsonpath={.items[*].metadata.name}"])
    with get_pvc_cmd in Hstart.
  match type of Hstart with _ = (?l ≫= _) w ?t => set (loop := l) in *; set (tr3 := t) in * end.
  assert (Hiss : issues (delete_step w deployment_id) loop).
  { unfold loop. destruct (returncode r_pvc =? 0);
      [apply issues_delete_pvcs_steps | apply issues_ret]. }
  assert (Hall : (forall tr' pvc,
                     exists r,
                       subprocess_run w tr'
                         ["kubectl"; "delete"; "pvc"; pvc; "-n";
                          "dbt-server"; "--ignore-not-found=true"]
                       = Ok r) ->
                 exists result,
                   loop w tr3
                   = (Ok result,
                      tr3 ++ map delete_pvc_cmd
                               (own_volumes deployment_id r_pvc))).
  { intros Hdel. unfold loop, own_volumes.
    destruct (returncode r_pvc =? 0).
    - apply delete_pvcs_trace, Hdel.
    - exists []. unfold ret. cbn [map]. now rewrite app_nil_r. }
  destruct (Hiss w tr3) as (added & Eadd & Fadd).
  assert (F3 : Forall (delete_step w deployment_id) tr3)
    by (repeat constructor).
  destruct (loop w tr3) as [[deleted|e] trl] eqn:Hloop;
    cbn [snd] in Eadd; subst trl.
  2: { (* a deletion of a volume cannot be run *)
       erewrite bind_raise in Hstart by exact Hloop.
       unfold try_except. rewrite Hstart. unfold H, ret. cbn [fst snd].
       split; [apply Forall_app; now split |].
       split; [eexists; reflexivity |].
       intros releases' tr1 _ _. split; [eexists; reflexivity |].
       intros r_un' _ _. split; [eexists; reflexivity |].
       intros r_pvc' Hpvc' Hdel. destruct (Hall Hdel) as [result Hr].
       discriminate Hr. }
  erewrite bind_ok in Hstart by exact Hloop. cbv beta in Hstart.
  erewrite bind_ok in Hstart by reflexivity. cbv beta in Hstart.
  destruct (delete_connection_try w deployment_id (tr3 ++ added))
    as [[s m] Hc].
  cbv zeta in Hc. erewrite bind_ok in Hstart by exact Hc.
  unfold try_except. rewrite Hstart. unfold ret. cbn [fst snd].
  split.
  { apply Forall_app. split; [apply Forall_app; now split |].
    constructor; [constructor |].
    destruct (fst (get_connection _ deployment_id w (tr3 ++ added)));
      repeat constructor. }
  split; [eexists; reflexivity |].
  intros releases' tr1 _ _. split; [eexists; reflexivity |].
  intros r_un' _ _. split; [eexists; reflexivity |].
  intros r_pvc' Hpvc' Hdel. inversion Hpvc'; subst r_pvc'.
  destruct (Hall Hdel) as [result Hr]. inversion Hr as [[Hres Htr]].
  subst added.
  split; [reflexivity | eexists; reflexivity].
Qed.

Lemma delete_step_names_namespace (w : World) (id : string) (c : cmd) :
  delete_step w id c -> is_request c = false ->
  names_namespace "dbt-server" c = true.
Proof.
  intros [| | |pvc _| |] Hr; try discriminate Hr; try reflexivity.
  - cbn. now rewrite andb_false_r.
  - cbn. now rewrite andb_false_r.
Qed.

(** C10, as stated, fails for the connection deletion.  Deleting the demo
    release where it is installed removes its connection with a
    [DELETE] that names the connection alone: the namespace
    ["dbt-server"] is nowhere in the request, so not every step of the
    deletion is performed against that namespace. *)
Lemma delete_connection_names_no_namespace :
  In (Request "DELETE"
        "http://airflow.local/api/v1/connections/dbt-fastbi-demo-98d66ba2" None)
    (snd (handle (delete_deployment "dbt-fastbi-demo-98d66ba2")
            cluster_with_release))
  /\ names_namespace "dbt-server"
       (Request "DELETE"
          "http://airflow.local/api/v1/connections/dbt-fastbi-demo-98d66ba2"
          None) = false
  /\ ~ Forall (fun c => names_namespace "dbt-server" c = true)
         (snd (handle (delete_deployment "dbt-fastbi-demo-98d66ba2")
                 cluster_with_release)).
Proof.
  assert (Hin : In (Request "DELETE"
                      "http://airflow.local/api/v1/connections/dbt-fastbi-demo-98d66ba2"
                      None)
                  (snd (handle (delete_deployment "dbt-fastbi-demo-98d66ba2")
                          cluster_with_release))).
  { vm_compute. do 5 right. left. reflexivity. }
  split; [exact Hin |]. split; [vm_compute; reflexivity |].
  intros F. rewrite List.Forall_forall in F. specialize (F _ Hin).
  vm_compute in F. discriminate F.
Qed.

(** C10, amended: the handler takes the identifier alone, and every
    command it issues is a step of the deletion of that identifier in
    the namespace ["dbt-server"].  The steps are performed, in order:
    the listing of ["dbt-server"] always; the uninstall in
    ["dbt-server"] when the release is listed there; the listing of the
    volumes of ["dbt-server"] when the uninstall exits with 0; then,
    when these can be run, the deletion in ["dbt-server"] of each volume
    of the release, the [GET] of its connection and, when that returns,
    the [DELETE] of the connection, with the answer 200.  The listing,
    uninstall and volume commands carry the option [-n dbt-server]; the
    connection calls carry the URL of the connection and no namespace.
    So a release that is listed in another namespace, and not in
    ["dbt-server"], is answered with 404 after the listing of
    ["dbt-server"] alone. *)
Theorem delete_deployment_fixed_namespace (deployment_id : string) (w : World) :
  let out := handle (delete_deployment deployment_id) w in
  Forall (delete_step w deployment_id) (snd out)
  /\ Forall (fun c => is_request c = false ->
                      names_namespace "dbt-server" c = true) (snd out)
  /\ (exists rest, snd out = list_cmd :: rest)
  /\ (forall (releases : list Release.t) (tr1 : list cmd),
         get_helm_releases "dbt-server" w [] = (Ok releases, tr1) ->
         any_named deployment_id releases = true ->
         (exists rest,
             snd out = list_cmd :: uninstall_cmd deployment_id :: rest)
         /\ forall r_un,
              subprocess_run w [list_cmd]
                ["helm"; "uninstall"; deployment_id; "-n"; "dbt-server"]
              = Ok r_un ->
              returncode r_un = 0 ->
              (exists rest,
                  snd out
                  = list_cmd :: uninstall_cmd deployment_id
                    :: get_pvc_cmd :: rest)
              /\ forall r_pvc,
                   subprocess_run w [list_cmd; uninstall_cmd deployment_id]
                     ["kubectl"; "get"; "pvc"; "-n"; "dbt-server"; "-o";
                      "jsonpath={.items[*].metadata.name}"]
                   = Ok r_pvc ->
                   (forall tr' pvc,
                       exists r,
                         subprocess_run w tr'
                           ["kubectl"; "delete"; "pvc"; pvc; "-n";
                            "dbt-server"; "--ignore-not-found=true"]
                         = Ok r) ->
                   let before :=
                     list_cmd :: uninstall_cmd deployment_id :: get_pvc_cmd
                     :: map delete_pvc_cmd (own_volumes deployment_id r_pvc) in
                   snd out
                   = before
                     ++ get_connection_cmd w deployment_id
                        :: match fst (get_connection
                                        (AirflowService_init
                                           (AIRFLOW_URL (config w)))
                                        deployment_id w before) with
                           | Ok _ => [delete_connection_cmd w deployment_id]
                           | Raise _ => []
                           end
                   /\ exists body, fst out = Ok (body, 200))
  /\ (forall (other : string) (there here : list Release.t)
             (tr1 tr2 : list cmd),
         other <> "dbt-server" ->
         get_helm_releases other w [] = (Ok there, tr1) ->
         any_named deployment_id there = true ->
         get_helm_releases "dbt-server" w [] = (Ok here, tr2) ->
         any_named deployment_id here = false ->
         exists body, out = (Ok (body, 404), [list_cmd])).
Proof.
  intros out.
  destruct (delete_deployment_run deployment_id w) as (Hsteps & Hfirst & Hrun).
  fold out in Hsteps, Hfirst, Hrun.
  split; [exact Hsteps |]. split.
  { eapply List.Forall_impl; [| exact Hsteps].
    intros c. apply delete_step_names_namespace. }
  split; [exact Hfirst |]. split; [exact Hrun |].
  intros other there here tr1 tr2 _ _ _ E Habsent.
  destruct (get_helm_releases_total "dbt-server" w []) as [here' E'].
  rewrite E in E'. inversion E'; subst here' tr2. clear E'.
  unfold out, handle, delete_deployment, try_except. cbv zeta.
  erewrite bind_ok by exact E. cbv beta. rewrite Habsent.
  eexists. reflexivity.
Qed.

Lemma delete_deployment_fixed_namespace_witness :
  snd (handle (delete_deployment "dbt-fastbi-demo-98d66ba2") cluster_with_release)
  = [ list_cmd; uninstall_cmd "dbt-fastbi-demo-98d66ba2"; get_pvc_cmd;
      delete_pvc_cmd
        "dbt-server-dbt-fastbi-demo-98d66ba2-dbt-server-dbt-fastbi-demo-98d66ba2-0";
      Request "GET"
        "http://airflow.local/api/v1/connections/dbt-fastbi-demo-98d66ba2" None;
      Request "DELETE"
        "http://airflow.local/api/v1/connections/dbt-fastbi-demo-98d66ba2" None ]
  /\ exists body,
       handle (delete_deployment "dbt-fastbi-demo-98d66ba2") airflow_fresh
       = (Ok (body, 404), [list_cmd]).
Proof.
  split.
  - destruct (delete_deployment_fixed_namespace "dbt-fastbi-demo-98d66ba2"
                cluster_with_release) as (_ & _ & _ & Hlisted & _).
    destruct (Hlisted [demo_release "dbt-server"] [list_cmd]
                eq_refl eq_refl) as [_ Hun].
    destruct (Hun {| returncode := 0; stdout := ""; stderr := "" |}
                eq_refl eq_refl) as [_ Hpvc].
    destruct (Hpvc
                {| returncode := 0;
                   stdout := "dbt-server-dbt-fastbi-demo-98d66ba2-dbt-server-dbt-fastbi-demo-98d66ba2-0 data-postgres-0 ";
                   stderr := "" |}
                eq_refl
                (fun tr' pvc =>
                   ex_intro _ {| returncode := 0; stdout := ""; stderr := "" |}
                     eq_refl)) as [Htr _].
    exact Htr.
  - destruct (delete_deployment_fixed_namespace "dbt-fastbi-demo-98d66ba2"
                airflow_fresh) as (_ & _ & _ & _ & Habsent).
    apply (Habsent "analytics" [demo_release "analytics"] []
             [Run ["helm"; "list"; "-n"; "analytics"; "--output"; "json"]]
             [list_cmd]);
      [discriminate | reflexivity | reflexivity | reflexivity | reflexivity].
Defined.

(** ** Scenarios *)

(** Creating the demo deployment when the orchestrator has no such
    connection: the record is posted with the cluster-local endpoint. *)
Example deploy_fresh :
  fst (handle (deploy_dbt_server demo_request) airflow_fresh)
  = Ok (VDict
          [ ("status", VStr "success");
            ("message",
             VStr "Deployment dbt-fastbi-demo-98d66ba2 created/updated successfully");
            ("details",
             VDict
               [ ("release_name", VStr "dbt-fastbi-demo-98d66ba2");
                 ("namespace", VStr "dbt-server");
                 ("host", VStr "dbt-server-dbt-fastbi-demo-98d66ba2.fastbi.fast.bi");
                 ("status", VNone);
                 ("airflow_connection",
                  VDict
                    [ ("id", VStr "dbt-fastbi-demo-98d66ba2");
                      ("host",
                       VStr "http://dbt-server-dbt-fastbi-demo-98d66ba2.dbt-server.svc.cluster.local/invocations");
                      ("status", VStr "created") ]) ]) ],
        200).
Proof. vm_compute. reflexivity. Qed.

(** Deleting the demo deployment where it is installed: the release is
    uninstalled, its volume deleted, the connection removed. *)
Example delete_installed :
  handle (delete_deployment "dbt-fastbi-demo-98d66ba2") cluster_with_release
  = (Ok (VDict
           [ ("status", VStr "success");
             ("message",
              VStr "Deployment dbt-fastbi-demo-98d66ba2 and associated resources deleted successfully");
             ("details",
              VDict
                [ ("release_name", VStr "dbt-fastbi-demo-98d66ba2");
                  ("namespace", VStr "dbt-server");
                  ("pvc_deleted",
                   VList [ VStr "dbt-server-dbt-fastbi-demo-98d66ba2-dbt-server-dbt-fastbi-demo-98d66ba2-0" ]);
                  ("airflow_connection",
                   VDict [ ("id", VStr "dbt-fastbi-demo-98d66ba2");
                           ("status", VStr "deleted");
                           ("error", VNone) ]) ]) ],
         200),
     [ Run ["helm"; "list"; "-n"; "dbt-server"; "--output"; "json"];
       Run ["helm"; "uninstall"; "dbt-fastbi-demo-98d66ba2"; "-n"; "dbt-server"];
       Run ["kubectl"; "get"; "pvc"; "-n"; "dbt-server"; "-o";
            "jsonpath={.items[*].metadata.name}"];
       Run ["kubectl"; "delete"; "pvc";
            "dbt-server-dbt-fastbi-demo-98d66ba2-dbt-server-dbt-fastbi-demo-98d66ba2-0";
            "-n"; "dbt-server"; "--ignore-not-found=true"];
       Request "GET"
         "http://airflow.local/api/v1/connections/dbt-fastbi-demo-98d66ba2" None;
       Request "DELETE"
         "http://airflow.local/api/v1/connections/dbt-fastbi-demo-98d66ba2" None ]).
Proof. vm_compute. reflexivity. Qed.

(** * Properties of the rest of the code *)

(** ** Characters of sanitized names *)

Section Characters.

Variable p : ascii -> bool.
Variable r : ascii.

Lemma all_chars_cons (c : ascii) (s : string) :
  all_chars p (String c s) = p c && all_chars p s.
Proof. reflexivity. Qed.

Lemma all_chars_app (a b : string) :
  all_chars p (a +:+ b) = all_chars p a && all_chars p b.
Proof.
  induction a as [|c a IH]; [reflexivity |].
  change (String c a +:+ b) with (String c (a +:+ b)).
  rewrite !all_chars_cons, IH. now rewrite andb_assoc.
Qed.

Lemma all_chars_take (n : nat) (s : string) :
  all_chars p s = true -> all_chars p (PyStr.take n s) = true.
Proof.
  revert s. induction n as [|n IH]; intros [|c s] H; try reflexivity.
  simpl PyStr.take. rewrite all_chars_cons in *.
  apply andb_true_iff in H as [Hc Hs]. now rewrite Hc, IH.
Qed.

Lemma all_chars_impl (q : ascii -> bool) (s : string) :
  (forall c, p c = true -> q c = true) ->
  all_chars p s = true -> all_chars q s = true.
Proof.
  intros Hpq. induction s as [|c s IH]; [reflexivity |].
  change (all_chars p (String c s)) with (p c && all_chars p s).
  change (all_chars q (String c s)) with (q c && all_chars q s).
  intros H. apply andb_true_iff in H as [Hc Hs].
  now rewrite (Hpq c Hc), IH.
Qed.

Lemma all_chars_sub_not_in (s : string) :
  p r = true -> all_chars p (PyStr.sub_not_in p r s) = true.
Proof.
  intros Hr. induction s as [|c s IH]; [reflexivity |].
  simpl PyStr.sub_not_in. rewrite all_chars_cons, IH, andb_true_r.
  destruct (p c) eqn:E; [exact E | exact Hr].
Qed.

Lemma collapse_cons (c : ascii) (s : string) :
  PyStr.collapse r (String c s)
  = if Ascii.eqb c r && PyText.head_is r s then PyStr.collapse r s
    else String c (PyStr.collapse r s).
Proof.
  simpl. destruct (Ascii.eqb c r); [| reflexivity].
  destruct s as [|c' s]; [reflexivity |].
  simpl PyText.head_is. simpl andb. destruct (Ascii.eqb c' r); reflexivity.
Qed.

Lemma all_chars_collapse (s : string) :
  all_chars p s = true -> all_chars p (PyStr.collapse r s) = true.
Proof.
  induction s as [|c s IH]; [reflexivity |].
  rewrite collapse_cons, all_chars_cons. intros H.
  apply andb_true_iff in H as [Hc Hs].
  destruct (Ascii.eqb c r && PyText.head_is r s); [now apply IH |].
  now rewrite all_chars_cons, Hc, IH.
Qed.

Lemma all_chars_lstrip (s : string) :
  all_chars p s = true -> all_chars p (PyStr.lstrip r s) = true.
Proof.
  induction s as [|c s IH]; [reflexivity |].
  intros H. simpl PyStr.lstrip. destruct (Ascii.eqb c r); [| exact H].
  rewrite all_chars_cons in H. apply andb_true_iff in H as [_ Hs]. now apply IH.
Qed.

Lemma rstrip_cons (c : ascii) (s : string) :
  PyStr.rstrip r (String c s)
  = match PyStr.rstrip r s with
    | EmptyString =>
        if Ascii.eqb c r then EmptyString else String c EmptyString
    | t => String c t
    end.
Proof. reflexivity. Qed.

Lemma all_chars_rstrip (s : string) :
  all_chars p s = true -> all_chars p (PyStr.rstrip r s) = true.
Proof.
  induction s as [|c s IH]; [reflexivity |].
  rewrite rstrip_cons, all_chars_cons. intros H.
  apply andb_true_iff in H as [Hc Hs]. specialize (IH Hs).
  destruct (PyStr.rstrip r s) as [|c' t].
  - destruct (Ascii.eqb c r); [reflexivity |].
    now rewrite all_chars_cons, Hc.
  - now rewrite all_chars_cons, Hc, IH.
Qed.

(** Collapsing keeps the first character and leaves no two [r] in a row. *)
Lemma head_is_collapse (s : string) :
  PyText.head_is r (PyStr.collapse r s) = PyText.head_is r s.
Proof.
  induction s as [|c s IH]; [reflexivity |].
  rewrite collapse_cons.
  destruct (Ascii.eqb c r) eqn:Ec; simpl andb.
  - destruct (PyText.head_is r s) eqn:Eh.
    + rewrite IH. simpl. now rewrite Ec.
    + simpl. now rewrite Ec.
  - simpl. now rewrite Ec.
Qed.

Lemma has_double_collapse (s : string) :
  PyText.has_double r (PyStr.collapse r s) = false.
Proof.
  induction s as [|c s IH]; [reflexivity |].
  rewrite collapse_cons.
  destruct (Ascii.eqb c r && PyText.head_is r s) eqn:E; [exact IH |].
  simpl PyText.has_double. rewrite head_is_collapse, E, IH. reflexivity.
Qed.

(** Stripping on the left removes a leading [r] and keeps the rest. *)
Lemma head_is_lstrip (s : string) :
  PyText.head_is r (PyStr.lstrip r s) = false.
Proof.
  induction s as [|c s IH]; [reflexivity |].
  simpl PyStr.lstrip. destruct (Ascii.eqb c r) eqn:E; [exact IH |].
  simpl. exact E.
Qed.

Lemma has_double_lstrip (s : string) :
  PyText.has_double r s = false ->
  PyText.has_double r (PyStr.lstrip r s) = false.
Proof.
  induction s as [|c s IH]; [reflexivity |].
  intros H. simpl PyStr.lstrip. destruct (Ascii.eqb c r); [| exact H].
  apply IH. simpl in H. now apply orb_false_iff in H as [_ H].
Qed.

(** Stripping on the right keeps a prefix whose last character is not [r]. *)
Lemma head_is_rstrip (s : string) :
  PyText.head_is r s = false -> PyText.head_is r (PyStr.rstrip r s) = false.
Proof.
  destruct s as [|c s]; [reflexivity |].
  rewrite rstrip_cons. simpl PyText.head_is at 1. intros E.
  destruct (PyStr.rstrip r s); [rewrite E |]; simpl; try exact E.
Qed.

Lemma last_is_rstrip (s : string) :
  PyText.last_is r (PyStr.rstrip r s) = false.
Proof.
  induction s as [|c s IH]; [reflexivity |].
  rewrite rstrip_cons. destruct (PyStr.rstrip r s) as [|c' t].
  - destruct (Ascii.eqb c r) eqn:E; [reflexivity | simpl; exact E].
  - exact IH.
Qed.

Lemma head_is_rstrip_le (s : string) :
  PyText.head_is r (PyStr.rstrip r s) = true -> PyText.head_is r s = true.
Proof.
  clear p. destruct s as [|c s]; [simpl; discriminate |].
  rewrite rstrip_cons. destruct (PyStr.rstrip r s).
  - destruct (Ascii.eqb c r) eqn:E; simpl; congruence.
  - simpl. tauto.
Qed.

Lemma has_double_rstrip (s : string) :
  PyText.has_double r s = false ->
  PyText.has_double r (PyStr.rstrip r s) = false.
Proof.
  clear p. induction s as [|c s IH]; [reflexivity |].
  intros H. simpl in H. apply orb_false_iff in H as [Hh Hs].
  specialize (IH Hs). rewrite rstrip_cons.
  destruct (PyStr.rstrip r s) as [|c' t] eqn:E.
  - destruct (Ascii.eqb c r); [reflexivity |].
    simpl. now rewrite andb_false_r.
  - change (PyText.has_double r (String c (String c' t)))
      with ((Ascii.eqb c r && PyText.head_is r (String c' t))
            || PyText.has_double r (String c' t)).
    rewrite IH, orb_false_r.
    destruct (Ascii.eqb c r) eqn:Ec; [| reflexivity]. simpl in Hh.
    destruct (PyText.head_is r (String c' t)) eqn:Eh; [| reflexivity].
    rewrite <- E in Eh. apply head_is_rstrip_le in Eh. congruence.
Qed.

End Characters.

Section Fixpoints.

Variable p : ascii -> bool.
Variable r : ascii.

Lemma sub_not_in_id (s : string) :
  all_chars p s = true -> PyStr.sub_not_in p r s = s.
Proof.
  induction s as [|c s IH]; [reflexivity |].
  rewrite all_chars_cons. intros H. apply andb_true_iff in H as [Hc Hs].
  simpl. now rewrite Hc, IH.
Qed.

Lemma collapse_id (s : string) :
  PyText.has_double r s = false -> PyStr.collapse r s = s.
Proof.
  induction s as [|c s IH]; [reflexivity |].
  intros H. simpl in H. apply orb_false_iff in H as [Hh Hs].
  now rewrite collapse_cons, Hh, IH.
Qed.

Lemma lstrip_id (s : string) :
  PyText.head_is r s = false -> PyStr.lstrip r s = s.
Proof. destruct s as [|c s]; [reflexivity |]. simpl. now intros ->. Qed.

Lemma rstrip_id (s : string) :
  PyText.last_is r s = false -> PyStr.rstrip r s = s.
Proof.
  induction s as [|c s IH]; [reflexivity |].
  rewrite rstrip_cons. destruct s as [|c' s].
  - simpl. now intros ->.
  - change (PyText.last_is r (String c (String c' s)))
      with (PyText.last_is r (String c' s)).
    intros H. now rewrite (IH H).
Qed.

Lemma head_is_take (n : nat) (s : string) :
  PyText.head_is r s = false -> PyText.head_is r (PyStr.take n s) = false.
Proof. destruct n, s; simpl; auto. Qed.

Lemma has_double_take (n : nat) (s : string) :
  PyText.has_double r s = false ->
  PyText.has_double r (PyStr.take n s) = false.
Proof.
  revert s. induction n as [|n IH]; intros [|c s] H; try reflexivity.
  simpl in H. apply orb_false_iff in H as [Hh Hs].
  simpl PyStr.take.
  change (PyText.has_double r (String c (PyStr.take n s)))
    with ((Ascii.eqb c r && PyText.head_is r (PyStr.take n s))
          || PyText.has_double r (PyStr.take n s)).
  rewrite (IH s Hs), orb_false_r.
  destruct (Ascii.eqb c r); [| reflexivity]. simpl in *.
  now apply head_is_take.
Qed.

Lemma last_is_app (a b : string) :
  b <> EmptyString -> PyText.last_is r (a +:+ b) = PyText.last_is r b.
Proof.
  intros Hb. induction a as [|c a IH]; [reflexivity |].
  change (String c a +:+ b) with (String c (a +:+ b)).
  destruct (a +:+ b) as [|c' t] eqn:E.
  - exfalso. destruct a as [|c0 a]; [apply Hb; exact E | discriminate E].
  - rewrite <- IH. reflexivity.
Qed.

Lemma last_is_all_chars (s : string) :
  (forall c, p c = true -> Ascii.eqb c r = false) ->
  all_chars p s = true -> PyText.last_is r s = false.
Proof.
  intros Hp. induction s as [|c s IH]; [reflexivity |].
  rewrite all_chars_cons. intros H. apply andb_true_iff in H as [Hc Hs].
  destruct s as [|c' s]; [simpl; now apply Hp | now apply IH].
Qed.

End Fixpoints.

Lemma take_take (n m : nat) (s : string) :
  (n <= m)%nat -> PyStr.take n (PyStr.take m s) = PyStr.take n s.
Proof.
  revert m s. induction n as [|n IH]; intros [|m] [|c s] H; simpl;
    try reflexivity; try lia.
  f_equal. apply IH. lia.
Qed.

Lemma take_app_long (n : nat) (a b : string) :
  (n <= String.length a)%nat -> PyStr.take n (a +:+ b) = PyStr.take n a.
Proof.
  revert a. induction n as [|n IH]; intros [|c a] H; simpl in *;
    try reflexivity; try lia.
  f_equal. apply IH. lia.
Qed.

Lemma take_app_prefix (a b : string) (n : nat) :
  PyStr.take (String.length a + n) (a +:+ b) = a +:+ PyStr.take n b.
Proof. induction a as [|c a IH]; simpl; [reflexivity | now rewrite IH]. Qed.

(** A character of a sanitized name is not an upper-case letter. *)
Lemma k8s_char_not_upper (c : ascii) :
  k8s_char c = true -> PyStr.lower_char c = c.
Proof.
  destruct c as [[] [] [] [] [] [] [] []]; vm_compute; congruence.
Qed.

Lemma lower_id (s : string) :
  all_chars k8s_char s = true -> PyStr.lower s = s.
Proof.
  induction s as [|c s IH]; [reflexivity |].
  rewrite all_chars_cons. intros H. apply andb_true_iff in H as [Hc Hs].
  simpl. now rewrite (k8s_char_not_upper c Hc), IH.
Qed.

(** ** Sanitized names *)

(** The shape of a sanitized name. *)
Lemma sanitize_k8s_name_clean (value : string) :
  all_chars k8s_char (sanitize_k8s_name value) = true
  /\ PyText.head_is "-" (sanitize_k8s_name value) = false
  /\ PyText.last_is "-" (sanitize_k8s_name value) = false
  /\ PyText.has_double "-" (sanitize_k8s_name value) = false.
Proof.
  unfold sanitize_k8s_name, PyStr.strip. cbv zeta.
  split; [| split; [| split]].
  - apply all_chars_rstrip, all_chars_lstrip, all_chars_collapse,
      all_chars_sub_not_in. reflexivity.
  - apply head_is_rstrip, head_is_lstrip.
  - apply last_is_rstrip.
  - apply has_double_rstrip, has_double_lstrip, has_double_collapse.
Qed.

(** X1: a sanitized name is made of lower-case letters, digits and
    hyphens; it neither starts nor ends with a hyphen and has no two
    hyphens in a row. *)
Theorem sanitize_k8s_name_shape (value : string) :
  all_chars k8s_char (sanitize_k8s_name value) = true
  /\ PyText.head_is "-" (sanitize_k8s_name value) = false
  /\ PyText.last_is "-" (sanitize_k8s_name value) = false
  /\ PyText.has_double "-" (sanitize_k8s_name value) = false.
Proof. exact (sanitize_k8s_name_clean value). Qed.

(** A name of that shape is left as it is. *)
Lemma sanitize_k8s_name_fixed (s : string) :
  all_chars k8s_char s = true ->
  PyText.head_is "-" s = false ->
  PyText.last_is "-" s = false ->
  PyText.has_double "-" s = false ->
  sanitize_k8s_name s = s.
Proof.
  intros Hc Hh Hl Hd. unfold sanitize_k8s_name, PyStr.strip.
  rewrite lower_id by exact Hc. rewrite sub_not_in_id by exact Hc.
  rewrite collapse_id by exact Hd. rewrite lstrip_id by exact Hh.
  now apply rstrip_id.
Qed.

(** X2: sanitizing twice is sanitizing once. *)
Theorem sanitize_k8s_name_idempotent (value : string) :
  sanitize_k8s_name (sanitize_k8s_name value) = sanitize_k8s_name value.
Proof.
  destruct (sanitize_k8s_name_clean value) as (Hc & Hh & Hl & Hd).
  now apply sanitize_k8s_name_fixed.
Qed.

(** X3: a sanitized connection id is made of lower-case letters, digits
    and underscores, has at most 250 characters, does not start with an
    underscore and has no two underscores in a row. *)
Theorem sanitize_airflow_conn_id_shape (value : string) :
  all_chars conn_id_char (sanitize_airflow_conn_id value) = true
  /\ PyStr.len (sanitize_airflow_conn_id value) <= 250
  /\ PyText.head_is "_" (sanitize_airflow_conn_id value) = false
  /\ PyText.has_double "_" (sanitize_airflow_conn_id value) = false.
Proof.
  unfold sanitize_airflow_conn_id, PyStr.strip. cbv zeta.
  rewrite slice_to_nonneg by lia.
  split; [| split; [| split]].
  - apply all_chars_take, all_chars_rstrip, all_chars_lstrip,
      all_chars_collapse, all_chars_sub_not_in. reflexivity.
  - rewrite len_take. lia.
  - apply head_is_take, head_is_rstrip, head_is_lstrip.
  - apply has_double_take, has_double_rstrip, has_double_lstrip,
      has_double_collapse.
Qed.

(** ** Digits of the digest *)

Lemma hex_digit_is_hex (n : Z) :
  0 <= n < 16 -> is_hex_lower (MD5.hex_digit n) = true.
Proof.
  intros H.
  assert (Hall : forallb (fun k => is_hex_lower (MD5.hex_digit (Z.of_nat k)))
                   (seq 0 16) = true) by (vm_compute; reflexivity).
  rewrite forallb_forall in Hall. specialize (Hall (Z.to_nat n)).
  rewrite Z2Nat.id in Hall by lia. apply Hall. apply in_seq. lia.
Qed.

Lemma nibble_range (x : Z) : 0 <= Z.land x 15 < 16.
Proof.
  change 15 with (Z.ones 4). rewrite Z.land_ones by lia.
  apply Z.mod_pos_bound. reflexivity.
Qed.

Lemma hex_is_hex (bs : list Z) : all_chars is_hex_lower (MD5.hex bs) = true.
Proof.
  induction bs as [|b bs IH]; [reflexivity |].
  simpl MD5.hex. unfold MD5.hex_byte. rewrite !all_chars_cons, IH.
  now rewrite !hex_digit_is_hex by apply nibble_range.
Qed.

Lemma hex_lower_is_k8s (c : ascii) : is_hex_lower c = true -> k8s_char c = true.
Proof.
  destruct c as [[] [] [] [] [] [] [] []]; vm_compute; congruence.
Qed.

Lemma k8s_char_not_hyphen_hex (c : ascii) :
  is_hex_lower c = true -> Ascii.eqb c "-" = false.
Proof.
  destruct c as [[] [] [] [] [] [] [] []]; vm_compute; congruence.
Qed.

(** The eight characters taken from the digest. *)
Lemma name_hash_shape (s : string) :
  String.length (PyStr.slice_to (MD5.hexdigest s) 8) = 8%nat
  /\ all_chars is_hex_lower (PyStr.slice_to (MD5.hexdigest s) 8) = true.
Proof.
  rewrite slice_to_nonneg by lia. split.
  - rewrite take_length, hexdigest_length. reflexivity.
  - apply all_chars_take, hex_is_hex.
Qed.

(** The resource name written out: the base is the sanitized project
    name cut to 49 characters. *)
Lemma k8s_resource_name_parts (project_name : string) (git_branch : option string) :
  exists full_name,
    k8s_resource_name project_name git_branch
    = "dbt-" +:+ PyStr.take 49 (sanitize_k8s_name project_name) +:+ "-"
      +:+ PyStr.slice_to (MD5.hexdigest full_name) 8.
Proof.
  unfold k8s_resource_name. cbv zeta. eexists.
  destruct (PyStr.len (sanitize_k8s_name project_name) >? 63 - 14) eqn:E.
  - rewrite slice_to_nonneg by lia. reflexivity.
  - rewrite Z.gtb_ltb in E. apply Z.ltb_ge in E.
    rewrite take_all by (unfold PyStr.len in E; lia). reflexivity.
Qed.

(** X4: whatever the project name and the branch, the resource name is
    a label the cluster accepts: lower-case letters, digits and hyphens,
    between 13 and 62 characters, starting with ["dbt-"] and ending with
    eight hexadecimal digits. *)
Theorem k8s_resource_name_is_dns_label (project_name : string)
    (git_branch : option string) :
  dns_label (k8s_resource_name project_name git_branch) = true
  /\ 13 <= PyStr.len (k8s_resource_name project_name git_branch) <= 62
  /\ exists base digits,
       k8s_resource_name project_name git_branch
       = "dbt-" +:+ base +:+ "-" +:+ digits
       /\ String.length digits = 8%nat
       /\ all_chars is_hex_lower digits = true.
Proof.
  destruct (k8s_resource_name_parts project_name git_branch) as [full E].
  destruct (name_hash_shape full) as [Hlen Hhex].
  destruct (sanitize_k8s_name_clean project_name) as (Hc & _ & _ & _).
  set (digits := PyStr.slice_to (MD5.hexdigest full) 8) in *.
  set (base := PyStr.take 49 (sanitize_k8s_name project_name)) in *.
  assert (Hbase : 0 <= PyStr.len base <= 49).
  { unfold base. rewrite len_take. pose proof (len_nonneg (sanitize_k8s_name project_name)). lia. }
  assert (Hl : PyStr.len (k8s_resource_name project_name git_branch)
               = 13 + PyStr.len base).
  { rewrite E, !len_app. unfold PyStr.len at 4. rewrite Hlen.
    change (PyStr.len "dbt-") with 4. change (PyStr.len "-") with 1. lia. }
  split; [| split; [lia | exists base, digits; auto]].
  unfold dns_label. rewrite Hl.
  assert (Hall : all_chars k8s_char (k8s_resource_name project_name git_branch) = true).
  { rewrite E, !all_chars_app. unfold base.
    rewrite (all_chars_take k8s_char 49 _ Hc).
    now rewrite (all_chars_impl is_hex_lower k8s_char digits hex_lower_is_k8s Hhex). }
  assert (Hne : digits <> EmptyString)
    by (intros H0; rewrite H0 in Hlen; discriminate).
  assert (Hhead : PyText.head_is "-" (k8s_resource_name project_name git_branch)
                  = false) by (rewrite E; reflexivity).
  assert (Hlast : PyText.last_is "-" (k8s_resource_name project_name git_branch)
                  = false).
  { rewrite E.
    rewrite (last_is_app "-" "dbt-" (base +:+ "-" +:+ digits)).
    - rewrite (last_is_app "-" base ("-" +:+ digits)) by discriminate.
      rewrite (last_is_app "-" "-" digits) by exact Hne.
      exact (last_is_all_chars is_hex_lower "-" digits
               k8s_char_not_hyphen_hex Hhex).
    - destruct base; discriminate. }
  rewrite Hall, Hhead, Hlast.
  replace (1 <=? 13 + PyStr.len base) with true by (symmetry; apply Z.leb_le; lia).
  replace (13 + PyStr.len base <=? 63) with true by (symmetry; apply Z.leb_le; lia).
  reflexivity.
Qed.

(** ** Volume names of a rendered request *)

Lemma get_volume_name_take (prefix name : string) :
  PyStr.len prefix <= 62 ->
  get_volume_name prefix name
  = prefix +:+ "-" +:+ PyStr.take (Z.to_nat (62 - PyStr.len prefix)) name.
Proof.
  intros Hp. unfold get_volume_name. cbv zeta.
  replace (63 - PyStr.len prefix - 1) with (62 - PyStr.len prefix) by lia.
  destruct (PyStr.len name >? 62 - PyStr.len prefix) eqn:E;
    rewrite Z.gtb_ltb in E.
  - rewrite slice_to_nonneg by lia. reflexivity.
  - apply Z.ltb_ge in E. rewrite take_all by (unfold PyStr.len in *; lia).
    reflexivity.
Qed.

(** X5: the two volume names [render_values_file] derives never exceed
    63 characters; they keep the first 30 and the first 40 characters of
    the resource name. *)
Theorem render_volume_names (project_name : string) (git_branch : option string) :
  let k8s_name := k8s_resource_name project_name git_branch in
  get_volume_name "dbt-server-datawarehouse-secrets" k8s_name
  = "dbt-server-datawarehouse-secrets-" +:+ PyStr.take 30 k8s_name
  /\ get_volume_name "dbt-server-nginx-proxy" k8s_name
     = "dbt-server-nginx-proxy-" +:+ PyStr.take 40 k8s_name
  /\ PyStr.len (get_volume_name "dbt-server-datawarehouse-secrets" k8s_name) <= 63
  /\ PyStr.len (get_volume_name "dbt-server-nginx-proxy" k8s_name) <= 63.
Proof.
  intros k8s_name.
  rewrite (get_volume_name_take "dbt-server-datawarehouse-secrets")
    by (vm_compute; discriminate).
  rewrite (get_volume_name_take "dbt-server-nginx-proxy")
    by (vm_compute; discriminate).
  change (Z.to_nat (62 - PyStr.len "dbt-server-datawarehouse-secrets")) with 30%nat.
  change (Z.to_nat (62 - PyStr.len "dbt-server-nginx-proxy")) with 40%nat.
  split; [reflexivity |]. split; [reflexivity |].
  rewrite !len_app, !len_take.
  change (PyStr.len "dbt-server-datawarehouse-secrets") with 32.
  change (PyStr.len "dbt-server-nginx-proxy") with 22.
  change (PyStr.len "-") with 1. lia.
Qed.



(** ** [generate_short_name] *)

Lemma replace_char_length (a b : ascii) (s : string) :
  String.length (PyText.replace_char a b s) = String.length s.
Proof. induction s as [|c s IH]; simpl; [reflexivity | now rewrite IH]. Qed.

Lemma lower_length (s : string) : String.length (PyStr.lower s) = String.length s.
Proof. induction s as [|c s IH]; simpl; [reflexivity | now rewrite IH]. Qed.

(** X7: for an ASCII project name, the short name has at most 20
    characters without a branch and at most 29 with one, whatever
    [max_length] is given; without a branch it has exactly the length of
    the project name cut to 20.  (Lowering a name that is not ASCII can
    lengthen it, and the bound is then lost.) *)
Theorem generate_short_name_length (project_name : string)
    (git_branch : option string) (max_length : Z) :
  isascii project_name = true ->
  PyStr.len (generate_short_name project_name git_branch max_length) <= 29
  /\ PyStr.len (generate_short_name project_name None max_length)
     = Z.min 20 (PyStr.len project_name).
Proof.
  intros _.
  assert (Hbase : PyStr.len (PyText.replace_char "_" "-"
                    (PyStr.lower (PyStr.slice_to project_name 20)))
                  = Z.min 20 (PyStr.len project_name)).
  { unfold PyStr.len at 1. rewrite replace_char_length, lower_length.
    fold (PyStr.len (PyStr.slice_to project_name 20)).
    apply len_slice_to. lia. }
  unfold generate_short_name. cbv zeta. split; [| exact Hbase].
  pose proof (len_nonneg project_name).
  destruct git_branch as [b|]; [destruct (PyStr.truthy b) |]; try lia.
  rewrite !len_app, Hbase, name_hash_len. change (PyStr.len "-") with 1. lia.
Qed.

Lemma generate_short_name_length_witness :
  PyStr.len (generate_short_name "Fast_BI_Demo_Project_2025" (Some "main") 30)
  <= 29
  /\ PyStr.len (generate_short_name "Fast_BI_Demo_Project_2025" None 30)
     = Z.min 20 (PyStr.len "Fast_BI_Demo_Project_2025").
Proof.
  apply (generate_short_name_length "Fast_BI_Demo_Project_2025" (Some "main") 30).
  reflexivity.
Defined.

(** ** The connection API client *)

Lemma raise_for_status_outcome (url : string) (r : Response) (w : World)
    (tr : list cmd) :
  raise_for_status url r w tr
  = (if is_error_status (status_code r) then
       Raise (HTTPError
                (pretty (status_code r)
                 +:+ (if status_code r <? 500 then " Client Error: "
                      else " Server Error: ")
                 +:+ reason r +:+ " for url: " +:+ url)
                (status_code r) (text r))
     else Ok tt,
     tr).
Proof.
  unfold raise_for_status, is_error_status, raise, ret.
  destruct (400 <=? status_code r) eqn:E4;
    destruct (status_code r <? 500) eqn:E5;
    destruct (500 <=? status_code r) eqn:E5';
    destruct (status_code r <? 600) eqn:E6; simpl; try reflexivity;
    lia.
Qed.

(** X8: a call through [_make_request] sends one request.  It returns
    when the answer has a status outside 400..599 and a body that
    parses; for a status in 400..599 it raises an [HTTPError] carrying
    that status and the text of the answer; a failure to send is raised
    as it is. *)
Theorem make_request_outcome (self : AirflowService) (method endpoint : string)
    (data : option value) (w : World) (tr : list cmd) :
  let url := endpoint_url self endpoint in
  snd (_make_request self method endpoint data w tr)
  = tr ++ [Request method url data]
  /\ match http_request w tr method url data with
     | Raise e => fst (_make_request self method endpoint data w tr) = Raise e
     | Ok r =>
         if is_error_status (status_code r) then
           exists msg,
             fst (_make_request self method endpoint data w tr)
             = Raise (HTTPError msg (status_code r) (text r))
         else if json_ok r then
           fst (_make_request self method endpoint data w tr) = Ok tt
         else
           exists msg,
             fst (_make_request self method endpoint data w tr)
             = Raise (RequestException msg)
     end.
Proof.
  intros url. split.
  - unfold _make_request, response_json, mbind, M_bind, bind, request.
    fold url. destruct (http_request w tr method url data) as [r|e];
      [| reflexivity].
    rewrite raise_for_status_outcome.
    destruct (is_error_status (status_code r)); [reflexivity |].
    destruct (json_ok r); reflexivity.
  - unfold _make_request, response_json, mbind, M_bind, bind, request.
    fold url. destruct (http_request w tr method url data) as [r|e];
      [| reflexivity].
    rewrite raise_for_status_outcome.
    destruct (is_error_status (status_code r)); [eexists; reflexivity |].
    destruct (json_ok r); [reflexivity | eexists; reflexivity].
Qed.

(** X9: [delete_connection] sends one [DELETE].  It returns for the
    statuses 204 and 404 and for every status outside 400..599, without
    reading the body; for any other status it raises an [HTTPError]
    carrying that status. *)
Theorem delete_connection_outcome (self : AirflowService)
    (connection_id : string) (w : World) (tr : list cmd) :
  let url := endpoint_url self ("api/v1/connections/" +:+ connection_id) in
  snd (delete_connection self connection_id w tr)
  = tr ++ [Request "DELETE" url None]
  /\ match http_request w tr "DELETE" url None with
     | Raise e => fst (delete_connection self connection_id w tr) = Raise e
     | Ok r =>
         if (status_code r =? 404) || negb (is_error_status (status_code r))
         then fst (delete_connection self connection_id w tr) = Ok tt
         else exists msg,
             fst (delete_connection self connection_id w tr)
             = Raise (HTTPError msg (status_code r) (text r))
     end.
Proof.
  intros url.
  unfold delete_connection, mbind, M_bind, bind, request. fold url.
  destruct (http_request w tr "DELETE" url None) as [r|e];
    [| split; reflexivity].
  destruct ((status_code r =? 204) || (status_code r =? 404)) eqn:E;
    cbn [negb]; cbv beta iota.
  - split; [reflexivity |].
    replace ((status_code r =? 404) || negb (is_error_status (status_code r)))
      with true; [reflexivity |].
    unfold is_error_status. symmetry.
    destruct (status_code r =? 404) eqn:E4; [reflexivity |].
    simpl in *. rewrite orb_false_r in E. apply Z.eqb_eq in E. rewrite E.
    reflexivity.
  - apply orb_false_iff in E as [_ E4]. rewrite E4. simpl orb.
    rewrite raise_for_status_outcome. split; [reflexivity |].
    destruct (is_error_status (status_code r)); simpl;
      [eexists; reflexivity | reflexivity].
Qed.

Lemma rstrip_app_char (r : ascii) (s : string) :
  PyStr.rstrip r (s +:+ String r EmptyString) = PyStr.rstrip r s.
Proof.
  induction s as [|c s IH].
  - simpl. now rewrite Ascii.eqb_refl.
  - change (String c s +:+ String r "") with (String c (s +:+ String r "")).
    now rewrite !rstrip_cons, IH.
Qed.

(** X10: trailing slashes of the configured URL do not count: the base
    URL never ends with a slash, and one slash more in the configuration
    gives the same request URLs. *)
Theorem airflow_base_url_normalized (url endpoint : string) :
  PyText.last_is "/" (base_url (AirflowService_init url)) = false
  /\ endpoint_url (AirflowService_init (url +:+ "/")) endpoint
     = endpoint_url (AirflowService_init url) endpoint.
Proof.
  unfold endpoint_url, AirflowService_init. simpl base_url. split.
  - apply last_is_rstrip.
  - now rewrite rstrip_app_char.
Qed.

(** ** Reasoning about every outcome *)

Section Outcomes.

Context {A B : Type}.
Variable w : World.

Lemma spec_ret (Pre : list cmd -> Prop) (a : A)
    (Post : result A -> list cmd -> Prop) :
  (forall tr, Pre tr -> Post (Ok a) tr) -> spec w Pre (ret a) Post.
Proof. intros H tr Hpre. now apply H. Qed.

Lemma spec_bind (Pre : list cmd -> Prop) (m : M A) (k : A -> M B)
    (R : result A -> list cmd -> Prop) (Post : result B -> list cmd -> Prop) :
  spec w Pre m R ->
  (forall a, spec w (R (Ok a)) (k a) Post) ->
  (forall e tr, R (Raise e) tr -> Post (Raise e) tr) ->
  spec w Pre (m ≫= k) Post.
Proof.
  intros Hm Hk He tr Hpre. specialize (Hm tr Hpre).
  unfold mbind, M_bind, bind.
  destruct (m w tr) as [[a|e] tr1]; simpl in *.
  - now apply Hk.
  - now apply He.
Qed.

Lemma spec_try (Pre : list cmd -> Prop) (m : M A) (h : exn -> M A)
    (R Post : result A -> list cmd -> Prop) :
  spec w Pre m R ->
  (forall a tr, R (Ok a) tr -> Post (Ok a) tr) ->
  (forall e, spec w (R (Raise e)) (h e) Post) ->
  spec w Pre (try_except m h) Post.
Proof.
  intros Hm Hok Hh tr Hpre. specialize (Hm tr Hpre).
  unfold try_except.
  destruct (m w tr) as [[a|e] tr1]; simpl in *.
  - now apply Hok.
  - now apply Hh.
Qed.

Lemma spec_weaken (Pre Pre' : list cmd -> Prop) (m : M A)
    (Post Post' : result A -> list cmd -> Prop) :
  spec w Pre m Post ->
  (forall tr, Pre' tr -> Pre tr) ->
  (forall r tr, Post r tr -> Post' r tr) ->
  spec w Pre' m Post'.
Proof. intros H Hp Hq tr Hpre. apply Hq, H, Hp, Hpre. Qed.

Lemma spec_run (Pre : list cmd -> Prop) (argv : list string) :
  spec w Pre (run argv)
    (fun r tr =>
       exists tr0, Pre tr0 /\ tr = tr0 ++ [Run argv]
                   /\ r = subprocess_run w tr0 argv).
Proof. intros tr Hpre. exists tr. simpl. auto. Qed.

(** Commands satisfying [P] keep an invariant of that kind. *)
Lemma spec_issues (P : cmd -> Prop) (m : M A) :
  issues P m -> spec w (Forall P) m (fun _ tr => Forall P tr).
Proof.
  intros H tr Hpre. destruct (H w tr) as (added & E & F).
  rewrite E. apply Forall_app. now split.
Qed.

(** A property of the commands that more commands cannot undo is kept. *)
Lemma spec_stable (P : cmd -> Prop) (Pre : list cmd -> Prop) (m : M A) :
  issues P m ->
  (forall tr added, Pre tr -> Pre (tr ++ added)) ->
  spec w Pre m (fun _ tr => Pre tr).
Proof.
  intros H Hst tr Hpre. destruct (H w tr) as (added & E & _).
  rewrite E. now apply Hst.
Qed.

End Outcomes.

(** Stepping through a handler when nothing is asked of its commands. *)
Ltac issues_any := cbv zeta; repeat (issues_step; try exact I).

Lemma issues_anything_make_request (self : AirflowService)
    (method endpoint : string) (data : option value) :
  issues (fun _ => True) (_make_request self method endpoint data).
Proof. now apply issues_make_request. Qed.

(** ** The order of the steps of [deploy_dbt_server] *)

Lemma release_applied_stable (w : World) (json_data : DeploymentData)
    (tr added : list cmd) :
  release_applied w json_data tr -> release_applied w json_data (tr ++ added).
Proof.
  intros (before & after & r & E & Hb & Hr & Hc).
  exists before, (after ++ added), r. subst tr.
  rewrite <- app_assoc. simpl. auto.
Qed.

Lemma no_request_run (argv : list string) : no_request (Run argv).
Proof. reflexivity. Qed.

Lemma no_request_render (t o : string) (c : list (string * value)) :
  no_request (Render t o c).
Proof. reflexivity. Qed.

Lemma deploy_dbt_server_order (json_data : DeploymentData) (w : World) :
  spec w (Forall no_request) (deploy_dbt_server json_data)
    (fun _ tr => Forall no_request tr \/ release_applied w json_data tr).
Proof.
  unfold deploy_dbt_server. cbv zeta.
  eapply spec_try with
    (R := fun _ tr => Forall no_request tr \/ release_applied w json_data tr);
    [| tauto | intros e; apply spec_ret; tauto].
  eapply spec_bind with (R := fun r tr => Forall no_request tr /\ r = Ok w);
    [intros tr H; simpl; auto | | intros e tr [_ H]; discriminate].
  intros w'. eapply spec_bind with (R := fun r tr =>
      Forall no_request tr
      /\ w' = w
      /\ forall a, r = Ok a -> a = charts_dir (config w) +:+ "/values.yaml").
  { intros tr [H E]. inversion E; subst w'.
    pose proof (spec_issues w no_request _
                  (issues_render_values_file no_request
                     (with_k8s_name json_data
                        (k8s_resource_name (project_name json_data)
                           (Some (git_branch json_data))))
                     (charts_dir (config w)) no_request_render) tr H) as Hn.
    split; [exact Hn |]. split; [reflexivity |].
    unfold render_values_file, render_template, render, ask,
      mbind, M_bind, bind, ret. cbv zeta. simpl.
    destruct (template_render w tr _ _ _); simpl; intros a Ha; congruence. }
  2: { intros e tr (H & _). now left. }
  intros values_file.
  eapply spec_bind with (R := fun _ tr =>
      Forall no_request tr
      /\ w' = w /\ values_file = charts_dir (config w) +:+ "/values.yaml").
  { intros tr (H & Ew & Hv). split; [| split; [exact Ew | now apply Hv]].
    revert tr H. apply spec_issues. issues_any.
    all: apply issues_run_check, no_request_run. }
  2: { intros e tr (H & _). now left. }
  intros [response|]; [apply spec_ret; intros tr (H & _); now left |].
  eapply spec_bind with (R := fun r tr =>
      exists tr0, (Forall no_request tr0
                   /\ w' = w
                   /\ values_file = charts_dir (config w) +:+ "/values.yaml")
                  /\ tr = tr0 ++ [Run (upgrade_argv (config w) json_data)]
                  /\ r = subprocess_run w tr0 (upgrade_argv (config w) json_data)).
  { intros tr (H & -> & ->). exact (spec_run w _ _ tr (conj H (conj eq_refl eq_refl))). }
  2: { intros e tr (tr0 & (H & _) & -> & _). left.
       apply Forall_app. split; [exact H |].
       constructor; [reflexivity | constructor]. }
  intros result.
  destruct (negb (returncode result =? 0)) eqn:Erc.
  { apply spec_ret. intros tr (tr0 & (H & _) & -> & _). left.
    apply Forall_app. split; [exact H |].
    constructor; [reflexivity | constructor]. }
  apply negb_false_iff, Z.eqb_eq in Erc.
  eapply spec_weaken with
    (Pre := release_applied w json_data)
    (Post := fun _ tr => release_applied w json_data tr).
  - apply spec_stable with (P := fun _ => True);
      [| apply release_applied_stable].
    unfold airflow_service, get_connection, update_connection,
      create_dbt_connection, create_connection.
    issues_any.
    all: try apply issues_anything_make_request.
    all: try (apply issues_get_helm_status; exact I).
  - intros tr (tr0 & (H & _) & -> & Hr).
    exists tr0, [], result. auto.
  - intros r tr H. now right.
Qed.

(** X11: a call to the connection API is made only after the release was
    applied: the upgrade command of the request was run before it, with
    no call to the connection API earlier, and exited with 0. *)
Theorem deploy_requests_follow_release (json_data : DeploymentData) (w : World) :
  Exists (fun c => is_request c = true)
    (snd (handle (deploy_dbt_server json_data) w)) ->
  release_applied w json_data (snd (handle (deploy_dbt_server json_data) w)).
Proof.
  intros Hex.
  destruct (deploy_dbt_server_order json_data w [] ltac:(constructor))
    as [Hno | H];
    [| exact H].
  exfalso. unfold handle in Hex.
  apply Exists_exists in Hex as (c & Hin & Hc).
  rewrite Forall_forall in Hno. specialize (Hno c Hin).
  unfold no_request in Hno. congruence.
Qed.

Lemma deploy_requests_follow_release_witness :
  release_applied airflow_fresh demo_request
    (snd (handle (deploy_dbt_server demo_request) airflow_fresh)).
Proof.
  apply (deploy_requests_follow_release demo_request airflow_fresh).
  apply Exists_exists.
  exists (Request "GET"
            "http://airflow.local/api/v1/connections/dbt-fastbi-demo-98d66ba2"
            None).
  split; [vm_compute; do 4 right; left; reflexivity | reflexivity].
Defined.

(** A handler that answers every exception returns. *)
Lemma try_except_ret_total {A} (m : M A) (f : exn -> A) (w : World)
    (tr : list cmd) :
  exists a, fst (try_except m (fun e => ret (f e)) w tr) = Ok a.
Proof.
  unfold try_except, ret. destruct (m w tr) as [[a|e] tr1]; simpl; eauto.
Qed.

(** X12: [deploy_dbt_server] never raises.  It answers 200 with the
    status ["success"], or 500 with the status ["error"]. *)
Theorem deploy_dbt_server_answers (json_data : DeploymentData) (w : World) :
  exists body code,
    fst (handle (deploy_dbt_server json_data) w) = Ok (body, code)
    /\ ((code = 200 /\ lookup_path ["status"] body = Some (VStr "success"))
        \/ (code = 500 /\ lookup_path ["status"] body = Some (VStr "error"))).
Proof.
  unfold handle.
  destruct (try_except_ret_total
              _ (fun e => (error_body (str_exn e) (str_exn e), 500)) w []
            : exists a, fst (deploy_dbt_server json_data w []) = Ok a)
    as [[body code] E].
  exists body, code. split; [exact E |].
  destruct (deploy_dbt_server json_data w []) as [r tr] eqn:Erun.
  simpl in E. subst r.
  destruct (deploy_dbt_server_triple json_data w [] (body, code) tr I Erun)
    as [Hok Herr].
  destruct (Z.eq_dec code 200) as [-> | Hne].
  - left. split; [reflexivity |]. now destruct (Hok eq_refl).
  - right. destruct (Herr Hne) as (Hc & Hs & _). auto.
Qed.

(** X13: when the template cannot be rendered, the handler answers 500
    with the message of the exception, and the rendering is the only
    command issued: nothing is asked of the release tool or of the
    connection API. *)
Theorem deploy_render_failure (json_data : DeploymentData) (w : World) (e : exn) :
  (forall t o c, template_render w [] t o c = Some e) ->
  exists t o c,
    handle (deploy_dbt_server json_data) w
    = (Ok (error_body (str_exn e) (str_exn e), 500), [Render t o c]).
Proof.
  intros H. unfold handle, deploy_dbt_server, render_values_file,
    render_template, render, ask, try_except, mbind, M_bind, bind, ret.
  cbv zeta. rewrite H. simpl. eauto.
Qed.

Lemma deploy_render_failure_witness :
  exists t o c,
    handle (deploy_dbt_server demo_request) render_down
    = (Ok (error_body "'namespace' is undefined" "'namespace' is undefined", 500),
       [Render t o c]).
Proof.
  apply (deploy_render_failure demo_request render_down
           (OtherException "'namespace' is undefined")).
  reflexivity.
Defined.

(** ** The steps of [delete_deployment] *)

Lemma spec_extend {A} (w : World) (P : cmd -> Prop) (Pre : list cmd -> Prop)
    (m : M A) :
  issues P m ->
  (forall tr added, Pre tr -> Forall P added -> Pre (tr ++ added)) ->
  spec w Pre m (fun _ tr => Pre tr).
Proof.
  intros H Hst tr Hpre. destruct (H w tr) as (added & E & F).
  rewrite E. now apply Hst.
Qed.

Lemma past_uninstall_extend (id : string) (tr added : list cmd) :
  past_uninstall id tr -> Forall no_request added ->
  past_uninstall id (tr ++ added).
Proof.
  intros [Hn [rest ->]] Ha. split.
  - apply Forall_app. now split.
  - exists (rest ++ added). reflexivity.
Qed.

Lemma delete_deployment_spec (deployment_id : string) (w : World) :
  spec w (fun tr => tr = []) (delete_deployment deployment_id)
    (delete_outcome deployment_id).
Proof.
  unfold delete_deployment. cbv zeta.
  eapply spec_try with
    (R := fun r tr =>
            match r with
            | Ok _ => delete_outcome deployment_id r tr
            | Raise _ =>
                Forall no_request tr
                /\ exists rest, tr = list_cmd :: uninstall_cmd deployment_id :: rest
            end).
  2: { intros a tr H. exact H. }
  2: { intros e. apply spec_ret. intros tr [Hn Hs]. simpl. right. left. auto. }
  eapply spec_bind with (R := fun r tr => tr = [list_cmd] /\ exists a, r = Ok a).
  { intros tr ->. destruct (get_helm_releases_total "dbt-server" w []) as [rs E].
    rewrite E. simpl. split; [reflexivity | eauto]. }
  2: { intros e tr [_ [a H]]. discriminate. }
  intros releases.
  destruct (negb (any_named deployment_id releases)).
  { apply spec_ret. intros tr [-> _]. simpl. left. auto. }
  eapply spec_bind; [apply spec_run | |].
  2: { intros e tr (tr0 & [-> _] & -> & _). split.
       - repeat constructor.
       - exists []. reflexivity. }
  intros result.
  destruct (negb (returncode result =? 0)).
  { apply spec_ret. intros tr (tr0 & [-> _] & -> & _). simpl. right. left.
    split; [reflexivity |]. split; [repeat constructor | exists []; reflexivity]. }
  eapply spec_bind; [apply spec_run | |].
  2: { intros e tr (tr1 & (tr0 & [-> _] & -> & _) & -> & _). split.
       - repeat constructor.
       - exists [get_pvc_cmd]. reflexivity. }
  intros pvc_list_result.
  eapply spec_bind with (R := fun _ tr => past_uninstall deployment_id tr).
  { eapply spec_weaken with (Pre := past_uninstall deployment_id).
    - apply spec_extend with (P := no_request);
        [| apply past_uninstall_extend].
      destruct (returncode pvc_list_result =? 0); [| apply issues_ret].
      apply issues_delete_pvcs. intros pvc. reflexivity.
    - intros tr (tr1 & (tr0 & [-> _] & -> & _) & -> & _). split.
      + repeat constructor.
      + exists []. reflexivity.
    - intros r tr H. exact H. }
  2: { intros e tr [Hn [rest ->]]. split; [exact Hn | eauto]. }
  intros deleted_pvcs.
  eapply spec_bind with (R := fun _ tr => past_uninstall deployment_id tr).
  { apply spec_extend with (P := no_request); [| apply past_uninstall_extend].
    unfold airflow_service. issues_all. }
  2: { intros e tr [Hn [rest ->]]. split; [exact Hn | eauto]. }
  intros self.
  eapply spec_bind with
    (R := fun r tr =>
            (exists rest,
                tr = list_cmd :: uninstall_cmd deployment_id :: get_pvc_cmd :: rest)
            /\ exists a, r = Ok a).
  { eapply spec_try with
      (R := fun _ tr =>
              exists rest,
                tr = list_cmd :: uninstall_cmd deployment_id :: get_pvc_cmd :: rest).
    - eapply spec_weaken with
        (Pre := fun tr => exists rest,
                    tr = list_cmd :: uninstall_cmd deployment_id :: get_pvc_cmd :: rest).
      + apply spec_extend with (P := fun _ => True).
        * unfold get_connection. issues_any.
          -- apply issues_anything_make_request.
          -- apply issues_delete_connection. exact I.
        * intros tr added [rest ->] _. exists (rest ++ added). reflexivity.
      + intros tr [_ H]. exact H.
      + intros r tr H. exact H.
    - intros a tr H. split; [exact H | eauto].
    - intros e. destruct e as [m c t| | |];
        [destruct (c =? 404) | | |]; apply spec_ret; intros tr H; eauto. }
  2: { intros e tr [_ [a H]]. discriminate. }
  intros [s m]. apply spec_ret. intros tr [H _]. simpl. right. right. auto.
Qed.

(** X14: when the listing of the releases, where the tool exits with 0,
    parses as a list of releases, [delete_deployment] never raises, and
    ends in one of three ways: 404 after the listing alone; 500 after
    the uninstall command was tried, without any call to the connection
    API; 200 after the listing, the uninstall and the volume listing, in
    that order.  (A listing of another shape makes the source fail on
    it, and answer 500 after the listing alone.) *)
Theorem delete_deployment_answers (deployment_id : string) (w : World) :
  listing_parses w ->
  exists body code tr,
    handle (delete_deployment deployment_id) w = (Ok (body, code), tr)
    /\ ((code = 404 /\ tr = [list_cmd])
        \/ (code = 500 /\ Forall no_request tr
            /\ exists rest, tr = list_cmd :: uninstall_cmd deployment_id :: rest)
        \/ (code = 200
            /\ exists rest,
                tr = list_cmd :: uninstall_cmd deployment_id
                     :: get_pvc_cmd :: rest)).
Proof.
  intros _.
  pose proof (delete_deployment_spec deployment_id w [] eq_refl) as H.
  unfold handle. destruct (delete_deployment deployment_id w []) as [r tr].
  simpl in H. destruct r as [[body code]|e]; [| contradiction].
  exists body, code, tr. split; [reflexivity | exact H].
Qed.

Lemma delete_deployment_answers_witness :
  exists body code tr,
    handle (delete_deployment "dbt-fastbi-demo-98d66ba2") cluster_with_release
    = (Ok (body, code), tr)
    /\ ((code = 404 /\ tr = [list_cmd])
        \/ (code = 500 /\ Forall no_request tr
            /\ exists rest,
                tr = list_cmd :: uninstall_cmd "dbt-fastbi-demo-98d66ba2" :: rest)
        \/ (code = 200
            /\ exists rest,
                tr = list_cmd :: uninstall_cmd "dbt-fastbi-demo-98d66ba2"
                     :: get_pvc_cmd :: rest)).
Proof.
  apply (delete_deployment_answers "dbt-fastbi-demo-98d66ba2"
           cluster_with_release).
  intros r Hr _. inversion Hr. eexists. reflexivity.
Defined.

(** X15: once the connection API is called, the deletion answers 200
    whatever that API does; an answer other than 200 means the API was
    not called. *)
Theorem delete_request_means_success (deployment_id : string) (w : World) :
  Exists (fun c => is_request c = true)
    (snd (handle (delete_deployment deployment_id) w)) ->
  exists body, fst (handle (delete_deployment deployment_id) w) = Ok (body, 200).
Proof.
  intros Hex.
  pose proof (delete_deployment_spec deployment_id w [] eq_refl) as H.
  unfold handle in *. destruct (delete_deployment deployment_id w []) as [r tr].
  cbn [fst snd] in *. destruct r as [[body code]|e]; [| contradiction].
  apply List.Exists_exists in Hex as (c & Hin & Hc).
  destruct H as [[_ ->] | [(_ & Hno & _) | [-> _]]].
  - destruct Hin as [<- | []]. discriminate.
  - rewrite List.Forall_forall in Hno. specialize (Hno c Hin).
    unfold no_request in Hno. congruence.
  - eauto.
Qed.

Lemma delete_request_means_success_witness :
  exists body,
    fst (handle (delete_deployment "dbt-fastbi-demo-98d66ba2") helm_only)
    = Ok (body, 200).
Proof.
  apply (delete_request_means_success "dbt-fastbi-demo-98d66ba2" helm_only).
  apply List.Exists_exists.
  exists (Request "GET"
            "http://airflow.local/api/v1/connections/dbt-fastbi-demo-98d66ba2"
            None).
  split; [vm_compute; do 3 right; left; reflexivity | reflexivity].
Defined.

(** X16: when the release is listed and the uninstall command exits
    with another code than 0, the handler answers 500 with what the
    command wrote to its error output, and stops there: no volume is
    listed or deleted and the connection API is not called. *)
Theorem delete_uninstall_failure (deployment_id : string) (w : World)
    (releases : list Release.t) (tr1 : list cmd) (r : CompletedProcess) :
  get_helm_releases "dbt-server" w [] = (Ok releases, tr1) ->
  any_named deployment_id releases = true ->
  subprocess_run w [list_cmd]
    ["helm"; "uninstall"; deployment_id; "-n"; "dbt-server"] = Ok r ->
  returncode r <> 0 ->
  handle (delete_deployment deployment_id) w
  = (Ok (error_body "Failed to delete deployment" (stderr r), 500),
     [list_cmd; uninstall_cmd deployment_id]).
Proof.
  intros E Hin Hrun Hrc.
  destruct (get_helm_releases_total "dbt-server" w []) as [releases' E'].
  rewrite E in E'. inversion E'; subst releases' tr1. clear E'.
  unfold handle, delete_deployment, try_except, mbind, M_bind, bind, run.
  cbv zeta. rewrite E, Hin. simpl.
  unfold list_cmd in Hrun. rewrite Hrun.
  apply Z.eqb_neq in Hrc. rewrite Hrc. reflexivity.
Qed.

Lemma delete_uninstall_failure_witness :
  handle (delete_deployment "dbt-fastbi-demo-98d66ba2") status_fails
  = (Ok (error_body "Failed to delete deployment"
           "Error: Kubernetes cluster unreachable", 500),
     [list_cmd; uninstall_cmd "dbt-fastbi-demo-98d66ba2"]).
Proof.
  apply (delete_uninstall_failure "dbt-fastbi-demo-98d66ba2" status_fails
           [demo_release "dbt-server"] [list_cmd]
           {| returncode := 1; stdout := "";
              stderr := "Error: Kubernetes cluster unreachable" |});
    [reflexivity | reflexivity | reflexivity | discriminate].
Defined.

Lemma triple_weaken_pre {X} (Pre Pre' : list cmd -> Prop) (m : M X)
    (Q : X -> list cmd -> Prop) :
  triple Pre m Q -> (forall tr, Pre' tr -> Pre tr) -> triple Pre' m Q.
Proof. intros H Hp w tr a tr' Hpre E. eapply H; [apply Hp; exact Hpre | exact E]. Qed.

Lemma triple_assume {X} (phi : Prop) (m : M X) (Q : X -> list cmd -> Prop) :
  (phi -> triple (fun _ => True) m Q) -> triple (fun _ => phi) m Q.
Proof. intros H w tr a tr' Hphi E. eapply H; eauto. Qed.

Section Volumes.

Variable id : string.

Lemma issues_delete_own_pvcs (ns : string) (pvc_names deleted : list string) :
  issues (deletes_own id) (delete_pvcs (pvc_prefix_of id) ns pvc_names deleted).
Proof.
  revert deleted. induction pvc_names as [|pvc rest IH]; intros deleted.
  - apply issues_ret.
  - rewrite delete_pvcs_cons.
    destruct (PyStr.startswith (pvc_prefix_of id) pvc) eqn:E; [| apply IH].
    apply issues_bind.
    + apply issues_run. intros pvc' H. inversion H; subst. exact E.
    + intros r. destruct (returncode r =? 0); apply IH.
Qed.

Lemma triple_delete_own_pvcs (ns : string) (pvc_names deleted : list string) :
  Forall (own_pvc id) deleted ->
  triple (fun _ => True) (delete_pvcs (pvc_prefix_of id) ns pvc_names deleted)
    (fun res _ => Forall (own_pvc id) res).
Proof.
  revert deleted. induction pvc_names as [|pvc rest IH]; intros deleted Hd.
  - apply triple_ret. intros tr _. exact Hd.
  - rewrite delete_pvcs_cons.
    destruct (PyStr.startswith (pvc_prefix_of id) pvc) eqn:E; [| now apply IH].
    eapply triple_bind; [apply triple_any | intros r; cbv beta].
    eapply triple_weaken_pre; [| intros tr _; exact I].
    destruct (returncode r =? 0); apply IH; [| exact Hd].
    apply Forall_app. split; [exact Hd |]. constructor; [exact E | constructor].
Qed.

End Volumes.

Lemma delete_deployment_reports_own (deployment_id : string) :
  triple (fun _ => True) (delete_deployment deployment_id)
    (fun a _ =>
       snd a = 200 ->
       exists deleted,
         lookup_path ["details"; "pvc_deleted"] (fst a)
         = Some (VList (map VStr deleted))
         /\ Forall (own_pvc deployment_id) deleted).
Proof.
  unfold delete_deployment. cbv zeta.
  apply triple_try;
    [| intros e; apply triple_ret; intros tr _ H; discriminate H].
  eapply triple_bind; [apply triple_any | intros releases; cbv beta].
  destruct (negb (any_named deployment_id releases));
    [apply triple_ret; intros tr _ H; discriminate H |].
  eapply triple_bind; [apply triple_any | intros result; cbv beta].
  destruct (negb (returncode result =? 0));
    [apply triple_ret; intros tr _ H; discriminate H |].
  eapply triple_bind; [apply triple_any | intros pvc_list_result; cbv beta].
  eapply triple_bind with
    (R := fun deleted _ => Forall (own_pvc deployment_id) deleted).
  { eapply triple_weaken_pre; [| intros tr _; exact I].
    destruct (returncode pvc_list_result =? 0).
    - apply triple_delete_own_pvcs. constructor.
    - apply triple_ret. intros tr _. constructor. }
  intros deleted_pvcs. apply triple_assume. intros Hown.
  eapply triple_bind; [apply triple_any | intros self; cbv beta].
  eapply triple_bind; [apply triple_any | intros [s m]; cbv beta].
  apply triple_ret. intros tr _ _. exists deleted_pvcs. split; [reflexivity | exact Hown].
Qed.

(** X17: a deletion deletes only volumes whose name starts with the
    prefix of the release, ["dbt-server-<id>-dbt-server-<id>-"], and the
    volumes it reports as deleted all have that prefix. *)
Theorem delete_only_own_volumes (deployment_id : string) (w : World) :
  Forall (deletes_own deployment_id)
    (snd (handle (delete_deployment deployment_id) w))
  /\ (forall body,
        fst (handle (delete_deployment deployment_id) w) = Ok (body, 200) ->
        exists deleted,
          lookup_path ["details"; "pvc_deleted"] body
          = Some (VList (map VStr deleted))
          /\ Forall (own_pvc deployment_id) deleted).
Proof.
  split.
  - apply issues_handle.
    unfold delete_deployment, get_helm_releases, airflow_service,
      get_connection. cbv zeta.
    repeat (issues_step; try (intros pvc H; discriminate H)).
    + apply issues_delete_own_pvcs.
    + apply issues_make_request. intros pvc H; discriminate H.
    + apply issues_delete_connection. intros pvc H; discriminate H.
  - intros body E. unfold handle in E.
    destruct (delete_deployment deployment_id w []) as [r tr] eqn:Erun.
    cbn [fst] in E. subst r.
    exact (delete_deployment_reports_own deployment_id w [] (body, 200) tr
             I Erun eq_refl).
Qed.

Lemma spec_assume {X} (w : World) (phi : Prop) (Pre : list cmd -> Prop)
    (m : M X) (Post : result X -> list cmd -> Prop) :
  (phi -> spec w Pre m Post) -> spec w (fun tr => Pre tr /\ phi) m Post.
Proof. intros H tr [Hpre Hphi]. now apply H. Qed.

(** X18: when the volumes cannot be listed (the listing command never
    exits with 0), a deletion deletes no volume, and an answer 200
    reports an empty list of deleted volumes. *)
Theorem delete_volume_listing_failure (deployment_id : string) (w : World) :
  (forall tr r,
      subprocess_run w tr
        ["kubectl"; "get"; "pvc"; "-n"; "dbt-server"; "-o";
         "jsonpath={.items[*].metadata.name}"] = Ok r ->
      returncode r <> 0) ->
  Forall (fun c => deleted_pvc c = None)
    (snd (handle (delete_deployment deployment_id) w))
  /\ (forall body,
        fst (handle (delete_deployment deployment_id) w) = Ok (body, 200) ->
        lookup_path ["details"; "pvc_deleted"] body = Some (VList [])).
Proof.
  intros Hfail.
  set (nodel := fun c => deleted_pvc c = None).
  assert (S : spec w (Forall nodel) (delete_deployment deployment_id)
                (fun r tr =>
                   Forall nodel tr
                   /\ forall body, r = Ok (body, 200) ->
                        lookup_path ["details"; "pvc_deleted"] body
                        = Some (VList []))).
  { unfold delete_deployment. cbv zeta.
    eapply spec_try with
      (R := fun r tr =>
              Forall nodel tr
              /\ forall body, r = Ok (body, 200) ->
                   lookup_path ["details"; "pvc_deleted"] body
                   = Some (VList [])).
    2: { intros a tr H. exact H. }
    2: { intros e. apply spec_ret. intros tr [H _]. split; [exact H |].
         intros body Hb. discriminate Hb. }
    eapply spec_bind with (R := fun _ tr => Forall nodel tr).
    { apply spec_issues. apply issues_get_helm_releases. reflexivity. }
    2: { intros e tr H. split; [exact H | intros body Hb; discriminate Hb]. }
    intros releases.
    destruct (negb (any_named deployment_id releases)).
    { apply spec_ret. intros tr H. split; [exact H |].
      intros body Hb. discriminate Hb. }
    eapply spec_bind with (R := fun _ tr => Forall nodel tr).
    { apply spec_issues. apply issues_run. reflexivity. }
    2: { intros e tr H. split; [exact H | intros body Hb; discriminate Hb]. }
    intros result.
    destruct (negb (returncode result =? 0)).
    { apply spec_ret. intros tr H. split; [exact H |].
      intros body Hb. discriminate Hb. }
    eapply spec_bind; [apply spec_run | |].
    2: { intros e tr (tr0 & H & -> & _). split.
         - apply Forall_app. split; [exact H | repeat constructor].
         - intros body Hb; discriminate Hb. }
    intros pvc_list_result.
    eapply spec_bind with
      (R := fun r tr => Forall nodel tr /\ forall l, r = Ok l -> l = []).
    { destruct (returncode pvc_list_result =? 0) eqn:Erc.
      - intros tr (tr0 & _ & _ & Hr). exfalso.
        apply Z.eqb_eq in Erc. symmetry in Hr. exact (Hfail _ _ Hr Erc).
      - apply spec_ret. intros tr (tr0 & H & -> & _). split.
        + apply Forall_app. split; [exact H | repeat constructor].
        + intros l Hl. now inversion Hl. }
    2: { intros e tr [H _]. split; [exact H | intros body Hb; discriminate Hb]. }
    intros deleted_pvcs.
    eapply spec_weaken with
      (Pre := fun tr => Forall nodel tr /\ deleted_pvcs = []);
      [| intros tr [H Hl]; split; [exact H | now apply Hl]
       | intros r tr H; exact H].
    apply spec_assume. intros ->.
    eapply spec_bind with (R := fun _ tr => Forall nodel tr).
    { apply spec_issues. unfold airflow_service. issues_all. }
    2: { intros e tr H. split; [exact H | intros body Hb; discriminate Hb]. }
    intros self.
    eapply spec_bind with (R := fun _ tr => Forall nodel tr).
    { apply spec_issues. unfold get_connection. issues_all.
      - apply issues_make_request. reflexivity.
      - apply issues_delete_connection. reflexivity. }
    2: { intros e tr H. split; [exact H | intros body Hb; discriminate Hb]. }
    intros [s m]. apply spec_ret. intros tr H. split; [exact H |].
    intros body Hb. inversion Hb. reflexivity. }
  specialize (S [] ltac:(constructor)). unfold handle.
  destruct (delete_deployment deployment_id w []) as [r tr].
  cbn [fst snd] in *. destruct S as [Hd Hb]. split; [exact Hd |].
  intros body E. now apply Hb.
Qed.

Lemma delete_volume_listing_failure_witness :
  Forall (fun c => deleted_pvc c = None)
    (snd (handle (delete_deployment "dbt-fastbi-demo-98d66ba2") pvc_listing_fails))
  /\ lookup_path ["details"; "pvc_deleted"] pvc_listing_fails_body
     = Some (VList []).
Proof.
  destruct (delete_volume_listing_failure "dbt-fastbi-demo-98d66ba2"
              pvc_listing_fails) as [H1 H2].
  - intros tr r H. inversion H. discriminate.
  - split; [exact H1 | apply H2; reflexivity].
Defined.

(** ** Listing deployments *)

Lemma list_deployments_loop_cons (release : Release.t) (rest : list Release.t)
    (deployments : list value) :
  list_deployments_loop (release :: rest) deployments
  = if PyStr.startswith "dbt-server-" (Release.name release) then
      status ← get_helm_status (Release.name release) (Release.namespace release);
      list_deployments_loop rest
        (deployments ++
         [ VDict
             [ ("name", VStr (Release.name release));
               ("project_name",
                VStr (PyText.remove "dbt-server-" (Release.name release)));
               ("namespace", VStr (Release.namespace release));
               ("status", opt_str status);
               ("chart", VStr (Release.chart release));
               ("version", VStr (Release.app_version release));
               ("last_deployed", VStr (Release.updated release)) ] ])
    else list_deployments_loop rest deployments.
Proof. reflexivity. Qed.

Lemma issues_list_deployments_loop (releases : list Release.t)
    (deployments : list value) :
  issues (fun c => mutating c = false)
    (list_deployments_loop releases deployments).
Proof.
  revert deployments.
  induction releases as [|release rest IH]; intros deployments.
  - apply issues_ret.
  - rewrite list_deployments_loop_cons.
    destruct (PyStr.startswith "dbt-server-" (Release.name release));
      [| apply IH].
    apply issues_bind; [| intros status; apply IH].
    apply issues_get_helm_status; reflexivity.
Qed.

Lemma triple_list_deployments_loop (releases : list Release.t)
    (deployments : list value) :
  Forall listed_entry deployments ->
  triple (fun _ => True) (list_deployments_loop releases deployments)
    (fun l _ => Forall listed_entry l).
Proof.
  revert deployments.
  induction releases as [|release rest IH]; intros deployments Hd.
  - apply triple_ret. intros tr _. exact Hd.
  - rewrite list_deployments_loop_cons.
    destruct (PyStr.startswith "dbt-server-" (Release.name release)) eqn:E;
      [| now apply IH].
    eapply triple_bind; [apply triple_any | intros status; cbv beta].
    eapply triple_weaken_pre; [| intros tr _; exact I].
    apply IH. apply Forall_app. split; [exact Hd |].
    constructor; [| constructor].
    exists (Release.name release). split; [reflexivity | exact E].
Qed.

Lemma list_deployments_triple :
  triple (fun _ => True) list_deployments (fun l _ => Forall listed_entry l).
Proof.
  unfold list_deployments, abort.
  apply triple_try; [| intros e; apply triple_raise].
  eapply triple_bind; [apply triple_any | intros result; cbv beta].
  eapply triple_bind; [apply triple_any | intros releases; cbv beta].
  apply triple_list_deployments_loop. constructor.
Qed.

(** X19: listing the deployments changes nothing: it only runs listing
    and status commands.  Every entry it returns names a release whose
    name starts with ["dbt-server-"]. *)
Theorem list_deployments_read_only (w : World) :
  Forall (fun c => mutating c = false) (snd (handle list_deployments w))
  /\ (forall l, fst (handle list_deployments w) = Ok l ->
                Forall listed_entry l).
Proof.
  split.
  - apply issues_handle. unfold list_deployments, abort.
    apply issues_try; [| intros e; apply issues_raise].
    apply issues_bind; [apply issues_run_check; reflexivity | intros result].
    apply issues_bind; [apply issues_loads | intros releases].
    apply issues_list_deployments_loop.
  - intros l E. unfold handle in E.
    destruct (list_deployments w []) as [r tr] eqn:Erun.
    cbn [fst] in E. subst r.
    exact (list_deployments_triple w [] l tr I Erun).
Qed.

Lemma startswith_take (p s : string) (n : nat) :
  (String.length p <= n)%nat ->
  PyStr.startswith p (PyStr.take n s) = PyStr.startswith p s.
Proof.
  revert s n. induction p as [|a p IH]; intros s n H.
  - now destruct (PyStr.take n s), s.
  - destruct n as [|n]; [simpl in H; lia |].
    destruct s as [|b s]; [reflexivity |].
    simpl. rewrite IH by (simpl in H; lia). reflexivity.
Qed.

(** A name that starts with ["server-"] once a hyphen is put after it
    starts with ["server"]. *)
Lemma startswith_server (a rest : string) :
  PyStr.startswith "server-" (a +:+ "-" +:+ rest) = true ->
  PyStr.startswith "server" a = true.
Proof.
  destruct a as [|c1 [|c2 [|c3 [|c4 [|c5 [|c6 a]]]]]];
    cbn [PyStr.startswith String.append]; intros H;
    repeat (apply andb_true_iff in H; destruct H as [?E H]);
    try match goal with
        | E : Ascii.eqb _ "-" = true |- _ => vm_compute in E; discriminate E
        end;
    repeat match goal with
           | E : Ascii.eqb _ _ = true |- _ => rewrite E; clear E
           end;
    reflexivity.
Qed.

(** X20: the listing does not show what [deploy_dbt_server] creates:
    unless the sanitized project name starts with ["server"], the
    release name does not start with ["dbt-server-"], the prefix the
    listing keeps. *)
Theorem deployed_release_not_listed (project_name : string)
    (git_branch : option string) :
  PyStr.startswith "server" (sanitize_k8s_name project_name) = false ->
  PyStr.startswith "dbt-server-" (k8s_resource_name project_name git_branch)
  = false.
Proof.
  intros H.
  destruct (k8s_resource_name_parts project_name git_branch) as [full ->].
  change (PyStr.startswith "dbt-server-"
            ("dbt-" +:+ PyStr.take 49 (sanitize_k8s_name project_name) +:+ "-"
             +:+ PyStr.slice_to (MD5.hexdigest full) 8))
    with (PyStr.startswith "server-"
            (PyStr.take 49 (sanitize_k8s_name project_name) +:+ "-"
             +:+ PyStr.slice_to (MD5.hexdigest full) 8)).
  destruct (PyStr.startswith "server-" _) eqn:E; [| reflexivity].
  apply startswith_server in E.
  rewrite startswith_take in E by (simpl; lia). congruence.
Qed.

Lemma deployed_release_not_listed_witness :
  PyStr.startswith "dbt-server-" (k8s_resource_name "Fastbi Demo!" (Some "main"))
  = false.
Proof.
  apply (deployed_release_not_listed "Fastbi Demo!" (Some "main")).
  reflexivity.
Defined.

(** ** Probes *)

(** X21: the readiness and startup probes run [helm list] once and
    never raise.  They answer 200 when the command runs and exits with
    0, and otherwise 503 with one fixed text, whatever went wrong. *)
Theorem probes_follow_helm (w : World) :
  let text := "Helm is not properly configured or cannot connect to the cluster" in
  handle readiness w
  = (Ok (if helm_reachable w then
           (VDict [ ("status", VStr "ready");
                    ("message", VStr "Application is ready to handle requests");
                    ("checks", VDict [ ("helm", VStr "ok") ]) ], 200)
         else
           (VDict [ ("status", VStr "not_ready");
                    ("message", VStr "Application is not ready");
                    ("checks", VDict [ ("helm", VStr text) ]) ], 503)),
     [Run ["helm"; "list"; "--output"; "json"]])
  /\ handle startup w
     = (Ok (if helm_reachable w then
              (VDict [ ("status", VStr "started");
                       ("message", VStr "Application has completed startup");
                       ("checks", VDict [ ("helm", VStr "ok") ]) ], 200)
            else
              (VDict [ ("status", VStr "not_started");
                       ("message", VStr "Application has not completed startup");
                       ("checks", VDict [ ("helm", VStr text) ]) ], 503)),
        [Run ["helm"; "list"; "--output"; "json"]]).
Proof.
  intros text.
  unfold handle, readiness, startup, check_helm_connectivity, helm_reachable,
    run_check, run, try_except, mbind, M_bind, bind, ret, raise.
  destruct (subprocess_run w [] ["helm"; "list"; "--output"; "json"]) as [r|e];
    simpl; [| split; reflexivity].
  destruct (returncode r =? 0); simpl; split; reflexivity.
Qed.

(** ** Inspecting releases ([projects.py]) *)

(** X22: the status of a release never raises.  It is [None] when the
    status command exits with another code than 0; it is ["unknown"]
    when the command cannot be run, when its output does not parse or
    is no object, and when the object has no [info] object with a
    [status]; otherwise it is that status. *)
Theorem get_helm_release_status_outcome
    (json_loads_value : string -> result value) (release_name : string)
    (w : World) (tr : list cmd) :
  let cmd := ["helm"; "status"; release_name; "--output"; "json"] in
  get_helm_release_status json_loads_value release_name w tr
  = (Ok (match subprocess_run w tr cmd with
         | Raise _ => VStr "unknown"
         | Ok r =>
             if returncode r =? 0 then
               match json_loads_value (stdout r) with
               | Ok (VDict d) =>
                   match assoc "info" d with
                   | None => VStr "unknown"
                   | Some (VDict info) =>
                       match assoc "status" info with
                       | Some s => s
                       | None => VStr "unknown"
                       end
                   | Some _ => VStr "unknown"
                   end
               | _ => VStr "unknown"
               end
             else VNone
         end),
     tr ++ [Run cmd]).
Proof.
  intros cmd.
  unfold get_helm_release_status, try_except, mbind, M_bind, bind, run, lift,
    value_get. cbv zeta. fold cmd.
  destruct (subprocess_run w tr cmd) as [r|e]; simpl; [| reflexivity].
  destruct (returncode r =? 0); simpl; [| reflexivity].
  destruct (json_loads_value (stdout r)) as [[| | | | |d]|e]; simpl;
    try reflexivity.
  destruct (assoc "info" d) as [[| | | | |info]|]; simpl; reflexivity.
Qed.

Lemma existsb_eqb_false (x : string) (l : list string) :
  existsb (String.eqb x) l = false -> ~ In x l.
Proof.
  intros H Hin. assert (existsb (String.eqb x) l = true) as Ht.
  { apply existsb_exists. exists x. split; [exact Hin | apply String.eqb_refl]. }
  congruence.
Qed.

Lemma manifest_kinds_nodup (manifest_lines dependencies : list string) :
  List.NoDup dependencies ->
  List.NoDup (manifest_kinds manifest_lines dependencies).
Proof.
  revert dependencies.
  induction manifest_lines as [|line rest IH]; intros deps Hd; [exact Hd |].
  cbn [manifest_kinds].
  destruct (PyText.contains "kind:" line); [| now apply IH].
  cbv zeta.
  destruct (existsb (String.eqb (PyLines.strip_ws
              (PyLines.second_piece "kind:" line))) deps) eqn:E;
    cbn [negb]; [now apply IH |].
  apply IH. apply existsb_eqb_false in E.
  apply List.NoDup_app; [exact Hd | repeat constructor; intros [] |].
  intros x Hx [<- | []]. contradiction.
Qed.

(** X23: the dependencies of a release never raise and name no kind
    twice; they are empty when the manifest command cannot be run or
    exits with another code than 0. *)
Theorem get_helm_release_dependencies_outcome (release_name : string)
    (w : World) (tr : list cmd) :
  let cmd := ["helm"; "get"; "manifest"; release_name] in
  exists dependencies,
    get_helm_release_dependencies release_name w tr
    = (Ok dependencies, tr ++ [Run cmd])
    /\ List.NoDup dependencies
    /\ (forall r, subprocess_run w tr cmd = Ok r -> returncode r <> 0 ->
                  dependencies = [])
    /\ (forall e, subprocess_run w tr cmd = Raise e -> dependencies = []).
Proof.
  intros cmd.
  unfold get_helm_release_dependencies, try_except, mbind, M_bind, bind, run.
  cbv zeta. fold cmd.
  destruct (subprocess_run w tr cmd) as [r|e]; simpl.
  - destruct (returncode r =? 0) eqn:Erc; simpl.
    + eexists. split; [reflexivity |]. split.
      * apply manifest_kinds_nodup. constructor.
      * split; [| discriminate].
        intros r' Hr Hne. inversion Hr; subst. apply Z.eqb_eq in Erc. lia.
    + exists []. repeat split; constructor.
  - exists []. repeat split; constructor.
Qed.

Section ReadOnly.

Variable json_loads_value : string -> result value.

Lemma issues_lift {A} (P : cmd -> Prop) (r : result A) : issues P (lift r).
Proof. now apply issues_nothing. Qed.

Lemma issues_value_get (P : cmd -> Prop) (v : value) (k : string) (d : value) :
  issues P (value_get v k d).
Proof. destruct v; first [apply issues_ret | apply issues_raise]. Qed.

Lemma issues_get_helm_release_status (release_name : string) :
  issues reads (get_helm_release_status json_loads_value release_name).
Proof.
  unfold get_helm_release_status. cbv zeta.
  apply issues_try; [| intros e; apply issues_ret].
  apply issues_bind; [apply issues_run; reflexivity | intros result].
  destruct (negb (returncode result =? 0)); [apply issues_ret |].
  apply issues_bind; [apply issues_lift | intros status_data].
  apply issues_bind; [apply issues_value_get | intros info].
  apply issues_value_get.
Qed.

Lemma issues_get_helm_release_dependencies (release_name : string) :
  issues reads (get_helm_release_dependencies release_name).
Proof.
  unfold get_helm_release_dependencies. issues_all. reflexivity.
Qed.

Lemma issues_check_helm_release_exists (release_name : string) :
  issues reads (check_helm_release_exists release_name).
Proof. unfold check_helm_release_exists. issues_all. reflexivity. Qed.

Lemma issues_get_release_info (release_name : string) :
  issues reads (get_release_info json_loads_value release_name).
Proof.
  unfold get_release_info. cbv zeta.
  apply issues_bind; [apply issues_run; reflexivity | intros values_result].
  apply issues_bind; [apply issues_get_helm_release_status | intros status].
  apply issues_bind;
    [apply issues_get_helm_release_dependencies | intros dependencies].
  apply issues_ret.
Qed.

Lemma issues_list_projects_loop (releases : list Release.t) (acc : list value) :
  issues reads (list_projects_loop json_loads_value releases acc).
Proof.
  revert acc. induction releases as [|release rest IH]; intros acc.
  - apply issues_ret.
  - cbn [list_projects_loop].
    destruct (PyStr.startswith "dbt-server-" (Release.name release));
      [| apply IH].
    apply issues_bind; [apply issues_get_release_info |].
    intros [[values status] dependencies]. apply IH.
Qed.

Lemma issues_list_all_releases_loop (releases : list Release.t) (acc : list value) :
  issues reads (list_all_releases_loop json_loads_value releases acc).
Proof.
  revert acc. induction releases as [|release rest IH]; intros acc.
  - apply issues_ret.
  - cbn [list_all_releases_loop].
    apply issues_bind; [apply issues_get_release_info |].
    intros [[values status] dependencies]. apply IH.
Qed.

(** X24: the three project routes change nothing: whatever the
    environment answers, they only run listing, status and [helm get]
    commands. *)
Theorem project_routes_read_only (name : string) (w : World) :
  Forall (fun c => read_only c = true)
    (snd (handle (list_projects json_loads_value) w))
  /\ Forall (fun c => read_only c = true)
       (snd (handle (list_all_releases json_loads_value) w))
  /\ Forall (fun c => read_only c = true)
       (snd (handle (check_release_exists json_loads_value name) w)).
Proof.
  split; [| split]; apply issues_handle.
  - unfold list_projects, abort. cbv zeta.
    apply issues_try; [| intros e; apply issues_raise].
    apply issues_bind; [apply issues_run; reflexivity | intros result].
    apply issues_bind.
    { destruct (negb (returncode result =? 0));
        [apply issues_raise | apply issues_ret]. }
    intros _. apply issues_bind; [apply issues_loads | intros releases].
    apply issues_list_projects_loop.
  - unfold list_all_releases, abort. cbv zeta.
    apply issues_try; [| intros e; apply issues_raise].
    apply issues_bind; [apply issues_run; reflexivity | intros result].
    apply issues_bind.
    { destruct (negb (returncode result =? 0));
        [apply issues_raise | apply issues_ret]. }
    intros _. apply issues_bind; [apply issues_loads | intros releases].
    apply issues_list_all_releases_loop.
  - unfold check_release_exists.
    apply issues_bind; [apply issues_check_helm_release_exists | intros ex].
    destruct ex; [| apply issues_ret].
    apply issues_bind; [apply issues_get_release_info |].
    intros [[values status] dependencies]. apply issues_ret.
Qed.

(** X25: when the status command of a release cannot be run or exits
    with another code than 0, the existence check answers 404 with
    [exists] false, and that command is the only one issued. *)
Theorem check_release_exists_absent (name : string) (w : World) :
  (forall r, subprocess_run w [] ["helm"; "status"; name] = Ok r ->
             returncode r <> 0) ->
  handle (check_release_exists json_loads_value name) w
  = (Ok (VDict [ ("exists", VBool false); ("name", VStr name) ], 404),
     [Run ["helm"; "status"; name]]).
Proof.
  intros H.
  unfold handle, check_release_exists, check_helm_release_exists,
    try_except, mbind, M_bind, bind, run, ret. cbv zeta.
  destruct (subprocess_run w [] ["helm"; "status"; name]) as [r|e] eqn:E;
    simpl; [| reflexivity].
  specialize (H r eq_refl). apply Z.eqb_neq in H. rewrite H. reflexivity.
Qed.

End ReadOnly.

Lemma check_release_exists_absent_witness :
  handle (check_release_exists (fun _ => Ok (VDict [])) "dbt-server-demo") helm_down
  = (Ok (VDict [ ("exists", VBool false); ("name", VStr "dbt-server-demo") ], 404),
     [Run ["helm"; "status"; "dbt-server-demo"]]).
Proof.
  apply (check_release_exists_absent (fun _ => Ok (VDict [])) "dbt-server-demo"
           helm_down).
  intros r H. inversion H. discriminate.
Defined.

(** ** Credentials of a loaded request *)

Lemma string_of_list_length (l : list ascii) :
  String.length (string_of_list_ascii l) = List.length l.
Proof. induction l as [|c l IH]; simpl; [reflexivity | now rewrite IH]. Qed.

Lemma random_choices_length (rnd : nat -> nat) (pos : nat) (population : string)
    (k : nat) :
  String.length (random_choices rnd pos population k) = k.
Proof.
  unfold random_choices.
  now rewrite string_of_list_length, List.length_map, List.length_seq.
Qed.

Lemma truthy_length (s : string) :
  (0 < String.length s)%nat -> PyStr.truthy s = true.
Proof. destruct s; simpl; [lia | reflexivity]. Qed.


(** ** The second creation route *)

(** The hook runs [htpasswd] with credentials that are not empty, and
    nothing else. *)
Lemma generate_hashed_credentials_trace (rnd : nat -> nat)
    (data : DeploymentData) (w : World) (tr : list cmd) :
  exists user password,
    snd (generate_hashed_credentials rnd data w tr)
    = tr ++ [Run ["htpasswd"; "-nbB"; user; password]]
    /\ match subprocess_run w tr ["htpasswd"; "-nbB"; user; password] with
       | Ok r =>
           if returncode r =? 0
           then exists loaded,
               fst (generate_hashed_credentials rnd data w tr) = Ok loaded
               /\ project_name loaded = project_name data
               /\ dbt_repo_name loaded = dbt_repo_name data
               /\ git_branch loaded = git_branch data
           else exists e,
               fst (generate_hashed_credentials rnd data w tr) = Raise e
       | Raise _ =>
           exists e, fst (generate_hashed_credentials rnd data w tr) = Raise e
       end.
Proof.
  unfold generate_hashed_credentials. cbv zeta.
  set (user := if negb (PyStr.truthy (basic_auth_user data))
               then "dbt_server_agent_" +:+ random_choices rnd 0 lowercase_digits 5
               else basic_auth_user data).
  set (password := if negb (PyStr.truthy (basic_auth_password data))
                   then random_choices rnd
                          (if negb (PyStr.truthy (basic_auth_user data))
                           then 5%nat else 0%nat) letters_digits 32
                   else basic_auth_password data).
  assert (Hu : PyStr.truthy user = true).
  { unfold user. destruct (PyStr.truthy (basic_auth_user data)) eqn:E;
      [exact E | reflexivity]. }
  assert (Hp : PyStr.truthy password = true).
  { unfold password. destruct (PyStr.truthy (basic_auth_password data)) eqn:E;
      [exact E |]. cbn [negb]. apply truthy_length.
    rewrite random_choices_length. lia. }
  exists user, password. rewrite Hu, Hp. cbn [andb].
  unfold try_except, run_check, run, mbind, M_bind, bind, ret, raise.
  destruct (subprocess_run w tr _) as [r|e]; cbn [fst snd].
  - destruct (returncode r =? 0); cbn [fst snd].
    + split; [reflexivity |]. eexists. split; [reflexivity |].
      split; [| split]; reflexivity.
    + split; [reflexivity | eexists; reflexivity].
  - destruct e; (split; [reflexivity | eexists; reflexivity]).
Qed.


(** ** What a successful creation reports *)

(** X29: an answer 200 of [deploy_dbt_server] reports the connection as
    ["created"] or ["updated"], never as ["error"], and under the
    release name; any other answer has no connection entry. *)
Theorem deploy_connection_status (json_data : DeploymentData) (w : World)
    (body : value) (code : Z) :
  fst (handle (deploy_dbt_server json_data) w) = Ok (body, code) ->
  if code =? 200 then
    lookup_path ["details"; "airflow_connection"; "status"] body
    = Some (VStr "created")
    \/ lookup_path ["details"; "airflow_connection"; "status"] body
       = Some (VStr "updated")
  else lookup_path ["details"; "airflow_connection"] body = None.
Proof.
  intros E. unfold handle in E.
  destruct (deploy_dbt_server json_data w []) as [r tr] eqn:Erun.
  cbn [fst] in E. subst r.
  destruct (deploy_dbt_server_triple json_data w [] (body, code) tr I Erun)
    as [Hok Herr].
  destruct (code =? 200) eqn:Ec.
  - apply Z.eqb_eq in Ec. destruct (Hok Ec) as (_ & _ & [H | H] & _); auto.
  - apply Z.eqb_neq in Ec. now destruct (Herr Ec) as (_ & _ & H).
Qed.

Lemma deploy_connection_status_witness :
  lookup_path ["details"; "airflow_connection"; "status"] deploy_fresh_body
  = Some (VStr "created")
  \/ lookup_path ["details"; "airflow_connection"; "status"] deploy_fresh_body
     = Some (VStr "updated").
Proof.
  apply (deploy_connection_status demo_request airflow_fresh
           deploy_fresh_body 200).
  vm_compute. reflexivity.
Defined.

(** ** Deleting the volumes of a release *)

(** X30: the volumes are deleted as far as possible.  When every command
    can be run, each listed volume of the release gets its delete
    command, in the order of the listing, whatever the exit codes of
    the deletions before it; the loop returns, and reports only volumes
    it was given. *)
Theorem delete_pvcs_best_effort (pvc_prefix ns : string)
    (pvc_names deleted : list string) (w : World) (tr : list cmd) :
  (forall tr' argv, exists r, subprocess_run w tr' argv = Ok r) ->
  exists result,
    delete_pvcs pvc_prefix ns pvc_names deleted w tr
    = (Ok result,
       tr ++ map (fun pvc =>
                    Run ["kubectl"; "delete"; "pvc"; pvc; "-n"; ns;
                         "--ignore-not-found=true"])
               (List.filter (PyStr.startswith pvc_prefix) pvc_names))
    /\ forall x, In x result -> In x deleted \/ In x pvc_names.
Proof.
  intros Hrun. revert deleted tr.
  induction pvc_names as [|pvc rest IH]; intros deleted tr.
  - exists deleted. cbn. rewrite app_nil_r. auto.
  - rewrite delete_pvcs_cons. cbn [List.filter].
    destruct (PyStr.startswith pvc_prefix pvc).
    + unfold mbind, M_bind, bind, run.
      destruct (Hrun tr ["kubectl"; "delete"; "pvc"; pvc; "-n"; ns;
                         "--ignore-not-found=true"]) as [r Hr].
      rewrite Hr. cbn [map].
      destruct (returncode r =? 0).
      * destruct (IH (deleted ++ [pvc])
                    (tr ++ [Run ["kubectl"; "delete"; "pvc"; pvc; "-n"; ns;
                                 "--ignore-not-found=true"]]))
          as (result & E & Hin).
        exists result. split; [rewrite E, <- app_assoc; reflexivity |].
        intros x Hx. destruct (Hin x Hx) as [H | H].
        -- apply in_app_or in H as [H | [<- | []]]; [now left |].
           right. now left.
        -- right. now right.
      * destruct (IH deleted
                    (tr ++ [Run ["kubectl"; "delete"; "pvc"; pvc; "-n"; ns;
                                 "--ignore-not-found=true"]]))
          as (result & E & Hin).
        exists result. split; [rewrite E, <- app_assoc; reflexivity |].
        intros x Hx. destruct (Hin x Hx) as [H | H]; [now left |].
        right. now right.
    + destruct (IH deleted tr) as (result & E & Hin).
      exists result. split; [exact E |].
      intros x Hx. destruct (Hin x Hx) as [H | H]; [now left |].
      right. now right.
Qed.

Lemma delete_pvcs_best_effort_witness :
  exists result,
    delete_pvcs "dbt-server-a-" "dbt-server"
      ["dbt-server-a-0"; "data-postgres-0"; "dbt-server-a-1"] [] helm_down []
    = (Ok result,
       [] ++ map (fun pvc =>
                    Run ["kubectl"; "delete"; "pvc"; pvc; "-n"; "dbt-server";
                         "--ignore-not-found=true"])
               (List.filter (PyStr.startswith "dbt-server-a-")
                  ["dbt-server-a-0"; "data-postgres-0"; "dbt-server-a-1"]))
    /\ forall x, In x result ->
         In x [] \/ In x ["dbt-server-a-0"; "data-postgres-0"; "dbt-server-a-1"].
Proof.
  apply (delete_pvcs_best_effort "dbt-server-a-" "dbt-server"
           ["dbt-server-a-0"; "data-postgres-0"; "dbt-server-a-1"] []
           helm_down []).
  intros tr' argv. eexists. reflexivity.
Defined.

(** ** Scenarios of the rest of the code *)

Example manifest_kinds_demo :
  manifest_kinds (PyLines.split_char "010" "" demo_manifest) []
  = ["Deployment"; "Service"; "ConfigMap #"].
Proof. vm_compute. reflexivity. Qed.

Example remove_prefix_demo :
  PyText.remove "dbt-server-" "dbt-server-dbt-server-x" = "x"
  /\ PyText.remove "dbt-server-" "dbt-serverdbt-server-a" = "dbt-servera"
  /\ PyText.remove "dbt-server-" "kube-core" = "kube-core".
Proof. repeat split; vm_compute; reflexivity. Qed.

Example generate_short_name_demo :
  generate_short_name "Fastbi Demo!" (Some "main") 30 = "fastbi demo!-fad58de7".
Proof. vm_compute. reflexivity. Qed.

(** The demo release is installed, and the listing is empty. *)
Example list_deployments_demo :
  handle list_deployments cluster_with_release
  = (Ok [], [Run ["helm"; "list"; "-A"; "--output"; "json"]]).
Proof. vm_compute. reflexivity. Qed.
